(** * street-eda: the ordering bot of [app.py], its session state machine
      and order assembly

    A shallow embedding of [src/app.py].  The handlers of the aiogram
    dispatcher are functions in a state-and-exception monad over a [world]
    made of the committed contents of [streeteda.db], the FSM context of the
    user, the messages sent so far and a script of the failures of the
    environment (SQLite statements and Telegram calls may raise).

    What the Python runtime, SQLite's REAL column type and pydantic provide
    (float arithmetic, [float()], [int()], the Unicode tables behind [\D],
    [str.strip] and [str.lower], the validation of callback fields) and
    aiogram's command filter is the interface [PyRuntime]; every general
    theorem holds for all its implementations.  [reference_runtime] is one implementation, used to
    evaluate the handlers on concrete inputs. *)

From Stdlib Require Import ZArith QArith List String Ascii Lia.
From stdpp Require Import base option list gmap strings.

Set Default Proof Using "Type".
Local Open Scope Z_scope.

(** ** Text *)

(** A Python [str] is a sequence of Unicode code points. *)
Definition char := N.
Definition str := list char.

(** The code points of a literal of the source written in ASCII. *)
Definition lit (s : string) : str :=
  List.map N_of_ascii (list_ascii_of_string s).

Definition str_eqb (a b : str) : bool := bool_decide (a = b).

(** The code points of a literal of the source, read as UTF-8. *)
Fixpoint utf8 (bytes : list N) : str :=
  match bytes with
  | [] => []
  | b :: r =>
      if (b <? 128)%N then b :: utf8 r
      else if (b <? 224)%N then
        match r with
        | b1 :: r1 => ((b - 192) * 64 + (b1 - 128))%N :: utf8 r1
        | _ => []
        end
      else if (b <? 240)%N then
        match r with
        | b1 :: b2 :: r2 =>
            ((b - 224) * 4096 + (b1 - 128) * 64 + (b2 - 128))%N :: utf8 r2
        | _ => []
        end
      else
        match r with
        | b1 :: b2 :: b3 :: r3 =>
            ((b - 240) * 262144 + (b1 - 128) * 4096 + (b2 - 128) * 64
             + (b3 - 128))%N :: utf8 r3
        | _ => []
        end
  end.

Definition text (s : string) : str := utf8 (lit s).

Definition colon : char := 58%N.

(** [s.startswith(p)] *)
Fixpoint startswith (p s : str) : bool :=
  match p, s with
  | [], _ => true
  | c :: p', d :: s' => N.eqb c d && startswith p' s'
  | _ :: _, [] => false
  end.

(** [s.split(sep)] for a separator of one character: never empty. *)
Fixpoint split (sep : char) (s : str) : list str :=
  match s with
  | [] => [[]]
  | c :: r =>
      if N.eqb c sep then [] :: split sep r
      else match split sep r with
           | w :: ws => (c :: w) :: ws
           | [] => [[c]]
           end
  end.

(** [s.strip()]: leading and trailing whitespace removed. *)
Fixpoint lstrip (sp : char -> bool) (s : str) : str :=
  match s with
  | c :: r => if sp c then lstrip sp r else s
  | [] => []
  end.

Definition strip (sp : char -> bool) (s : str) : str :=
  rev (lstrip sp (rev (lstrip sp s))).

(** ** Exceptions *)

Inductive exn :=
| KeyError (k : string)
| ValueError
| TypeError
| AttributeError
| IndexError
| OverflowError
| IntegrityError
| DatabaseError
| TransportError.

(** ** The runtime interface *)

Class PyRuntime := {
  (** Python [float], also the values of a REAL column *)
  real : Type;
  (** an [int] used where a float is expected ([0], a quantity) *)
  of_int : Z -> real;
  radd : real -> real -> real;
  rmul : real -> real -> real;
  rltb : real -> real -> bool;
  (** SQLite binds a NaN as NULL *)
  is_nan : real -> bool;
  (** [int(x)]: raises on NaN ([ValueError]) and infinities ([OverflowError]) *)
  int_of_real : real -> exn + Z;
  (** [float(s)]: [None] is [ValueError] *)
  float_of_str : str -> option real;
  (** [\d] of [re] on [str] patterns *)
  isdecimal : char -> bool;
  (** [str.isspace] of one character, what [strip()] removes *)
  isspace : char -> bool;
  (** [str.lower] *)
  lower : str -> str;
  (** pydantic's validation of an [int] field of a callback payload *)
  validate_int : str -> option Z;
  (** aiogram's [Command(name)] ([CommandStart()] is [Command("start")])
      on the text of a message *)
  command : str -> str -> bool
}.

(** ** A reference runtime

    Floats are exact rationals extended with the infinities and NaN: the
    rounding of IEEE 754 and overflow are not reproduced.  The Unicode tables
    are those of ASCII, with the whitespace of [str.isspace] and the Cyrillic
    capitals added. *)

Inductive xreal := XFin (q : Q) | XInf (negative : bool) | XNaN.

Definition xsign (q : Q) : comparison := (Qnum q ?= 0)%Z.

Definition xadd (a b : xreal) : xreal :=
  match a, b with
  | XNaN, _ | _, XNaN => XNaN
  | XInf s, XInf t => if Bool.eqb s t then XInf s else XNaN
  | XInf s, XFin _ | XFin _, XInf s => XInf s
  | XFin p, XFin q => XFin (Qred (p + q))
  end.

Definition xmul_inf (negative : bool) (q : Q) : xreal :=
  match xsign q with
  | Eq => XNaN
  | Gt => XInf negative
  | Lt => XInf (negb negative)
  end.

Definition xmul (a b : xreal) : xreal :=
  match a, b with
  | XNaN, _ | _, XNaN => XNaN
  | XInf s, XInf t => XInf (xorb s t)
  | XInf s, XFin q | XFin q, XInf s => xmul_inf s q
  | XFin p, XFin q => XFin (Qred (p * q))
  end.

Definition xltb (a b : xreal) : bool :=
  match a, b with
  | XNaN, _ | _, XNaN => false
  | XInf s, XInf t => s && negb t
  | XInf s, XFin _ => s
  | XFin _, XInf t => negb t
  | XFin p, XFin q =>
      match (p ?= q)%Q with Lt => true | _ => false end
  end.

Definition xint (a : xreal) : exn + Z :=
  match a with
  | XFin q => inr (Z.quot (Qnum q) (Z.pos (Qden q)))
  | XInf _ => inl OverflowError
  | XNaN => inl ValueError
  end.

Definition xis_nan (a : xreal) : bool :=
  match a with XNaN => true | _ => false end.

Definition in_range (lo hi c : N) : bool := (N.leb lo c && N.leb c hi)%N.

Definition ascii_digit (c : char) : bool := in_range 48 57 c.

(** Whitespace of [Py_ISSPACE]. *)
Definition ascii_space (c : char) : bool := in_range 9 13 c || N.eqb c 32.

(** Whitespace of [str.isspace]. *)
Definition unicode_space (c : char) : bool :=
  in_range 9 13 c || in_range 28 32 c || N.eqb c 133 || N.eqb c 160
  || N.eqb c 5760 || in_range 8192 8202 c || N.eqb c 8232 || N.eqb c 8233
  || N.eqb c 8239 || N.eqb c 8287 || N.eqb c 12288.

Definition lower_char (c : char) : char :=
  if in_range 65 90 c then (c + 32)%N
  else if in_range 1040 1071 c then (c + 32)%N
  else if N.eqb c 1025 then 1105%N
  else c.

(** Digits, with single underscores between them, after a first digit. *)
Fixpoint digits_tail (s : str) : list N * str :=
  match s with
  | [] => ([], [])
  | c :: r =>
      if ascii_digit c then
        let '(ds, r') := digits_tail r in ((c - 48)%N :: ds, r')
      else if N.eqb c 95 then
        match r with
        | d :: r2 =>
            if ascii_digit d then
              let '(ds, r') := digits_tail r2 in ((d - 48)%N :: ds, r')
            else ([], s)
        | [] => ([], s)
        end
      else ([], s)
  end.

(** [digitpart ::= digit (["_"] digit)*]; no digit at the front gives []. *)
Definition digitpart (s : str) : list N * str :=
  match s with
  | c :: r =>
      if ascii_digit c then
        let '(ds, r') := digits_tail r in ((c - 48)%N :: ds, r')
      else ([], s)
  | [] => ([], [])
  end.

Definition digits_value (ds : list N) : Z :=
  fold_left (fun acc d => 10 * acc + Z.of_N d) ds 0.

Definition take_sign (s : str) : bool * str :=
  match s with
  | c :: r => if N.eqb c 45 then (true, r)
              else if N.eqb c 43 then (false, r) else (false, s)
  | [] => (false, [])
  end.

(** [exponent ::= ("e" | "E") [sign] digitpart]; nothing left after it. *)
Definition exponent (s : str) : option Z :=
  match s with
  | [] => Some 0
  | c :: r =>
      if N.eqb c 101 || N.eqb c 69 then
        let '(neg, r1) := take_sign r in
        match digitpart r1 with
        | ((_ :: _) as ds, []) =>
            Some (if neg then - digits_value ds else digits_value ds)
        | _ => None
        end
      else None
  end.

Definition scale (m e : Z) : Q :=
  if (0 <=? e)%Z then inject_Z (m * 10 ^ e)
  else Qred (Qmake m (Z.to_pos (10 ^ (- e)))).

(** [number ::= [digitpart] "." digitpart | digitpart ["."]], then the
    exponent. *)
Definition floatnumber (s : str) : option Q :=
  let '(ip, r) := digitpart s in
  let '(fp, r1, ok) :=
    match r with
    | c :: r' =>
        if N.eqb c 46 then
          let '(fp, r1) := digitpart r' in
          (fp, r1, match ip, fp with [], [] => false | _, _ => true end)
        else ([], r, match ip with [] => false | _ => true end)
    | [] => ([], [], match ip with [] => false | _ => true end)
    end in
  if ok then
    match exponent r1 with
    | Some e =>
        Some (scale (digits_value (ip ++ fp)) (e - Z.of_nat (length fp)))
    | None => None
    end
  else None.

Definition xfloat (s : str) : option xreal :=
  let t := List.map (fun c => if (N.ltb c 128) then c
                              else if unicode_space c then 32%N else c) s in
  let '(neg, body) := take_sign (strip ascii_space t) in
  let low := List.map lower_char body in
  if str_eqb low (lit "inf") || str_eqb low (lit "infinity") then
    Some (XInf neg)
  else if str_eqb low (lit "nan") then Some XNaN
  else match floatnumber body with
       | Some q => Some (XFin (if neg then Qred (- q) else q))
       | None => None
       end.

Definition xvalidate_int (s : str) : option Z :=
  let '(neg, body) := take_sign s in
  match digitpart body with
  | ((_ :: _) as ds, []) =>
      Some (if neg then - digits_value ds else digits_value ds)
  | _ => None
  end.

(** [Command(name)]: the first word of the text, cut at its first [@], is
    [/] followed by the name; arguments may follow.  The bot is taken to have
    no username, so that a mention after the [@] is let through. *)
Fixpoint first_word (s : str) : str :=
  match s with
  | c :: r => if unicode_space c then [] else c :: first_word r
  | [] => []
  end.

Fixpoint before_at (s : str) : str :=
  match s with
  | c :: r => if N.eqb c 64 then [] else c :: before_at r
  | [] => []
  end.

Definition xcommand (name text : str) : bool :=
  match first_word (lstrip unicode_space text) with
  | c :: r => N.eqb c 47 && str_eqb (before_at r) name
  | [] => false
  end.

#[global] Instance reference_runtime : PyRuntime := {|
  real := xreal;
  of_int z := XFin (inject_Z z);
  radd := xadd;
  rmul := xmul;
  rltb := xltb;
  is_nan := xis_nan;
  int_of_real := xint;
  float_of_str := xfloat;
  isdecimal := ascii_digit;
  isspace := unicode_space;
  lower := List.map lower_char;
  validate_int := xvalidate_int;
  command := xcommand
|}.

(** ** States of the two dialogues ([OrderState], [AdminState]) *)

Inductive fsm_state :=
| awaiting_name
| awaiting_phone
| awaiting_address
| awaiting_comment
| awaiting_final_confirmation
| awaiting_new_category_name
| await_new_item_name
| await_new_item_price
| await_new_price
| await_new_setting_value.

(** ** Incoming events *)

Record Message := {
  m_chat_id : Z;               (* message.chat.id *)
  m_from_id : Z;               (* message.from_user.id *)
  m_text : option str;         (* message.text, None when there is no text *)
  m_contact : option str       (* message.contact.phone_number *)
}.

Record CallbackQuery := {
  q_from_id : Z;               (* q.from_user.id *)
  q_chat_id : Z;               (* q.message.chat.id *)
  q_message_id : Z;            (* q.message.message_id *)
  q_data : str                 (* q.data *)
}.

(** [AdminCallback], prefix "admin". *)
Record AdminCallback := {
  action : str;
  category_id : option Z;
  item_id : option Z;
  setting_key : option str
}.

Section Bot.

Context {R : PyRuntime}.

(** [ADMIN_IDS], read from the environment when the module is loaded. *)
Variable ADMIN_IDS : list Z.

(** ** Values: what a session field or a column of SQLite holds *)

Inductive value :=
| VStr (s : str)
| VReal (r : real)
| VInt (z : Z)
| VNone.

Definition is_str (v : value) (s : str) : bool :=
  match v with VStr t => str_eqb t s | _ => false end.

Definition opt_str (o : option str) : value :=
  match o with Some s => VStr s | None => VNone end.

Definition opt_int (o : option Z) : value :=
  match o with Some z => VInt z | None => VNone end.

(** ** The database [streeteda.db] *)

Record category := { cat_id : Z; cat_name : str }.

Record menu_item := {
  mi_id : Z;
  mi_name : value;             (* TEXT NOT NULL *)
  mi_description : value;
  mi_price : real;             (* REAL NOT NULL *)
  mi_photo_id : value;
  mi_category_id : value
}.

Record cart_row := { c_user_id : Z; c_item_id : Z; c_quantity : Z }.

(** [status] takes its default 'new'; [created_at] is the clock of SQLite
    and is left out. *)
Record order_row := {
  o_id : Z;
  o_user_id : Z;
  o_user_name : value;
  o_phone_number : value;
  o_delivery_type : value;
  o_address : value;
  o_comment : value;
  o_total_amount : value;
  o_status : str
}.

Record order_item := {
  oi_id : Z;
  oi_order_id : Z;
  oi_item_name : value;
  oi_quantity : Z;
  oi_price_per_item : option real
}.

Record setting := { s_key : str; s_value : option real }.

Record database := {
  categories : list category;
  menu_items : list menu_item;
  cart : list cart_row;
  orders : list order_row;
  order_items : list order_item;
  settings : list setting
}.

(** ** What the bot sends

    One constructor per message of the source; the wording, the keyboards
    and the lists they show are not reproduced, the numbers that [int()]
    formats are. *)

Inductive reply :=
| Welcome
| ChooseCategory
| ChooseItem
| CartView (total : option Z)
| CartEmpty                              (* "Ваша корзина пуста." *)
| CartEmptyAlert                         (* "Ваша корзина пуста!" *)
| AddedToCart
| RemovedFromCart
| CartCleared
| AskName
| AskPhone
| PhoneAccepted
| ChooseDelivery
| PhoneInvalid
| AskAddress
| AskComment
| AddressTooShort
| ReviewOrder (subtotal total : Z)
| NewOrderNotice (admin : Z) (total : Z)
| OrderNumberNotice (admin : Z) (order : Z)
| OrderAccepted (order : Z)
| MayOrderAgain
| OrderCancelled
| MayContinue
| MessageDeleted
| Ack
| AdminPanel
| ManageCategories                       (* the five views of the admin: *)
| ManageItems                            (* built in the source, never sent, *)
| EditItem                               (* see section 6 *)
| SettingsView (fee threshold : Z)
| DeletionMenu
| AskCategoryName
| CategoryExists
| CategoryAdded (name : str)
| AskItemName
| AskItemPrice
| ItemAdded
| AskNewPrice
| PriceUpdated (price : Z)
| PriceNotANumber
| AskSettingValue (key : option str)
| SettingUpdated
| SettingNotANumber
| CategoryDeleted
| ItemDeleted.

(** ** The world and the monad of the handlers *)

Record world := World {
  w_db : database;                  (* committed contents of the database *)
  w_state : option fsm_state;       (* FSM state of the user, None = idle *)
  w_data : gmap string value;       (* FSM data of the user *)
  w_sent : list reply;              (* calls made to Telegram, oldest first *)
  w_faults : list bool              (* for each coming call to SQLite or
                                       Telegram, whether it raises; none
                                       does once the list is used up *)
}.

Inductive outcome (A : Type) :=
| Ok (a : A) (w : world)
| Raise (e : exn) (w : world).
Arguments Ok {A} a w.
Arguments Raise {A} e w.

Definition M (A : Type) : Type := world -> outcome A.

#[global] Instance M_ret : MRet M := fun A a w => Ok a w.

#[global] Instance M_bind : MBind M := fun A B f m w =>
  match m w with
  | Ok a w' => f a w'
  | Raise e w' => Raise e w'
  end.

Definition raise {A} (e : exn) : M A := fun w => Raise e w.

(** [try: body except <caught>: handler] *)
Definition try_except {A} (body : M A) (caught : exn -> bool)
    (handler : M A) : M A := fun w =>
  match body w with
  | Ok a w' => Ok a w'
  | Raise e w' => if caught e then handler w' else Raise e w'
  end.

Definition lift {A} (r : exn + A) : M A :=
  match r with inl e => raise e | inr a => mret a end.

(** The world where a handler ends, returned or raised. *)
Definition final {A} (o : outcome A) : world :=
  match o with Ok _ w => w | Raise _ w => w end.

Definition returned {A} (o : outcome A) : bool :=
  match o with Ok _ _ => true | Raise _ _ => false end.

Definition gets {A} (f : world -> A) : M A := fun w => Ok (f w) w.

Definition modify (f : world -> world) : M unit := fun w => Ok tt (f w).

Definition with_db (db : database) (w : world) : world :=
  {| w_db := db; w_state := w_state w; w_data := w_data w;
     w_sent := w_sent w; w_faults := w_faults w |}.

Definition with_state (s : option fsm_state) (w : world) : world :=
  {| w_db := w_db w; w_state := s; w_data := w_data w;
     w_sent := w_sent w; w_faults := w_faults w |}.

Definition with_data (d : gmap string value) (w : world) : world :=
  {| w_db := w_db w; w_state := w_state w; w_data := d;
     w_sent := w_sent w; w_faults := w_faults w |}.

Definition with_sent (l : list reply) (w : world) : world :=
  {| w_db := w_db w; w_state := w_state w; w_data := w_data w;
     w_sent := l; w_faults := w_faults w |}.

Definition with_faults (l : list bool) (w : world) : world :=
  {| w_db := w_db w; w_state := w_state w; w_data := w_data w;
     w_sent := w_sent w; w_faults := l |}.

(** An input is refused: nothing changes but the reply [r] that is sent,
    and the handler returns when no call fails. *)
Definition refused (o : outcome unit) (w : world) (r : reply) : Prop :=
  w_db (final o) = w_db w /\
  w_state (final o) = w_state w /\
  w_data (final o) = w_data w /\
  (w_faults w = [] ->
   o = Ok tt (World (w_db w) (w_state w) (w_data w) (w_sent w ++ [r]) [])).

(** A call that leaves the process: it raises [e] when the script of the
    environment says so. *)
Definition env_call (e : exn) : M unit := fun w =>
  match w_faults w with
  | [] => Ok tt w
  | b :: rest =>
      if b then Raise e (with_faults rest w) else Ok tt (with_faults rest w)
  end.

Fixpoint for_each {A} (l : list A) (body : A -> M unit) : M unit :=
  match l with
  | [] => mret tt
  | x :: r => body x ;; for_each r body
  end.

(** *** FSMContext (memory storage) *)

Definition get_data : M (gmap string value) := gets w_data.

Definition get_state : M (option fsm_state) := gets w_state.

Definition set_data (d : gmap string value) : M unit := modify (with_data d).

Definition update_data (k : string) (v : value) : M unit :=
  modify (fun w => with_data (<[k:=v]> (w_data w)) w).

Definition set_state (s : option fsm_state) : M unit := modify (with_state s).

(** [state.clear()]: no state, no data. *)
Definition clear : M unit := set_state None ;; set_data ∅.

(** [data[k]] *)
Definition item {V} (d : gmap string V) (k : string) : M V :=
  match d !! k with Some v => mret v | None => raise (KeyError k) end.

(** [data.get(k, default)] *)
Definition get_or {V} (d : gmap string V) (k : string) (default : V) : V :=
  match d !! k with Some v => v | None => default end.

(** *** Telegram *)

Definition send (r : reply) : M unit :=
  env_call TransportError ;;
  modify (fun w => with_sent (w_sent w ++ [r]) w).

(** *** aiosqlite

    A statement maps the contents seen by the connection to an error or to
    the new contents and a cursor.  A connection starts from the committed
    contents; [commit] makes its writes durable; a connection that is closed
    without a commit leaves no trace. *)

Record cursor (A : Type) := { fetched_rows : list A; lastrowid : Z }.
Arguments fetched_rows {A} c.
Arguments lastrowid {A} c.

Definition sql (A : Type) : Type := database -> exn + (database * cursor A).

Definition connect : M database :=
  env_call DatabaseError ;; gets w_db.

Definition execute {A} (conn : database) (q : sql A) : M (database * cursor A) :=
  env_call DatabaseError ;; lift (q conn).

Definition commit (conn : database) : M unit :=
  env_call DatabaseError ;; modify (with_db conn).

Inductive fetched (A : Type) :=
| NoResult
| OneRow (r : option A)
| AllRows (rs : list A).
Arguments NoResult {A}.
Arguments OneRow {A} r.
Arguments AllRows {A} rs.

Definition db_query {A} (query : sql A) (fetchone commit_ : bool) : M (fetched A) :=
  conn ← connect;
  '(conn', cur) ← execute conn query;
  if commit_ then commit conn' ;; mret NoResult
  else if fetchone then mret (OneRow (head (fetched_rows cur)))
  else mret (AllRows (fetched_rows cur)).

Definition fetchall {A} (query : sql A) : M (list A) :=
  r ← db_query query false false;
  mret (match r with AllRows rs => rs | _ => [] end).

Definition fetchone {A} (query : sql A) : M (option A) :=
  r ← db_query query true false;
  mret (match r with OneRow r => r | _ => None end).

Definition run_commit (query : sql unit) : M unit :=
  db_query query false true ;; mret tt.

(** ** The statements of the source

    [ORDER BY] is dropped from the queries whose rows are only rendered. *)

Definition rows {A} (f : database -> list A) : sql A :=
  fun db => inr (db, {| fetched_rows := f db; lastrowid := 0 |}).

Definition dml (f : database -> exn + database) : sql unit :=
  fun db =>
    match f db with
    | inl e => inl e
    | inr db' => inr (db', {| fetched_rows := []; lastrowid := 0 |})
    end.

(** The rowid that an INTEGER PRIMARY KEY takes on insertion. *)
Definition next_rowid (ids : list Z) : Z :=
  match ids with
  | [] => 1
  | x :: r => 1 + fold_right Z.max x r
  end.

(** [column = ?] on an integer column, the parameter being an [int] or
    [None]: NULL equals nothing. *)
Definition eq_param (col : Z) (p : value) : bool :=
  match p with VInt z => Z.eqb col z | _ => false end.

Definition eq_column (col p : value) : bool :=
  match col with VInt c => eq_param c p | _ => false end.

(** A REAL bound from Python: a NaN arrives as NULL. *)
Definition bind_real (r : real) : option real :=
  if is_nan r then None else Some r.

(** A Python value bound to a REAL column. *)
Definition bind_value (v : value) : value :=
  match v with
  | VReal r => if is_nan r then VNone else VReal r
  | VInt z => VReal (of_int z)
  | _ => v
  end.

Definition with_categories (l : list category) (db : database) : database :=
  {| categories := l; menu_items := menu_items db; cart := cart db;
     orders := orders db; order_items := order_items db;
     settings := settings db |}.

Definition with_menu_items (l : list menu_item) (db : database) : database :=
  {| categories := categories db; menu_items := l; cart := cart db;
     orders := orders db; order_items := order_items db;
     settings := settings db |}.

Definition with_cart (l : list cart_row) (db : database) : database :=
  {| categories := categories db; menu_items := menu_items db; cart := l;
     orders := orders db; order_items := order_items db;
     settings := settings db |}.

Definition with_orders (l : list order_row) (db : database) : database :=
  {| categories := categories db; menu_items := menu_items db; cart := cart db;
     orders := l; order_items := order_items db; settings := settings db |}.

Definition with_order_items (l : list order_item) (db : database) : database :=
  {| categories := categories db; menu_items := menu_items db; cart := cart db;
     orders := orders db; order_items := l; settings := settings db |}.

Definition with_settings (l : list setting) (db : database) : database :=
  {| categories := categories db; menu_items := menu_items db; cart := cart db;
     orders := orders db; order_items := order_items db; settings := l |}.

(** [SELECT id, name FROM categories ORDER BY id] *)
Definition select_categories : sql category := rows categories.

(** [SELECT id, name, price FROM menu_items WHERE category_id = ?] *)
Definition select_items_of (cat : value) : sql menu_item :=
  rows (fun db => List.filter (fun i => eq_column (mi_category_id i) cat)
                         (menu_items db)).

(** A row of [cart c JOIN menu_items mi ON c.item_id = mi.id]. *)
Record cart_line := {
  cl_item_id : Z;
  cl_name : value;
  cl_price : real;
  cl_quantity : Z
}.

Definition join_line (db : database) (c : cart_row) : list cart_line :=
  List.map (fun i => {| cl_item_id := mi_id i; cl_name := mi_name i;
                        cl_price := mi_price i; cl_quantity := c_quantity c |})
           (List.filter (fun i => Z.eqb (c_item_id c) (mi_id i)) (menu_items db)).

(** The rows of [cart] with [user_id = ?]. *)
Definition cart_of (user : Z) (db : database) : list cart_row :=
  List.filter (fun c => Z.eqb (c_user_id c) user) (cart db).

Definition cart_lines (user : Z) (db : database) : list cart_line :=
  flat_map (join_line db) (cart_of user db).

(** [SELECT mi.id, mi.name, mi.price, c.quantity FROM cart c JOIN menu_items mi
     ON c.item_id = mi.id WHERE c.user_id = ?]; [confirm_order] selects the
    same rows without [mi.id]. *)
Definition select_cart_lines (user : Z) : sql cart_line := rows (cart_lines user).

(** [SELECT 1 FROM cart WHERE user_id = ?] *)
Definition select_cart_exists (user : Z) : sql Z :=
  rows (fun db => List.map (fun _ => 1) (cart_of user db)).

(** [SELECT key, value FROM settings] *)
Definition select_settings : sql setting := rows settings.

(** [SELECT id FROM categories WHERE name = ?] *)
Definition select_category_named (name : str) : sql Z :=
  rows (fun db => List.map cat_id
                    (List.filter (fun c => str_eqb (cat_name c) name)
                            (categories db))).

(** [SELECT name, category_id FROM menu_items WHERE id = ?] *)
Definition select_item (id : value) : sql (value * value) :=
  rows (fun db => List.map (fun i => (mi_name i, mi_category_id i))
                    (List.filter (fun i => eq_param (mi_id i) id)
                            (menu_items db))).

(** [INSERT INTO categories (name) VALUES (?)]; [name] is UNIQUE. *)
Definition with_new_category (name : str) (db : database) : database :=
  with_categories
    (categories db ++
     [{| cat_id := next_rowid (List.map cat_id (categories db));
         cat_name := name |}]) db.

Definition insert_category (name : str) : sql unit :=
  dml (fun db =>
    if existsb (fun c => str_eqb (cat_name c) name) (categories db)
    then inl IntegrityError
    else inr (with_new_category name db)).

(** [INSERT INTO menu_items (name, price, category_id) VALUES (?, ?, ?)];
    [name] and [price] are NOT NULL. *)
Definition insert_menu_item (name : value) (price : real) (cat : value) : sql unit :=
  dml (fun db =>
    match name, bind_real price with
    | VNone, _ | _, None => inl IntegrityError
    | _, Some p =>
        inr (with_menu_items
               (menu_items db ++
                [{| mi_id := next_rowid (List.map mi_id (menu_items db));
                    mi_name := name; mi_description := VNone; mi_price := p;
                    mi_photo_id := VNone; mi_category_id := cat |}]) db)
    end).

Definition set_price (p : real) (i : menu_item) : menu_item :=
  {| mi_id := mi_id i; mi_name := mi_name i;
     mi_description := mi_description i; mi_price := p;
     mi_photo_id := mi_photo_id i; mi_category_id := mi_category_id i |}.

(** [UPDATE menu_items SET price = ? WHERE id = ?] *)
Definition update_price (price : real) (id : value) : sql unit :=
  dml (fun db =>
    match bind_real price with
    | Some p =>
        inr (with_menu_items
               (List.map (fun i => if eq_param (mi_id i) id then set_price p i else i)
                         (menu_items db)) db)
    | None =>
        if existsb (fun i => eq_param (mi_id i) id) (menu_items db)
        then inl IntegrityError else inr db
    end).

(** [UPDATE settings SET value = ? WHERE key = ?] *)
Definition update_setting (v : real) (key : value) : sql unit :=
  dml (fun db =>
    inr (with_settings
           (List.map (fun s => if is_str key (s_key s)
                               then {| s_key := s_key s; s_value := bind_real v |}
                               else s)
                     (settings db)) db)).

(** An [int] that SQLite can take as an INTEGER: 64 bits, signed. *)
Definition in_int64 (z : Z) : bool := (- 2 ^ 63 <=? z) && (z <? 2 ^ 63).

(** [INSERT OR REPLACE INTO cart (user_id, item_id, quantity) VALUES (?, ?,
     COALESCE((SELECT quantity FROM cart WHERE user_id = ? AND item_id = ?), 0) + 1)];
    the item id is the one of the callback payload, which the client sends:
    [sqlite3] refuses to bind an [int] beyond 64 bits with an
    [OverflowError], and nothing is written.  (The user id is Telegram's.) *)
Definition same_line (user item : Z) (c : cart_row) : bool :=
  Z.eqb (c_user_id c) user && Z.eqb (c_item_id c) item.

Definition upsert_cart_line (user item : Z) : sql unit :=
  dml (fun db =>
    if in_int64 item then
      let old := match List.filter (fun c => same_line user item c) (cart db) with
                 | c :: _ => c_quantity c
                 | [] => 0
                 end in
      inr (with_cart
             (List.filter (fun c => negb (same_line user item c)) (cart db) ++
              [{| c_user_id := user; c_item_id := item; c_quantity := old + 1 |}])
             db)
    else inl OverflowError).

(** [DELETE FROM cart WHERE user_id = ? AND item_id = ?] *)
Definition delete_cart_line (user item : Z) : sql unit :=
  dml (fun db =>
    inr (with_cart (List.filter (fun c => negb (same_line user item c)) (cart db)) db)).

(** [DELETE FROM cart WHERE user_id = ?] *)
Definition delete_cart_of (user : Z) : sql unit :=
  dml (fun db =>
    inr (with_cart (List.filter (fun c => negb (Z.eqb (c_user_id c) user)) (cart db)) db)).

(** [DELETE FROM cart WHERE item_id IN
     (SELECT id FROM menu_items WHERE category_id = ?)] *)
Definition item_in_category (db : database) (cat : value) (item : Z) : bool :=
  existsb (fun i => Z.eqb (mi_id i) item && eq_column (mi_category_id i) cat)
          (menu_items db).

Definition delete_cart_of_category (cat : value) : sql unit :=
  dml (fun db =>
    inr (with_cart
           (List.filter (fun c => negb (item_in_category db cat (c_item_id c))) (cart db))
           db)).

(** [DELETE FROM menu_items WHERE category_id = ?] *)
Definition delete_items_of (cat : value) : sql unit :=
  dml (fun db =>
    inr (with_menu_items
           (List.filter (fun i => negb (eq_column (mi_category_id i) cat)) (menu_items db))
           db)).

(** [DELETE FROM categories WHERE id = ?] *)
Definition delete_category (cat : value) : sql unit :=
  dml (fun db =>
    inr (with_categories
           (List.filter (fun c => negb (eq_param (cat_id c) cat)) (categories db)) db)).

(** The three deletions of a category, one after the other. *)
Definition cascade (cat : value) (db : database) : database :=
  let db1 :=
    with_cart
      (List.filter (fun c => negb (item_in_category db cat (c_item_id c))) (cart db))
      db in
  let db2 :=
    with_menu_items
      (List.filter (fun i => negb (eq_column (mi_category_id i) cat)) (menu_items db1))
      db1 in
  with_categories
    (List.filter (fun c => negb (eq_param (cat_id c) cat)) (categories db2)) db2.

(** [DELETE FROM cart WHERE item_id = ?] *)
Definition delete_cart_of_item (item : value) : sql unit :=
  dml (fun db =>
    inr (with_cart (List.filter (fun c => negb (eq_param (c_item_id c) item)) (cart db)) db)).

(** [DELETE FROM menu_items WHERE id = ?] *)
Definition delete_item (item : value) : sql unit :=
  dml (fun db =>
    inr (with_menu_items
           (List.filter (fun i => negb (eq_param (mi_id i) item)) (menu_items db)) db)).

(** [INSERT INTO orders (user_id, user_name, phone_number, delivery_type,
     address, comment, total_amount) VALUES (?, ?, ?, ?, ?, ?, ?)] *)
Definition add_order (user : Z) (name phone delivery address comment total : value)
    (db : database) : database :=
  with_orders
    (orders db ++
     [{| o_id := next_rowid (List.map o_id (orders db)); o_user_id := user;
         o_user_name := name; o_phone_number := phone;
         o_delivery_type := delivery; o_address := address;
         o_comment := comment; o_total_amount := bind_value total;
         o_status := lit "new" |}]) db.

Definition insert_order (user : Z) (name phone delivery address comment total : value)
    : sql unit :=
  fun db =>
    inr (add_order user name phone delivery address comment total db,
         {| fetched_rows := [];
            lastrowid := next_rowid (List.map o_id (orders db)) |}).

(** [INSERT INTO order_items (order_id, item_name, quantity, price_per_item)
     VALUES (?, ?, ?, ?)] *)
Definition add_order_item (order : Z) (line : cart_line) (db : database) : database :=
  with_order_items
    (order_items db ++
     [{| oi_id := next_rowid (List.map oi_id (order_items db));
         oi_order_id := order; oi_item_name := cl_name line;
         oi_quantity := cl_quantity line;
         oi_price_per_item := bind_real (cl_price line) |}]) db.

Definition insert_order_item (order : Z) (line : cart_line) : sql unit :=
  dml (fun db => inr (add_order_item order line db)).

(** ** Python helpers *)

(** [sum(xs)]: from the int 0, left to right. *)
Definition py_sum (xs : list real) : real := fold_left radd xs (of_int 0).

(** [{key: value for key, value in settings_list}] *)
Definition settings_dict (l : list setting) : gmap str (option real) :=
  fold_left (fun d s => <[s_key s := s_value s]> d) l ∅.

(** [settings[k]] *)
Definition setting_item (d : gmap str (option real)) (k : string) : M (option real) :=
  match d !! lit k with Some v => mret v | None => raise (KeyError k) end.

(** [settings.get(k, default)] *)
Definition get_or_key (d : gmap str (option real)) (k : str) (default : option real)
    : option real :=
  match d !! k with Some v => v | None => default end.

(** A number is required: [None] in arithmetic or in [int()] is a
    [TypeError]. *)
Definition number (o : option real) : M real :=
  match o with Some r => mret r | None => raise TypeError end.

(** [int(x)] of a float. *)
Definition py_int (r : real) : M Z := lift (int_of_real r).

(** [int(v)] of a session value; under the key where it is used the value
    is never a string. *)
Definition int_of_value (v : value) : exn + Z :=
  match v with
  | VReal r => int_of_real r
  | VInt z => inr z
  | VStr _ => inl ValueError
  | VNone => inl TypeError
  end.

Definition py_int_value (v : value) : M Z := lift (int_of_value v).

Fixpoint map_m {A B} (f : A -> M B) (l : list A) : M (list B) :=
  match l with
  | [] => mret []
  | x :: r => y ← f x; ys ← map_m f r; mret (y :: ys)
  end.

(** [message.text] where a [str] is required. *)
Definition text_or (e : exn) (message : Message) : M str :=
  match m_text message with Some t => mret t | None => raise e end.

(** [if message_id:] *)
Definition truthy (id : option Z) : bool :=
  match id with Some z => negb (Z.eqb z 0) | None => false end.

Definition any_exception (e : exn) : bool := true.

Definition is_ValueError (e : exn) : bool :=
  match e with ValueError => true | _ => false end.

(** ** 5. UI and logic functions (user) *)

Definition show_categories (message_id : option Z) : M unit :=
  _ ← fetchall select_categories;
  try_except (send ChooseCategory) any_exception
    (if truthy message_id then send ChooseCategory else mret tt).

Definition show_items_in_category (category_id : Z) : M unit :=
  items ← fetchall (select_items_of (VInt category_id));
  _ ← map_m (fun i => py_int (mi_price i)) items;
  send ChooseItem.

Definition line_total (l : cart_line) : real :=
  rmul (cl_price l) (of_int (cl_quantity l)).

Definition show_cart (chat_id : Z) (message_id : option Z) (message : bool) : M unit :=
  cart_items ← fetchall (select_cart_lines chat_id);
  view ←
    match cart_items with
    | [] => mret (CartView None)
    | _ =>
        let total_price := py_sum (List.map line_total cart_items) in
        _ ← map_m (fun l => _ ← py_int (cl_price l); py_int (line_total l)) cart_items;
        t ← py_int total_price;
        mret (CartView (Some t))
    end;
  try_except
    (if truthy message_id then send view
     else if message then send view else mret tt)
    any_exception
    (if truthy message_id && message then send view else mret tt).

Definition confirm_order (message : Message) : M unit :=
  data ← get_data;
  let chat_id := m_chat_id message in
  cart_items ← fetchall (select_cart_lines chat_id);
  let subtotal := py_sum (List.map line_total cart_items) in
  settings_list ← fetchall select_settings;
  let settings := settings_dict settings_list in
  delivery_type ← item data "delivery_type";
  delivery_cost ←
    (if is_str delivery_type (lit "delivery") then
       threshold ← setting_item settings "free_delivery_threshold";
       threshold ← number threshold;
       if rltb subtotal threshold then
         delivery_cost ← setting_item settings "delivery_fee";
         delivery_cost ← number delivery_cost;
         _ ← py_int delivery_cost;
         mret delivery_cost
       else
         _ ← py_int threshold;
         mret (of_int 0)
     else mret (of_int 0));
  let final_total := radd subtotal delivery_cost in
  update_data "final_total" (VReal final_total);;
  _ ← item data "name";
  _ ← item data "phone";
  shown_subtotal ← py_int subtotal;
  shown_total ← py_int final_total;
  set_state (Some awaiting_final_confirmation);;
  send (ReviewOrder shown_subtotal shown_total).

Fixpoint insert_order_items (order_id : Z) (cart_items : list cart_line)
    (conn : database) : M database :=
  match cart_items with
  | [] => mret conn
  | line :: rest =>
      '(conn, _) ← execute conn (insert_order_item order_id line);
      insert_order_items order_id rest conn
  end.

(** The body of the loop over [ADMIN_IDS]: a failure is logged, no more. *)
Definition notify_admin (shown_total order_id admin_id : Z) : M unit :=
  try_except
    (send (NewOrderNotice admin_id shown_total);;
     send (OrderNumberNotice admin_id order_id))
    any_exception (mret tt).

Definition process_final_confirmation (query : CallbackQuery) : M unit :=
  let chat_id := q_from_id query in
  data ← get_data;
  cart_items ← fetchall (select_cart_lines chat_id);
  match cart_items with
  | [] => send CartEmpty;; clear
  | _ =>
      let final_total := get_or data "final_total" (VInt 0) in
      delivery_type ← item data "delivery_type";
      name ← item data "name";
      phone ← item data "phone";
      _ ← map_m (fun l => py_int (line_total l)) cart_items;
      shown_total ← py_int_value final_total;
      conn ← connect;
      '(conn, cur) ←
        execute conn
          (insert_order chat_id name phone delivery_type
             (get_or data "address" (VStr []))
             (get_or data "comment" (VStr [])) final_total);
      let order_id := lastrowid cur in
      conn ← insert_order_items order_id cart_items conn;
      commit conn;;
      for_each ADMIN_IDS (notify_admin shown_total order_id);;
      send (OrderAccepted order_id);;
      send MayOrderAgain;;
      run_commit (delete_cart_of chat_id);;
      clear
  end.

(** The user's rows deleted from the cart. *)
Definition cart_cleared (user : Z) (db : database) : database :=
  with_cart (List.filter (fun c => negb (Z.eqb (c_user_id c) user)) (cart db)) db.

(** What the transaction of a confirmation writes: the order, then a line
    for each line of the cart. *)
Definition commit_order (user : Z) (data : gmap string value)
    (lines : list cart_line) (db : database) : database :=
  let order_id := next_rowid (List.map o_id (orders db)) in
  fold_left (fun conn line => add_order_item order_id line conn) lines
    (add_order user (get_or data "name" VNone) (get_or data "phone" VNone)
       (get_or data "delivery_type" VNone) (get_or data "address" (VStr []))
       (get_or data "comment" (VStr [])) (get_or data "final_total" (VInt 0)) db).

(** The columns of an order line but its own id, and what they are frozen
    from. *)
Definition order_line (i : order_item) : Z * value * Z * option real :=
  (oi_order_id i, oi_item_name i, oi_quantity i, oi_price_per_item i).

Definition frozen (order_id : Z) (l : cart_line) : Z * value * Z * option real :=
  (order_id, cl_name l, cl_quantity l, bind_real (cl_price l)).

(** From [db] to [db'] one order was added, with the total cached in the
    session, and with it one order line per line of the cart. *)
Definition order_committed (user : Z) (data : gmap string value)
    (lines : list cart_line) (db db' : database) : Prop :=
  exists order new_items,
    orders db' = orders db ++ [order] /\
    order_items db' = order_items db ++ new_items /\
    o_user_id order = user /\
    o_total_amount order = bind_value (get_or data "final_total" (VInt 0)) /\
    List.map order_line new_items = List.map (frozen (o_id order)) lines.

(** ** 6. UI and logic functions (admin) *)

(** The panel is built with [builder.button] only, which packs the
    callback objects it is given. *)
Definition get_admin_panel : M unit := send AdminPanel.

(** The five views below end their keyboard with
    [builder.row(InlineKeyboardButton(text=..., callback_data=AdminCallback(...)))]:
    the field [callback_data] of the button is a [str], and pydantic refuses
    the callback object with a [ValidationError], which is a [ValueError].
    So each of them raises once its rows are read and its buttons built, and
    the [edit_text] that follows in the source is never reached. *)

Definition show_item_management_categories : M unit :=
  _ ← fetchall select_categories;
  raise ValueError.

Definition show_items_for_admin (category_id : option Z) : M unit :=
  items ← fetchall (select_items_of (opt_int category_id));
  _ ← map_m (fun i => py_int (mi_price i)) items;
  raise ValueError.

(** The row is unpacked into two names: [None] is a [TypeError]. *)
Definition show_item_edit_menu (item_id : option Z) : M unit :=
  found ← fetchone (select_item (opt_int item_id));
  match found with
  | Some _ => raise ValueError
  | None => raise TypeError
  end.

Definition show_admin_settings : M unit :=
  settings_list ← fetchall select_settings;
  let settings := settings_dict settings_list in
  _ ← number (get_or_key settings (lit "delivery_fee") (Some (of_int 0))) ≫= py_int;
  _ ←
    number (get_or_key settings (lit "free_delivery_threshold") (Some (of_int 0)))
      ≫= py_int;
  raise ValueError.

Definition show_categories_for_deletion : M unit :=
  _ ← fetchall select_categories;
  raise ValueError.

(** ** 7. Message handlers (general) *)

Definition send_welcome (message : Message) : M unit :=
  clear;; send Welcome.

Definition show_menu (message : Message) : M unit :=
  clear;; show_categories None.

(** ** 8. Message handlers (ordering) *)

Definition process_name (message : Message) : M unit :=
  update_data "name" (opt_str (m_text message));;
  send AskPhone;;
  set_state (Some awaiting_phone).

Definition process_phone_contact (message : Message) : M unit :=
  phone_number ← match m_contact message with
                 | Some p => mret p
                 | None => raise AttributeError
                 end;
  update_data "phone" (VStr phone_number);;
  send PhoneAccepted;;
  send ChooseDelivery.

(** [re.sub(r'\D', '', text)] *)
Definition digits_only (text : str) : str := List.filter isdecimal text.

Definition process_phone_text (message : Message) : M unit :=
  text ← text_or TypeError message;
  let phone := digits_only text in
  if (10 <=? length phone)%nat && (length phone <=? 15)%nat then
    update_data "phone" (VStr text);;
    send PhoneAccepted;;
    send ChooseDelivery
  else send PhoneInvalid.

Definition process_address (message : Message) : M unit :=
  match m_text message with
  | Some ((_ :: _) as text) =>
      if (5 <? length text)%nat then
        update_data "address" (VStr text);;
        send AskComment;;
        set_state (Some awaiting_comment)
      else send AddressTooShort
  | _ => send AddressTooShort
  end.

(** ['нет', 'no', '-'] *)
Definition no_comment : list str :=
  [[1085; 1077; 1090]%N; lit "no"; lit "-"].

Definition process_comment (message : Message) : M unit :=
  text ← text_or AttributeError message;
  (if existsb (str_eqb (strip isspace (lower text))) no_comment then mret tt
   else update_data "comment" (VStr text));;
  confirm_order message.

(** ** 9. Message handlers (admin) *)

Definition process_new_category_name (message : Message) : M unit :=
  text ← text_or AttributeError message;
  let cat_name := strip isspace text in
  exists_ ← fetchone (select_category_named cat_name);
  match exists_ with
  | Some _ => send CategoryExists
  | None =>
      run_commit (insert_category cat_name);;
      send (CategoryAdded cat_name);;
      clear;;
      get_admin_panel
  end.

Definition process_new_item_name (message : Message) : M unit :=
  update_data "name" (opt_str (m_text message));;
  send AskItemPrice;;
  set_state (Some await_new_item_price).

(** [float(message.text)] *)
Definition py_float (message : Message) : M real :=
  text ← text_or TypeError message;
  match float_of_str text with
  | Some x => mret x
  | None => raise ValueError
  end.

Definition process_new_item_price (message : Message) : M unit :=
  try_except
    (price ← py_float message;
     data ← get_data;
     name ← item data "name";
     category_id ← item data "category_id";
     run_commit (insert_menu_item name price category_id);;
     send ItemAdded;;
     clear;;
     get_admin_panel)
    is_ValueError
    (send PriceNotANumber).

Definition process_new_price (message : Message) : M unit :=
  try_except
    (new_price ← py_float message;
     data ← get_data;
     item_id ← item data "item_id";
     run_commit (update_price new_price item_id);;
     shown ← py_int new_price;
     send (PriceUpdated shown);;
     clear;;
     get_admin_panel)
    is_ValueError
    (send PriceNotANumber).

Definition process_new_setting_value (message : Message) : M unit :=
  try_except
    (new_value ← py_float message;
     data ← get_data;
     key ← item data "key";
     run_commit (update_setting new_value key);;
     send SettingUpdated;;
     clear;;
     get_admin_panel)
    is_ValueError
    (send SettingNotANumber).

(** ** 10. Callback handlers (user) *)

Definition handle_category_selection (q : CallbackQuery) (id : Z) : M unit :=
  show_items_in_category id;;
  send Ack.

Definition handle_item_selection (q : CallbackQuery) (id : Z) : M unit :=
  run_commit (upsert_cart_line (q_from_id q) id);;
  send AddedToCart.

Definition handle_remove_from_cart (q : CallbackQuery) (item_id : Z) : M unit :=
  run_commit (delete_cart_line (q_from_id q) item_id);;
  send RemovedFromCart;;
  show_cart (q_from_id q) (Some (q_message_id q)) false.

Definition handle_back_to_categories (q : CallbackQuery) : M unit :=
  show_categories (Some (q_message_id q));;
  send Ack.

Definition handle_view_cart (q : CallbackQuery) : M unit :=
  show_cart (q_from_id q) (Some (q_message_id q)) false;;
  send Ack.

Definition handle_clear_cart (q : CallbackQuery) : M unit :=
  run_commit (delete_cart_of (q_from_id q));;
  send CartCleared;;
  show_categories (Some (q_message_id q)).

Definition handle_checkout (q : CallbackQuery) : M unit :=
  cart_exists ← fetchone (select_cart_exists (q_from_id q));
  match cart_exists with
  | None => send CartEmptyAlert
  | Some _ =>
      send AskName;;
      set_state (Some awaiting_name);;
      send Ack
  end.

Definition handle_delivery_choice (q : CallbackQuery) : M unit :=
  delivery_type ← match split colon (q_data q) with
                  | _ :: t :: _ => mret t
                  | _ => raise IndexError
                  end;
  update_data "delivery_type" (VStr delivery_type);;
  send MessageDeleted;;
  (if str_eqb delivery_type (lit "delivery") then
     send AskAddress;;
     set_state (Some awaiting_address)
   else
     send AskComment;;
     set_state (Some awaiting_comment));;
  send Ack.

Definition handle_final_confirmation (q : CallbackQuery) : M unit :=
  process_final_confirmation q;;
  send Ack.

Definition handle_cancel_order (q : CallbackQuery) : M unit :=
  clear;;
  send OrderCancelled;;
  send MayContinue;;
  send Ack.

(** ** 11. Admin handlers *)

Definition admin_panel_command (message : Message) : M unit :=
  clear;;
  get_admin_panel.

Definition admin_back_to_main (q : CallbackQuery) : M unit :=
  clear;;
  get_admin_panel;;
  send Ack.

Definition admin_manage_items (q : CallbackQuery) : M unit :=
  show_item_management_categories;;
  send Ack.

Definition admin_settings (q : CallbackQuery) : M unit :=
  show_admin_settings;;
  send Ack.

Definition admin_add_category (q : CallbackQuery) : M unit :=
  send AskCategoryName;;
  set_state (Some awaiting_new_category_name);;
  send Ack.

Definition admin_delete_category_menu (q : CallbackQuery) : M unit :=
  show_categories_for_deletion;;
  send Ack.

Definition admin_confirm_delete_category (q : CallbackQuery)
    (callback_data : AdminCallback) : M unit :=
  let cat_id := opt_int (category_id callback_data) in
  run_commit (delete_cart_of_category cat_id);;
  run_commit (delete_items_of cat_id);;
  run_commit (delete_category cat_id);;
  send CategoryDeleted;;
  show_categories_for_deletion.

Definition admin_view_cat_items (q : CallbackQuery)
    (callback_data : AdminCallback) : M unit :=
  show_items_for_admin (category_id callback_data);;
  send Ack.

Definition admin_add_item (q : CallbackQuery) (callback_data : AdminCallback) : M unit :=
  set_data {[ "category_id" := opt_int (category_id callback_data) ]};;
  send AskItemName;;
  set_state (Some await_new_item_name);;
  send Ack.

Definition admin_edit_item (q : CallbackQuery) (callback_data : AdminCallback) : M unit :=
  show_item_edit_menu (item_id callback_data);;
  send Ack.

Definition admin_edit_price (q : CallbackQuery) (callback_data : AdminCallback) : M unit :=
  set_data {[ "item_id" := opt_int (item_id callback_data) ]};;
  send AskNewPrice;;
  set_state (Some await_new_price);;
  send Ack.

Definition admin_confirm_delete_item (q : CallbackQuery)
    (callback_data : AdminCallback) : M unit :=
  let item_id := opt_int (item_id callback_data) in
  run_commit (delete_cart_of_item item_id);;
  run_commit (delete_item item_id);;
  send ItemDeleted;;
  show_items_for_admin (category_id callback_data).

Definition admin_edit_setting (q : CallbackQuery) (callback_data : AdminCallback) : M unit :=
  let key := setting_key callback_data in
  set_data {[ "key" := opt_str key ]};;
  send (AskSettingValue key);;
  set_state (Some await_new_setting_value);;
  send Ack.

(** ** The dispatcher of callback queries

    The handlers are tried in the order of their registration; the first one
    whose filters all pass takes the query. *)

(** [CallbackData.unpack]: the parts after the prefix, when the prefix and
    the number of fields are the expected ones. *)
Definition unpack (prefix : string) (fields : nat) (data : str) : option (list str) :=
  match split colon data with
  | p :: parts =>
      if str_eqb p (lit prefix) && (length parts =? fields)%nat
      then Some parts else None
  | [] => None
  end.

(** [CategoryCallback], [ItemCallback], [RemoveFromCartCallback]: one [int]. *)
Definition unpack_id (prefix : string) (data : str) : option Z :=
  match unpack prefix 1 data with
  | Some [x] => validate_int x
  | _ => None
  end.

(** An [Optional[int]] field: the empty string is [None]. *)
Definition optional_int (s : str) : option (option Z) :=
  match s with
  | [] => Some None
  | _ => match validate_int s with Some z => Some (Some z) | None => None end
  end.

Definition optional_str (s : str) : option str :=
  match s with [] => None | _ => Some s end.

Definition unpack_admin (data : str) : option AdminCallback :=
  match unpack "admin" 4 data with
  | Some [a; c; i; k] =>
      match optional_int c, optional_int i with
      | Some c', Some i' =>
          Some {| action := a; category_id := c'; item_id := i';
                  setting_key := optional_str k |}
      | _, _ => None
      end
  | _ => None
  end.

Inductive callback_handler :=
| H_category_selection (id : Z)
| H_item_selection (id : Z)
| H_remove_from_cart (item_id : Z)
| H_back_to_categories
| H_view_cart
| H_clear_cart
| H_checkout
| H_delivery_choice
| H_final_confirmation
| H_cancel_order
| H_admin_back_to_main
| H_admin_manage_items
| H_admin_settings
| H_admin_add_category
| H_admin_delete_category_menu
| H_admin_confirm_delete_category (callback_data : AdminCallback)
| H_admin_view_cat_items (callback_data : AdminCallback)
| H_admin_add_item (callback_data : AdminCallback)
| H_admin_edit_item (callback_data : AdminCallback)
| H_admin_edit_price (callback_data : AdminCallback)
| H_admin_confirm_delete_item (callback_data : AdminCallback)
| H_admin_edit_setting (callback_data : AdminCallback).

Definition is_admin (user : Z) : bool := existsb (Z.eqb user) ADMIN_IDS.

Definition in_final_confirmation (state : option fsm_state) : bool :=
  match state with Some awaiting_final_confirmation => true | _ => false end.

Definition route_admin (q : CallbackQuery) : option callback_handler :=
  match unpack_admin (q_data q) with
  | Some cb =>
      if negb (is_admin (q_from_id q)) then None
      else if str_eqb (action cb) (lit "back_to_main") then Some H_admin_back_to_main
      else if str_eqb (action cb) (lit "manage_items") then Some H_admin_manage_items
      else if str_eqb (action cb) (lit "settings") then Some H_admin_settings
      else if str_eqb (action cb) (lit "add_category") then Some H_admin_add_category
      else if str_eqb (action cb) (lit "delete_category_menu")
        then Some H_admin_delete_category_menu
      else if str_eqb (action cb) (lit "confirm_delete_category")
        then Some (H_admin_confirm_delete_category cb)
      else if str_eqb (action cb) (lit "view_cat_items")
        then Some (H_admin_view_cat_items cb)
      else if str_eqb (action cb) (lit "add_item") then Some (H_admin_add_item cb)
      else if str_eqb (action cb) (lit "edit_item") then Some (H_admin_edit_item cb)
      else if str_eqb (action cb) (lit "edit_price") then Some (H_admin_edit_price cb)
      else if str_eqb (action cb) (lit "confirm_delete_item")
        then Some (H_admin_confirm_delete_item cb)
      else if str_eqb (action cb) (lit "edit_setting")
        then Some (H_admin_edit_setting cb)
      else None
  | None => None
  end.

Definition route_callback (state : option fsm_state) (q : CallbackQuery)
    : option callback_handler :=
  let data := q_data q in
  match unpack_id "cat" data, unpack_id "item" data, unpack_id "rem" data with
  | Some id, _, _ => Some (H_category_selection id)
  | None, Some id, _ => Some (H_item_selection id)
  | None, None, Some id => Some (H_remove_from_cart id)
  | None, None, None =>
      if str_eqb data (lit "back_to_categories") then Some H_back_to_categories
      else if str_eqb data (lit "view_cart") then Some H_view_cart
      else if str_eqb data (lit "clear_cart") then Some H_clear_cart
      else if str_eqb data (lit "checkout") then Some H_checkout
      else if startswith (lit "delivery:") data then Some H_delivery_choice
      else if str_eqb data (lit "confirm_order") && in_final_confirmation state
        then Some H_final_confirmation
      else if str_eqb data (lit "cancel_order") then Some H_cancel_order
      else route_admin q
  end.

Definition run_callback (h : callback_handler) (q : CallbackQuery) : M unit :=
  match h with
  | H_category_selection id => handle_category_selection q id
  | H_item_selection id => handle_item_selection q id
  | H_remove_from_cart id => handle_remove_from_cart q id
  | H_back_to_categories => handle_back_to_categories q
  | H_view_cart => handle_view_cart q
  | H_clear_cart => handle_clear_cart q
  | H_checkout => handle_checkout q
  | H_delivery_choice => handle_delivery_choice q
  | H_final_confirmation => handle_final_confirmation q
  | H_cancel_order => handle_cancel_order q
  | H_admin_back_to_main => admin_back_to_main q
  | H_admin_manage_items => admin_manage_items q
  | H_admin_settings => admin_settings q
  | H_admin_add_category => admin_add_category q
  | H_admin_delete_category_menu => admin_delete_category_menu q
  | H_admin_confirm_delete_category cb => admin_confirm_delete_category q cb
  | H_admin_view_cat_items cb => admin_view_cat_items q cb
  | H_admin_add_item cb => admin_add_item q cb
  | H_admin_edit_item cb => admin_edit_item q cb
  | H_admin_edit_price cb => admin_edit_price q cb
  | H_admin_confirm_delete_item cb => admin_confirm_delete_item q cb
  | H_admin_edit_setting cb => admin_edit_setting q cb
  end.

(** A callback query arrives: an unhandled one changes nothing. *)
Definition dispatch_callback (q : CallbackQuery) : M unit :=
  state ← get_state;
  match route_callback state q with
  | Some h => run_callback h q
  | None => mret tt
  end.

(** ** The dispatcher of messages

    As for the callback queries, the handlers are tried in the order of
    their registration and the first one whose filters all pass takes the
    message: [/start] and the menu button first, whatever the state; then the
    handlers of the states, the one of a shared contact before the one of a
    typed phone; [/admin] last. *)

(** ['🍴 Меню'], the text of the button of the main keyboard. *)
Definition menu_button : str := text "🍴 Меню".

(** [CommandStart()], [Command("admin")]: on a text that is not empty (the
    caption that the filter falls back on is not part of [Message]). *)
Definition is_command (name : string) (message : Message) : bool :=
  match m_text message with
  | Some ((_ :: _) as t) => command (lit name) t
  | _ => false
  end.

(** [F.text == ...] *)
Definition text_is (t : str) (message : Message) : bool :=
  match m_text message with
  | Some t' => str_eqb t' t
  | None => false
  end.

(** [F.contact] *)
Definition has_contact (message : Message) : bool :=
  match m_contact message with Some _ => true | None => false end.

Inductive message_handler :=
| H_send_welcome
| H_show_menu
| H_process_name
| H_process_phone_contact
| H_process_phone_text
| H_process_address
| H_process_comment
| H_process_new_category_name
| H_process_new_item_name
| H_process_new_item_price
| H_process_new_price
| H_process_new_setting_value
| H_admin_panel_command.

Definition route_message (state : option fsm_state) (message : Message)
    : option message_handler :=
  if is_command "start" message then Some H_send_welcome
  else if text_is menu_button message then Some H_show_menu
  else
    match state with
    | Some awaiting_name => Some H_process_name
    | Some awaiting_phone =>
        if has_contact message then Some H_process_phone_contact
        else Some H_process_phone_text
    | Some awaiting_address => Some H_process_address
    | Some awaiting_comment => Some H_process_comment
    | Some awaiting_new_category_name => Some H_process_new_category_name
    | Some await_new_item_name => Some H_process_new_item_name
    | Some await_new_item_price => Some H_process_new_item_price
    | Some await_new_price => Some H_process_new_price
    | Some await_new_setting_value => Some H_process_new_setting_value
    | Some awaiting_final_confirmation | None =>
        if is_command "admin" message && is_admin (m_from_id message)
        then Some H_admin_panel_command
        else None
    end.

Definition run_message (h : message_handler) (message : Message) : M unit :=
  match h with
  | H_send_welcome => send_welcome message
  | H_show_menu => show_menu message
  | H_process_name => process_name message
  | H_process_phone_contact => process_phone_contact message
  | H_process_phone_text => process_phone_text message
  | H_process_address => process_address message
  | H_process_comment => process_comment message
  | H_process_new_category_name => process_new_category_name message
  | H_process_new_item_name => process_new_item_name message
  | H_process_new_item_price => process_new_item_price message
  | H_process_new_price => process_new_price message
  | H_process_new_setting_value => process_new_setting_value message
  | H_admin_panel_command => admin_panel_command message
  end.

(** A message arrives: an unhandled one changes nothing. *)
Definition dispatch_message (message : Message) : M unit :=
  state ← get_state;
  match route_message state message with
  | Some h => run_message h message
  | None => mret tt
  end.

End Bot.

Arguments Ok {R A} a w.
Arguments Raise {R A} e w.
Arguments NoResult {A}.
Arguments OneRow {A} r.
Arguments AllRows {A} rs.
Arguments fetched_rows {A} c.
Arguments lastrowid {A} c.


(** ** More of the code: what the properties below speak of *)

(** ** The initial menu

    The rows of [populate_db], as the source lists them: the names of the
    categories, and for each item its name, its description, its price and
    the name of its category. *)
Definition categories_to_add : list string :=
  ["Шаурма"; "Люля-кебаб"; "Гарниры"; "Добавки"; "Другое"]%string.

Definition menu_to_add : list (string * option string * Z * string) :=
  [
   ("Стандартная (400 грамм)", Some "Классическая шаурма", 230, "Шаурма");
   ("Мини (300 грамм)", Some "Уменьшенная порция классики", 200, "Шаурма");
   ("Сырная шаурма (500 грамм)", Some "Шаурма с добавлением сыра", 250, "Шаурма");
   ("Барбекю шаурма (500 грамм)", Some "С фирменным соусом барбекю", 250, "Шаурма");
   ("Гранатовая шаурма (500 грамм)", Some "С пикантным гранатовым соусом", 250, "Шаурма");
   ("По-мексикански шаурма (500 грамм)", Some "Острая шаурма с халапеньо", 250, "Шаурма");
   ("ХХЛ шаурма (600 грамм)", Some "Огромная и сытная", 290, "Шаурма");
   ("Шаурма без мяса (Веган)", Some "Свежие овощи и соус в лаваше", 180, "Шаурма");
   ("Гиро (500 грамм)", Some "Греческая шаурма с картофелем фри внутри", 250, "Шаурма");
   ("Сосиска в лаваше", Some "Сосиска с овощами и соусом", 170, "Шаурма");
   ("Шаурма с наггетсами", Some "Шаурма с куриными наггетсами", 270, "Шаурма");
   ("Люля-кебаб из свинины в лаваше", None, 300, "Люля-кебаб");
   ("Люля-кебаб из говядины в лаваше", None, 300, "Люля-кебаб");
   ("Картофель фри (100 гр)", Some "Классический картофель фри", 100, "Гарниры");
   ("Картофель по-деревенски (100 гр)", Some "Аппетитные дольки картофеля", 100, "Гарниры");
   ("Наггетсы (5 шт)", Some "Куриные наггетсы", 100, "Гарниры");
   ("Бургер-Хит", Some "Наш фирменный бургер", 300, "Другое");
   ("Доп. Картофель фри", None, 30, "Добавки");
   ("Доп. Огурцы соленые", None, 30, "Добавки");
   ("Доп. Сыр", None, 30, "Добавки");
   ("Доп. Халапеньо", None, 30, "Добавки");
   ("Доп. Мясо", None, 70, "Добавки");
   ("Доп. Сосиска", None, 40, "Добавки")
  ]%string.

Section BotMore.

Context {R : PyRuntime}.

(** The quantity that the cart holds of an item for a user: that of the
    row, 0 when there is no row. *)
Definition quantity_in_cart (user item : Z) (db : database) : Z :=
  match List.filter (same_line user item) (cart db) with
  | c :: _ => c_quantity c
  | [] => 0
  end.

(** What [upsert_cart_line] leaves. *)
Definition upserted (user item : Z) (db : database) : database :=
  with_cart
    (List.filter (fun c => negb (same_line user item c)) (cart db) ++
     [{| c_user_id := user; c_item_id := item;
         c_quantity := quantity_in_cart user item db + 1 |}]) db.


(** The same addition, [n] times. *)
Definition add_many (q : CallbackQuery) (id : Z) (n : nat) : M unit :=
  for_each (repeat tt n) (fun _ => handle_item_selection q id).

(** A handler that writes neither the database nor the session. *)
Definition read_only {A} (m : M A) : Prop :=
  forall w,
    w_db (final (m w)) = w_db w /\
    w_state (final (m w)) = w_state w /\
    w_data (final (m w)) = w_data w.

(** The handlers registered without the admin filter. *)
Definition user_handler (h : callback_handler) : bool :=
  match h with
  | H_category_selection _ | H_item_selection _ | H_remove_from_cart _
  | H_back_to_categories | H_view_cart | H_clear_cart | H_checkout
  | H_delivery_choice | H_final_confirmation | H_cancel_order => true
  | _ => false
  end.

(** The catalog: categories, menu items and settings. *)
Definition same_catalog (db db' : database) : Prop :=
  categories db' = categories db /\
  menu_items db' = menu_items db /\
  settings db' = settings db.

(** Every cart row is about an item of the menu, and every item that names
    a category names one that exists. *)
Definition cart_refers_to_items (db : database) : Prop :=
  forall c, In c (cart db) ->
    exists i, In i (menu_items db) /\ mi_id i = c_item_id c.

Definition items_refer_to_categories (db : database) : Prop :=
  forall i k, In i (menu_items db) -> mi_category_id i = VInt k ->
    exists c, In c (categories db) /\ cat_id c = k.

(** What the two deletions of an item leave. *)
Definition without_item (item : value) (db : database) : database :=
  let db1 :=
    with_cart (List.filter (fun c => negb (eq_param (c_item_id c) item)) (cart db)) db in
  with_menu_items
    (List.filter (fun i => negb (eq_param (mi_id i) item)) (menu_items db1)) db1.

(** From [db] to [db'] the orders and their lines were only added to: the
    old rows are there, unchanged and in their place; a new order has an id
    that no old order has, and a new line is a line of a new order. *)
Definition history_extended (db db' : database) : Prop :=
  exists new_orders new_lines,
    orders db' = orders db ++ new_orders /\
    order_items db' = order_items db ++ new_lines /\
    (forall o, In o new_orders -> ~ In (o_id o) (List.map o_id (orders db))) /\
    (forall i, In i new_lines ->
       exists o, In o new_orders /\ oi_order_id i = o_id o).

(** The keys of the catalog: no two categories have the same id or the same
    name, no two items the same id. *)
Definition keys_unique (db : database) : Prop :=
  NoDup (List.map cat_id (categories db)) /\
  NoDup (List.map cat_name (categories db)) /\
  NoDup (List.map mi_id (menu_items db)).

(** Rows of [l] that some condition has kept, in their order. *)
Definition kept {A} (l' l : list A) : Prop := exists p, l' = List.filter p l.

(** [SELECT COUNT( * ) FROM categories] *)
Definition count_categories : sql Z :=
  rows (fun db => [Z.of_nat (length (categories db))]).

(** [INSERT INTO menu_items (name, description, price, category_id)
     VALUES (?, ?, ?, ?)]; the price is an [int] bound to a REAL column. *)
Definition insert_described_item (row : str * option str * Z * Z) : sql unit :=
  let '(name, description, price, cat) := row in
  dml (fun db =>
    inr (with_menu_items
           (menu_items db ++
            [{| mi_id := next_rowid (List.map mi_id (menu_items db));
                mi_name := VStr name; mi_description := opt_str description;
                mi_price := of_int price; mi_photo_id := VNone;
                mi_category_id := VInt cat |}]) db)).

(** [db.executemany(statement, rows)]: one call, which runs the statement
    for each row in turn and stops at the first that fails. *)
Fixpoint run_each {P} (statement : P -> sql unit) (params : list P)
    (conn : database) : exn + database :=
  match params with
  | [] => inr conn
  | p :: rest =>
      match statement p conn with
      | inl e => inl e
      | inr (conn', _) => run_each statement rest conn'
      end
  end.

Definition executemany {P} (conn : database) (statement : P -> sql unit)
    (params : list P) : M database :=
  env_call DatabaseError;; lift (run_each statement params conn).

(** [{name: id for id, name in rows}] and [cat_map[name]] *)
Definition cat_map_of (rows : list category) : gmap str Z :=
  fold_left (fun m c => <[cat_name c := cat_id c]> m) rows ∅.

Definition cat_map_item (cat_map : gmap str Z) (k : string) : M Z :=
  match cat_map !! text k with Some v => mret v | None => raise (KeyError k) end.

Definition populate_db : M unit :=
  count ← fetchone count_categories;
  if match count with Some n => 0 <? n | None => false end then mret tt
  else
    conn ← connect;
    conn ← executemany conn insert_category (List.map text categories_to_add);
    '(conn, cursor) ← execute conn select_categories;
    let cat_map := cat_map_of (fetched_rows cursor) in
    items_to_add ←
      map_m (fun '(name, description, price, category) =>
               id ← cat_map_item cat_map category;
               mret (text name, option_map text description, price, id))
            menu_to_add;
    conn ← executemany conn insert_described_item items_to_add;
    commit conn.

(** The item [i] is the row [row] of the initial menu, in a category of
    [db] that has the name the row gives. *)
Definition seeded_from (db : database) (i : menu_item)
    (row : string * option string * Z * string) : Prop :=
  let '(name, description, price, category) := row in
  mi_name i = VStr (text name) /\
  mi_description i = opt_str (option_map text description) /\
  mi_price i = of_int price /\ mi_photo_id i = VNone /\
  exists c, In c (categories db) /\ cat_name c = text category /\
            mi_category_id i = VInt (cat_id c).

(** From [db], without categories, to [db']: the whole initial menu was
    added and nothing else was written. *)
Definition seeded (db db' : database) : Prop :=
  categories db = [] /\
  List.map cat_name (categories db') = List.map text categories_to_add /\
  (exists new_items,
     menu_items db' = menu_items db ++ new_items /\
     Forall2 (seeded_from db') new_items menu_to_add) /\
  cart db' = cart db /\ orders db' = orders db /\
  order_items db' = order_items db /\ settings db' = settings db.

End BotMore.
(** ** Sample data, on the reference runtime *)

Module Sample.

Definition shawarma : menu_item (R := reference_runtime) :=
  {| mi_id := 1; mi_name := VStr (lit "Standard"); mi_description := VNone;
     mi_price := XFin 230; mi_photo_id := VNone; mi_category_id := VInt 1 |}.

Definition fries : menu_item (R := reference_runtime) :=
  {| mi_id := 2; mi_name := VStr (lit "Fries"); mi_description := VNone;
     mi_price := XFin 100; mi_photo_id := VNone; mi_category_id := VInt 2 |}.

(** The settings that [init_db] inserts. *)
Definition default_settings : list (setting (R := reference_runtime)) :=
  [ {| s_key := lit "delivery_fee"; s_value := Some (XFin 400) |};
    {| s_key := lit "free_delivery_threshold"; s_value := Some (XFin 1000) |} ].

(** Two categories with one item each; user 7 has two of item 1 in the
    cart, user 8 one of item 2. *)
Definition shop : database (R := reference_runtime) :=
  {| categories := [ {| cat_id := 1; cat_name := lit "Shawarma" |};
                     {| cat_id := 2; cat_name := lit "Sides" |} ];
     menu_items := [shawarma; fries];
     cart := [ {| c_user_id := 7; c_item_id := 1; c_quantity := 2 |};
               {| c_user_id := 8; c_item_id := 2; c_quantity := 1 |} ];
     orders := [];
     order_items := [];
     settings := default_settings |}.

(** The same shop, the cart table empty. *)
Definition shop_no_cart : database (R := reference_runtime) := with_cart [] shop.

Definition admins : list Z := [99].

Definition idle (db : database) (faults : list bool) : world (R := reference_runtime) :=
  World db None ∅ [] faults.

Definition text_message (user : Z) (t : str) : Message :=
  {| m_chat_id := user; m_from_id := user; m_text := Some t; m_contact := None |}.

Definition callback (user : Z) (data : str) : CallbackQuery :=
  {| q_from_id := user; q_chat_id := user; q_message_id := 5; q_data := data |}.

Definition ann : gmap string (value (R := reference_runtime)) :=
  <["phone" := VStr (lit "+7 999 123 45 67")]> {["name" := VStr (lit "Ann")]}.

(** User 7 has given a name and is asked for the phone. *)
Definition phone_step (db : database) : world :=
  World db (Some awaiting_phone) {["name" := VStr (lit "Ann")]} [] [].

(** User 7 has chosen the delivery and is asked for a comment. *)
Definition comment_step : world :=
  World shop (Some awaiting_comment)
    (<["address" := VStr (lit "Old street 5")]>
       (<["delivery_type" := VStr (lit "delivery")]> ann)) [] [].

(** User 7 is shown a takeaway order of 460 and asked to confirm. *)
Definition review (db : database) (faults : list bool) : world :=
  World db (Some awaiting_final_confirmation)
    (<["final_total" := VReal (XFin 460)]>
       (<["delivery_type" := VStr (lit "takeaway")]> ann)) [] faults.

(** User 7 is shown a delivery order with a comment, and neither confirms
    nor cancels. *)
Definition abandoned : world :=
  World shop (Some awaiting_final_confirmation)
    (<["final_total" := VReal (XFin 860)]>
       (<["comment" := VStr (lit "ring twice")]>
          (<["address" := VStr (lit "Old street 5")]>
             (<["delivery_type" := VStr (lit "delivery")]> ann)))) [] [].

(** The same user then goes through the checkout again, for a takeaway
    without comment. *)
Definition second_checkout : M unit :=
  handle_checkout (callback 7 (lit "checkout"));;
  process_name (text_message 7 (lit "Ann"));;
  process_phone_text (text_message 7 (lit "+7 999 123 45 67"));;
  handle_delivery_choice (callback 7 (lit "delivery:takeaway"));;
  process_comment (text_message 7 (lit "no"));;
  handle_final_confirmation admins (callback 7 (lit "confirm_order")).

(** The admin 99 in the three admin states of the claims. *)
Definition new_price_step : world :=
  World shop (Some await_new_price) {["item_id" := VInt 1]} [] [].

Definition new_category_step : world :=
  World shop (Some awaiting_new_category_name) ∅ [] [].

Definition delete_shawarma : AdminCallback :=
  {| action := lit "confirm_delete_category"; category_id := Some 1;
     item_id := None; setting_key := None |}.

(** The calls of a confirmation with one cart line and one admin: two for
    the cart read again, four for the transaction, two notifications; the
    ninth, the reply to the user, fails. *)
Definition reply_fails : list bool :=
  [false; false; false; false; false; false; false; false; true].

End Sample.


(** ** More sample data *)

Module MoreSample.

Import Sample.

(** The button that deletes item 1, shown in the list of category 1. *)
Definition delete_standard : AdminCallback :=
  {| action := lit "confirm_delete_item"; category_id := Some 1;
     item_id := Some 1; setting_key := None |}.

(** The button that adds an item to category 2. *)
Definition add_to_sides : AdminCallback :=
  {| action := lit "add_item"; category_id := Some 2;
     item_id := None; setting_key := None |}.

(** The admin 99 is asked for the new delivery fee, and for the value of a
    key that the table does not have. *)
Definition new_fee_step : world :=
  World shop (Some await_new_setting_value)
    {["key" := VStr (lit "delivery_fee")]} [] [].

Definition new_tip_step : world :=
  World shop (Some await_new_setting_value) {["key" := VStr (lit "tip")]} [] [].

(** User 7 is asked for the address. *)
Definition address_step : world :=
  World shop (Some awaiting_address)
    (<["delivery_type" := VStr (lit "delivery")]> ann) [] [].

(** A stale button: user 7 has chosen the delivery mode without having
    given a name or a phone, and is asked for a comment. *)
Definition comment_without_name : world :=
  World shop (Some awaiting_comment)
    {["delivery_type" := VStr (lit "takeaway")]} [] [].

(** The final confirmation of user 7, the phone missing from the session. *)
Definition review_without_phone : world :=
  World shop (Some awaiting_final_confirmation)
    (<["delivery_type" := VStr (lit "takeaway")]>
       {["name" := VStr (lit "Ann")]}) [] [].

(** The database after [init_db] has created the tables and the settings. *)
Definition fresh : database (R := reference_runtime) :=
  {| categories := []; menu_items := []; cart := []; orders := [];
     order_items := []; settings := default_settings |}.

(** The first statement of a deletion is committed (three calls), the
    connection of the second fails. *)
Definition second_statement_fails : list bool := [false; false; false; true].

End MoreSample.
(** ** Reasoning about handlers *)

Section Logic.

Context {R : PyRuntime}.

(** Weakest precondition of a handler: [Q] where it returns, [E] where it
    raises. *)
Definition wp {A} (m : M A) (Q : A -> world -> Prop) (E : exn -> world -> Prop)
    (w : world) : Prop :=
  match m w with
  | Ok a w' => Q a w'
  | Raise e w' => E e w'
  end.

Lemma wp_final {A} (m : M A) (P : world -> Prop) w :
  wp m (fun _ => P) (fun _ => P) w -> P (final (m w)).
Proof. unfold wp. destruct (m w); auto. Qed.

Lemma wp_returns {A} (m : M A) (a : A) (w w' : world) :
  wp m (fun x v => x = a /\ v = w') (fun _ _ => False) w -> m w = Ok a w'.
Proof. unfold wp. destruct (m w); [intros [-> ->]; reflexivity | tauto]. Qed.

Lemma wp_outcome {A} (m : M A) (o : outcome A) (w : world) :
  wp m (fun a w' => o = Ok a w') (fun e w' => o = Raise e w') w -> m w = o.
Proof. unfold wp. destruct (m w); auto. Qed.

Lemma wp_about {A} (m : M A) (P : outcome A -> Prop) (w : world) :
  wp m (fun a w' => P (Ok a w')) (fun e w' => P (Raise e w')) w -> P (m w).
Proof. unfold wp. destruct (m w); auto. Qed.

Lemma wp_ret {A} (a : A) Q E w : Q a w -> wp (mret a) Q E w.
Proof. auto. Qed.

Lemma wp_bind {A B} (m : M A) (f : A -> M B) Q E w :
  wp m (fun a w' => wp (f a) Q E w') E w -> wp (m ≫= f) Q E w.
Proof. unfold wp, mbind, M_bind. destruct (m w); auto. Qed.

Lemma wp_raise {A} (e : exn) (Q : A -> world -> Prop) (E : exn -> world -> Prop) w :
  E e w -> wp (raise e) Q E w.
Proof. auto. Qed.

Lemma wp_lift {A} (r : exn + A) Q E w :
  match r with inl e => E e w | inr a => Q a w end -> wp (lift r) Q E w.
Proof. destruct r; auto. Qed.

Lemma wp_try_except {A} (body handler : M A) (caught : exn -> bool) Q
    (E : exn -> world -> Prop) w :
  wp body Q (fun e w' => if caught e then wp handler Q E w' else E e w') w ->
  wp (try_except body caught handler) Q E w.
Proof.
  unfold wp, try_except. destruct (body w) as [a w'|e w']; auto.
  destruct (caught e); auto.
Qed.

Lemma wp_gets {A} (f : world -> A) Q E w : Q (f w) w -> wp (gets f) Q E w.
Proof. auto. Qed.

Lemma wp_modify (f : world -> world) Q E w : Q tt (f w) -> wp (modify f) Q E w.
Proof. auto. Qed.

Lemma wp_item {V} (d : gmap string V) k Q E w :
  match d !! k with Some v => Q v w | None => E (KeyError k) w end ->
  wp (item d k) Q E w.
Proof. unfold item. destruct (d !! k); auto. Qed.

Lemma wp_clear Q E db st d s fs :
  Q tt (World db None ∅ s fs) -> wp clear Q E (World db st d s fs).
Proof. auto. Qed.

Lemma wp_set_state x Q E db st d s fs :
  Q tt (World db x d s fs) -> wp (set_state x) Q E (World db st d s fs).
Proof. auto. Qed.

Lemma wp_update_data k v Q E db st d s fs :
  Q tt (World db st (<[k:=v]> d) s fs) ->
  wp (update_data k v) Q E (World db st d s fs).
Proof. auto. Qed.

Lemma wp_set_data x Q E db st d s fs :
  Q tt (World db st x s fs) -> wp (set_data x) Q E (World db st d s fs).
Proof. auto. Qed.

Lemma wp_get_data Q E db st d s fs :
  Q d (World db st d s fs) -> wp get_data Q E (World db st d s fs).
Proof. auto. Qed.

Lemma wp_get_state Q E db st d s fs :
  Q st (World db st d s fs) -> wp get_state Q E (World db st d s fs).
Proof. auto. Qed.

Lemma wp_setting_item (d : gmap str (option real)) (k : string) Q E (w : world) :
  match d !! lit k with Some v => Q v w | None => E (KeyError k) w end ->
  wp (setting_item d k) Q E w.
Proof. unfold setting_item. destruct (d !! lit k); auto. Qed.

Lemma wp_number (o : option real) Q E (w : world) :
  match o with Some r => Q r w | None => E TypeError w end -> wp (number o) Q E w.
Proof. destruct o; auto. Qed.

Lemma wp_py_int (r : real) Q E (w : world) :
  match int_of_real r with inr z => Q z w | inl e => E e w end ->
  wp (py_int r) Q E w.
Proof.
  unfold py_int. intros H. apply wp_lift. destruct (int_of_real r); auto.
Qed.

Lemma wp_py_int_value (v : value) Q (E : exn -> world -> Prop) (w : world) :
  match int_of_value v with inr z => Q z w | inl e => E e w end ->
  wp (py_int_value v) Q E w.
Proof.
  unfold py_int_value. intros H. apply wp_lift. destruct (int_of_value v); auto.
Qed.

Lemma wp_text_or (e : exn) (message : Message) Q E (w : world) :
  match m_text message with Some t => Q t w | None => E e w end ->
  wp (text_or e message) Q E w.
Proof. unfold text_or. destruct (m_text message); auto. Qed.

(** [int()] of each element of a list: the world is not touched. *)
Lemma wp_map_py_int {A} (g : A -> real) (l : list A) Q (E : exn -> world -> Prop)
    (w : world) :
  (forall zs, Q zs w) -> (forall e, E e w) ->
  wp (map_m (fun x => py_int (g x)) l) Q E w.
Proof.
  intros HQ HE. revert Q HQ. induction l as [|x l IH]; intros Q HQ; cbn.
  - apply HQ.
  - apply wp_bind, wp_py_int. destruct (int_of_real (g x)); [apply HE|].
    apply wp_bind, IH. intros zs. apply wp_ret, HQ.
Qed.

Lemma map_py_int_returns {A} (g : A -> real) (l : list A) (w : world) :
  Forall (fun x => exists z, int_of_real (g x) = inr z) l ->
  exists zs, map_m (fun x => py_int (g x)) l w = Ok zs w.
Proof.
  induction 1 as [|x l [z Hz] _ [zs IH]].
  - eexists. reflexivity.
  - exists (z :: zs).
    change (map_m (fun x => py_int (g x)) (x :: l) w)
      with (match py_int (g x) w with
            | Ok y w' =>
                match map_m (fun x => py_int (g x)) l w' with
                | Ok ys w'' => Ok (y :: ys) w''
                | Raise e w'' => Raise e w''
                end
            | Raise e w' => Raise e w'
            end).
    unfold py_int at 1. unfold lift. rewrite Hz. unfold mret, M_ret.
    cbv beta iota. rewrite IH. reflexivity.
Qed.

(** *** Calls to the environment, whatever it does *)

Lemma wp_env_call e Q E db st d s fs :
  (forall l, Q tt (World db st d s l)) ->
  (forall l, E e (World db st d s l)) ->
  wp (env_call e) Q E (World db st d s fs).
Proof.
  intros HQ HE. unfold wp, env_call. cbn.
  destruct fs as [|[] l]; cbn; [apply HQ | apply HE | apply HQ].
Qed.

Lemma wp_send r Q E db st d s fs :
  (forall l, Q tt (World db st d (s ++ [r]) l)) ->
  (forall l, E TransportError (World db st d s l)) ->
  wp (send r) Q E (World db st d s fs).
Proof.
  intros HQ HE. unfold send. apply wp_bind, wp_env_call; [|exact HE].
  intros l. apply wp_modify, HQ.
Qed.

Lemma wp_connect Q E db st d s fs :
  (forall l, Q db (World db st d s l)) ->
  (forall l, E DatabaseError (World db st d s l)) ->
  wp connect Q E (World db st d s fs).
Proof.
  intros HQ HE. unfold connect. apply wp_bind, wp_env_call; [|exact HE].
  intros l. apply wp_gets, HQ.
Qed.

Lemma wp_execute {A} conn (q : sql A) Q E db st d s fs :
  (forall l, match q conn with
             | inr r => Q r (World db st d s l)
             | inl e => E e (World db st d s l)
             end) ->
  (forall l, E DatabaseError (World db st d s l)) ->
  wp (execute conn q) Q E (World db st d s fs).
Proof.
  intros HQ HE. unfold execute. apply wp_bind, wp_env_call; [|exact HE].
  intros l. apply wp_lift. specialize (HQ l). destruct (q conn); exact HQ.
Qed.

Lemma wp_commit conn Q E db st d s fs :
  (forall l, Q tt (World conn st d s l)) ->
  (forall l, E DatabaseError (World db st d s l)) ->
  wp (commit conn) Q E (World db st d s fs).
Proof.
  intros HQ HE. unfold commit. apply wp_bind, wp_env_call; [|exact HE].
  intros l. apply wp_modify, HQ.
Qed.

(** A query that is not committed leaves the world as it was. *)
Lemma wp_fetchall {A} (f : database -> list A) Q E db st d s fs :
  (forall l, Q (f db) (World db st d s l)) ->
  (forall l, E DatabaseError (World db st d s l)) ->
  wp (fetchall (rows f)) Q E (World db st d s fs).
Proof.
  intros HQ HE. unfold fetchall, db_query.
  apply wp_bind, wp_bind, wp_connect; [|exact HE]. intros l.
  apply wp_bind, wp_execute; [|exact HE]. intros l1. cbn. apply HQ.
Qed.

Lemma wp_fetchone {A} (f : database -> list A) Q E db st d s fs :
  (forall l, Q (head (f db)) (World db st d s l)) ->
  (forall l, E DatabaseError (World db st d s l)) ->
  wp (fetchone (rows f)) Q E (World db st d s fs).
Proof.
  intros HQ HE. unfold fetchone, db_query.
  apply wp_bind, wp_bind, wp_connect; [|exact HE]. intros l.
  apply wp_bind, wp_execute; [|exact HE]. intros l1. cbn. apply HQ.
Qed.

(** A committed statement: durable when the commit returns, without effect
    when anything raises before. *)
Lemma wp_run_commit (g : database -> exn + database) Q E db st d s fs :
  (forall l, match g db with
             | inr db' => Q tt (World db' st d s l)
             | inl e => E e (World db st d s l)
             end) ->
  (forall l, E DatabaseError (World db st d s l)) ->
  wp (run_commit (dml g)) Q E (World db st d s fs).
Proof.
  intros HQ HE. unfold run_commit, db_query.
  apply wp_bind, wp_bind, wp_connect; [|exact HE]. intros l.
  apply wp_bind, wp_execute; [|exact HE]. intros l1. unfold dml.
  destruct (g db) as [e|db'] eqn:Hg.
  - apply HQ.
  - cbn. apply wp_bind, wp_commit; [|exact HE]. intros l2. apply HQ.
Qed.

(** *** Calls to the environment when it never fails *)

Lemma calm_env_call e Q E db st d s :
  Q tt (World db st d s []) -> wp (env_call e) Q E (World db st d s []).
Proof. auto. Qed.

Lemma calm_send r Q E db st d s :
  Q tt (World db st d (s ++ [r]) []) -> wp (send r) Q E (World db st d s []).
Proof. auto. Qed.

Lemma calm_connect Q E db st d s :
  Q db (World db st d s []) -> wp connect Q E (World db st d s []).
Proof. auto. Qed.

Lemma calm_execute {A} conn (q : sql A) Q E db st d s :
  match q conn with
  | inr r => Q r (World db st d s [])
  | inl e => E e (World db st d s [])
  end ->
  wp (execute conn q) Q E (World db st d s []).
Proof.
  intros H. unfold execute. apply wp_bind, calm_env_call, wp_lift.
  destruct (q conn); exact H.
Qed.

Lemma calm_commit conn Q E db st d s :
  Q tt (World conn st d s []) -> wp (commit conn) Q E (World db st d s []).
Proof. auto. Qed.

Lemma calm_fetchall {A} (f : database -> list A) Q E db st d s :
  Q (f db) (World db st d s []) -> wp (fetchall (rows f)) Q E (World db st d s []).
Proof. auto. Qed.

Lemma calm_fetchone {A} (f : database -> list A) Q E db st d s :
  Q (head (f db)) (World db st d s []) ->
  wp (fetchone (rows f)) Q E (World db st d s []).
Proof. auto. Qed.

Lemma calm_run_commit (g : database -> exn + database) Q E db st d s :
  match g db with
  | inr db' => Q tt (World db' st d s [])
  | inl e => E e (World db st d s [])
  end ->
  wp (run_commit (dml g)) Q E (World db st d s []).
Proof.
  intros H. unfold run_commit, db_query.
  apply wp_bind, wp_bind, calm_connect, wp_bind, calm_execute.
  unfold dml. destruct (g db) as [e|db']; [exact H|].
  cbn. exact H.
Qed.

End Logic.

Ltac wp_step :=
  cbv beta;
  lazymatch goal with
  | |- wp (_ ≫= _) _ _ _ => apply wp_bind
  | |- wp (mret _) _ _ _ => apply wp_ret
  | |- wp (raise _) _ _ _ => apply wp_raise
  | |- wp (lift _) _ _ _ => apply wp_lift
  | |- wp (send _) _ _ _ =>
      first [apply calm_send | apply wp_send; [intros ?|]]
  | |- wp clear _ _ _ => apply wp_clear
  | |- wp (set_state _) _ _ _ => apply wp_set_state
  | |- wp (update_data _ _) _ _ _ => apply wp_update_data
  | |- wp (set_data _) _ _ _ => apply wp_set_data
  | |- wp get_data _ _ _ => apply wp_get_data
  | |- wp get_state _ _ _ => apply wp_get_state
  | |- wp connect _ _ _ =>
      first [apply calm_connect | apply wp_connect; [intros ?|]]
  | |- wp (execute _ _) _ _ _ =>
      first [apply calm_execute | apply wp_execute; [intros ?|]]
  | |- wp (commit _) _ _ _ =>
      first [apply calm_commit | apply wp_commit; [intros ?|]]
  | |- wp (fetchall _) _ _ _ =>
      first [apply calm_fetchall | apply wp_fetchall; [intros ?|]]
  | |- wp (fetchone _) _ _ _ =>
      first [apply calm_fetchone | apply wp_fetchone; [intros ?|]]
  | |- wp (run_commit _) _ _ _ =>
      first [apply calm_run_commit | apply wp_run_commit; [intros ?|]]
  | |- wp (try_except _ _ _) _ _ _ => apply wp_try_except
  | |- wp (item _ _) _ _ _ => apply wp_item
  | |- wp (setting_item _ _) _ _ _ => apply wp_setting_item
  | |- wp (number _) _ _ _ => apply wp_number
  | |- wp (py_int _) _ _ _ => apply wp_py_int
  | |- wp (py_int_value _) _ _ _ => apply wp_py_int_value
  | |- wp (text_or _ _) _ _ _ => apply wp_text_or
  | |- wp (map_m (fun x => py_int _) _) _ _ _ => apply wp_map_py_int; [intros ?|]
  | |- wp get_admin_panel _ _ _ => unfold get_admin_panel
  end.

Section Loops.

Context {R : PyRuntime}.

Lemma wp_insert_order_items (order_id : Z) (lines : list cart_line) (conn : database)
    Q (E : exn -> world -> Prop) db st d s fs :
  (forall l, Q (fold_left (fun c line => add_order_item order_id line c) lines conn)
               (World db st d s l)) ->
  (forall l, E DatabaseError (World db st d s l)) ->
  wp (insert_order_items order_id lines conn) Q E (World db st d s fs).
Proof.
  intros HQ HE. revert conn fs HQ.
  induction lines as [|line rest IH]; intros conn fs HQ; cbn [insert_order_items].
  - apply wp_ret, HQ.
  - apply wp_bind, wp_execute; [|exact HE]. intros l. cbn.
    apply IH. exact HQ.
Qed.

(** The notification of the admins never raises and touches only the
    messages sent. *)
Lemma wp_notify (shown_total order_id : Z) (admins : list Z) Q
    (E : exn -> world -> Prop) db st d s fs :
  (forall s' l, Q tt (World db st d s' l)) ->
  wp (for_each admins (notify_admin shown_total order_id)) Q E (World db st d s fs).
Proof.
  intros HQ. revert s fs.
  induction admins as [|a rest IH]; intros s fs; cbn [for_each].
  - apply wp_ret, HQ.
  - apply wp_bind. unfold notify_admin at 1. apply wp_try_except.
    repeat (wp_step; cbv beta); intros; cbn; apply IH.
Qed.

Lemma calm_notify (shown_total order_id : Z) (admins : list Z) Q
    (E : exn -> world -> Prop) db st d s :
  Q tt (World db st d
          (s ++ flat_map (fun a => [NewOrderNotice a shown_total;
                                    OrderNumberNotice a order_id]) admins) []) ->
  wp (for_each admins (notify_admin shown_total order_id)) Q E (World db st d s []).
Proof.
  revert s. induction admins as [|a rest IH]; intros s HQ; cbn [for_each].
  - apply wp_ret. cbn in HQ. rewrite app_nil_r in HQ. exact HQ.
  - apply wp_bind. unfold notify_admin at 1. apply wp_try_except.
    repeat (wp_step; cbv beta). apply IH. cbn in HQ. rewrite <- !app_assoc. exact HQ.
Qed.

Lemma calm_insert_order_items (order_id : Z) (lines : list cart_line)
    (conn : database) Q (E : exn -> world -> Prop) db st d s :
  Q (fold_left (fun c line => add_order_item order_id line c) lines conn)
    (World db st d s []) ->
  wp (insert_order_items order_id lines conn) Q E (World db st d s []).
Proof.
  revert conn. induction lines as [|line rest IH]; intros conn HQ;
    cbn [insert_order_items].
  - apply wp_ret, HQ.
  - apply wp_bind, calm_execute. cbn. apply IH. exact HQ.
Qed.

End Loops.

Ltac wp_loop :=
  cbv beta;
  lazymatch goal with
  | |- wp (insert_order_items _ _ _) _ _ _ =>
      first [apply calm_insert_order_items
            | apply wp_insert_order_items; [intros ?|]]
  | |- wp (for_each _ (notify_admin _ _)) _ _ _ =>
      first [apply calm_notify | apply wp_notify; intros ? ?]
  end.

(** Runs a handler to its end; the goals that remain are the ones that need
    a fact about the data. *)
Ltac wp_run :=
  repeat (first [wp_step | wp_loop]; cbv beta iota; try solve [intros; cbn; auto]).

Ltac wp_case :=
  match goal with
  | |- wp (if ?b then _ else _) _ _ _ => destruct b eqn:?
  | |- wp (match ?x with _ => _ end) _ _ _ => destruct x eqn:?
  | |- match ?x with _ => _ end => destruct x eqn:?
  end.

(** The same, with a case analysis wherever the handler branches. *)
Ltac wp_cases :=
  repeat (first [wp_step | wp_loop | wp_case]; cbv beta iota;
          try solve [intros; cbn; auto]).

Ltac any_faults w :=
  destruct w as [?db ?st ?d ?s ?fs];
  cbn [w_db w_state w_data w_sent w_faults] in *;
  apply wp_final.

Ltac no_faults w :=
  destruct w as [?db ?st ?d ?s ?fs];
  cbn [w_db w_state w_data w_sent w_faults] in *;
  subst; apply wp_returns.

Ltac same_world := cbn; rewrite <- ?app_assoc; auto.

(** ** The claims *)

Section Claims.

Context {R : PyRuntime}.
Variable ADMIN_IDS : list Z.

(** *** Cancelling *)

Lemma route_cancel_order (state : option fsm_state) (q : CallbackQuery) :
  q_data q = lit "cancel_order" ->
  route_callback ADMIN_IDS state q = Some H_cancel_order.
Proof.
  intros H. unfold route_callback, unpack_id, unpack. rewrite H.
  destruct state as [[]|]; reflexivity.
Qed.

Lemma dispatch_cancel_order (q : CallbackQuery) (w : world) :
  q_data q = lit "cancel_order" ->
  dispatch_callback ADMIN_IDS q w = handle_cancel_order q w.
Proof.
  intros H. unfold dispatch_callback, mbind, M_bind, get_state, gets.
  rewrite route_cancel_order by exact H. reflexivity.
Qed.

Lemma cancel_order_final (q : CallbackQuery) (w : world) :
  let w' := final (handle_cancel_order q w) in
  w_state w' = None /\ w_data w' = ∅ /\ w_db w' = w_db w.
Proof. any_faults w. unfold handle_cancel_order. wp_run. Qed.

Lemma cancel_order_calm (q : CallbackQuery) (w : world) :
  w_faults w = [] ->
  handle_cancel_order q w =
  Ok tt (World (w_db w) None ∅ (w_sent w ++ [OrderCancelled; MayContinue; Ack]) []).
Proof.
  intros Hf. no_faults w. unfold handle_cancel_order. wp_run. same_world.
Qed.

(** C5.  A callback query 'cancel_order', in the final-confirmation state as
    in any other, ends with the session cleared (no state, no field) and the
    database as it was: no order, the cart and the catalog untouched.  This
    holds whichever call to Telegram fails; when none fails the handler
    returns after its three replies. *)
Theorem cancel_leaves_stores_unchanged (q : CallbackQuery) (w : world) :
  q_data q = lit "cancel_order" ->
  let o := dispatch_callback ADMIN_IDS q w in
  w_state (final o) = None /\ w_data (final o) = ∅ /\ w_db (final o) = w_db w /\
  (w_faults w = [] ->
   o = Ok tt (World (w_db w) None ∅
                (w_sent w ++ [OrderCancelled; MayContinue; Ack]) [])).
Proof.
  intros Hq o. subst o. rewrite dispatch_cancel_order by exact Hq.
  pose proof (cancel_order_final q w) as (H1 & H2 & H3).
  repeat split; auto using cancel_order_calm.
Qed.

(** *** The empty cart *)

Lemma checkout_empty_final (q : CallbackQuery) (w : world) :
  cart_of (q_from_id q) (w_db w) = [] ->
  let w' := final (handle_checkout q w) in
  w_db w' = w_db w /\ w_state w' = w_state w /\ w_data w' = w_data w.
Proof.
  intros H. any_faults w. unfold handle_checkout, select_cart_exists. wp_run.
  rewrite H. cbn. wp_run.
Qed.

Lemma checkout_empty_calm (q : CallbackQuery) (w : world) :
  cart_of (q_from_id q) (w_db w) = [] -> w_faults w = [] ->
  handle_checkout q w =
  Ok tt (World (w_db w) (w_state w) (w_data w) (w_sent w ++ [CartEmptyAlert]) []).
Proof.
  intros H Hf. no_faults w. unfold handle_checkout, select_cart_exists. wp_run.
  rewrite H. cbn. wp_run.
Qed.

Lemma confirmation_empty_final (q : CallbackQuery) (w : world) :
  cart_lines (q_from_id q) (w_db w) = [] ->
  w_db (final (process_final_confirmation ADMIN_IDS q w)) = w_db w.
Proof.
  intros H. any_faults w. unfold process_final_confirmation, select_cart_lines.
  wp_run. rewrite H. wp_run.
Qed.

Lemma confirmation_empty_calm (q : CallbackQuery) (w : world) :
  cart_lines (q_from_id q) (w_db w) = [] -> w_faults w = [] ->
  process_final_confirmation ADMIN_IDS q w =
  Ok tt (World (w_db w) None ∅ (w_sent w ++ [CartEmpty]) []).
Proof.
  intros H Hf. no_faults w. unfold process_final_confirmation, select_cart_lines.
  wp_run. rewrite H. wp_run.
Qed.

(** C3, amended.  At the final confirmation, when the cart read again has no
    line, the database is left as it was (no order) and, no call failing,
    the user is told that the cart is empty and the session is cleared.  At
    the entry of the checkout, when the user has no cart row, the database is
    left as it was and the user gets the empty-cart alert, but the session is
    not cleared: its state and its fields stay what they were. *)
Theorem empty_cart_creates_no_order (q : CallbackQuery) (w : world) :
  (cart_lines (q_from_id q) (w_db w) = [] ->
   let o := process_final_confirmation ADMIN_IDS q w in
   w_db (final o) = w_db w /\
   (w_faults w = [] ->
    o = Ok tt (World (w_db w) None ∅ (w_sent w ++ [CartEmpty]) []))) /\
  (cart_of (q_from_id q) (w_db w) = [] ->
   let o := handle_checkout q w in
   w_db (final o) = w_db w /\
   w_state (final o) = w_state w /\
   w_data (final o) = w_data w /\
   (w_faults w = [] ->
    o = Ok tt (World (w_db w) (w_state w) (w_data w)
                 (w_sent w ++ [CartEmptyAlert]) []))).
Proof.
  split.
  - intros H o. split; [apply confirmation_empty_final, H|].
    apply confirmation_empty_calm, H.
  - intros H o. pose proof (checkout_empty_final q w H) as (H1 & H2 & H3).
    repeat split; auto. apply checkout_empty_calm, H.
Qed.
(** *** The phone number *)

Lemma phone_test (text : str) :
  (10 <=? length (digits_only text))%nat && (length (digits_only text) <=? 15)%nat = true
  <-> (10 <= length (digits_only text) <= 15)%nat.
Proof.
  rewrite andb_true_iff, !Nat.leb_le. reflexivity.
Qed.

Lemma phone_text_final (message : Message) (text : str) (w : world) :
  m_text message = Some text ->
  let w' := final (process_phone_text message w) in
  w_db w' = w_db w /\ w_state w' = w_state w /\
  (~ (10 <= length (digits_only text) <= 15)%nat -> w_data w' = w_data w).
Proof.
  intros Ht. any_faults w. unfold process_phone_text, text_or. rewrite Ht.
  wp_run. destruct (_ && _) eqn:Hn.
  - apply phone_test in Hn. wp_run; intros; cbn; tauto.
  - assert (~ (10 <= length (digits_only text) <= 15)%nat) as Hn'.
    { rewrite <- phone_test, Hn. discriminate. }
    wp_run.
Qed.

Lemma phone_text_accepted (message : Message) (text : str) (w : world) :
  m_text message = Some text -> (10 <= length (digits_only text) <= 15)%nat ->
  w_faults w = [] ->
  process_phone_text message w =
  Ok tt (World (w_db w) (w_state w) (<["phone" := VStr text]> (w_data w))
           (w_sent w ++ [PhoneAccepted; ChooseDelivery]) []).
Proof.
  intros Ht Hn Hf. no_faults w. unfold process_phone_text, text_or. rewrite Ht.
  wp_run. apply phone_test in Hn. rewrite Hn. wp_run. same_world.
Qed.

Lemma phone_text_rejected (message : Message) (text : str) (w : world) :
  m_text message = Some text -> ~ (10 <= length (digits_only text) <= 15)%nat ->
  w_faults w = [] ->
  process_phone_text message w =
  Ok tt (World (w_db w) (w_state w) (w_data w) (w_sent w ++ [PhoneInvalid]) []).
Proof.
  intros Ht Hn Hf. no_faults w. unfold process_phone_text, text_or. rewrite Ht.
  wp_run. rewrite <- phone_test in Hn. apply not_true_is_false in Hn. rewrite Hn.
  wp_run.
Qed.

Lemma str_eqb_eq (a b : str) : str_eqb a b = true <-> a = b.
Proof. unfold str_eqb. rewrite bool_decide_eq_true. reflexivity. Qed.

(** The two general handlers, which are tried before the handlers of the
    states: they clear the session and never write the database. *)
Lemma send_welcome_resets (message : Message) (w : world) :
  let w' := final (send_welcome message w) in
  w_db w' = w_db w /\ w_state w' = None /\ w_data w' = ∅.
Proof. any_faults w. unfold send_welcome. wp_run. Qed.

Lemma show_menu_resets (message : Message) (w : world) :
  let w' := final (show_menu message w) in
  w_db w' = w_db w /\ w_state w' = None /\ w_data w' = ∅.
Proof.
  any_faults w. unfold show_menu, show_categories, select_categories. wp_cases.
Qed.

Lemma text_is_spec (t : str) (message : Message) (text : str) :
  m_text message = Some text -> text_is t message = true <-> text = t.
Proof. intros H. unfold text_is. rewrite H. apply str_eqb_eq. Qed.

Lemma dispatch_general (message : Message) (text : str) (w : world) :
  m_text message = Some text ->
  is_command "start" message = true \/ text = menu_button ->
  let w' := final (dispatch_message ADMIN_IDS message w) in
  w_db w' = w_db w /\ w_state w' = None /\ w_data w' = ∅.
Proof.
  intros Ht Hg. unfold dispatch_message, mbind, M_bind, get_state, gets, route_message.
  destruct (is_command "start" message) eqn:Hc.
  - apply send_welcome_resets.
  - destruct Hg as [Hg | Hg]; [discriminate Hg|].
    apply (text_is_spec menu_button message text Ht) in Hg. rewrite Hg.
    apply show_menu_resets.
Qed.

(** A message that the general handlers leave goes to the handler of the
    state. *)
Lemma dispatch_by_state (message : Message) (text : str) (w : world) :
  m_text message = Some text ->
  is_command "start" message = false -> text <> menu_button ->
  dispatch_message ADMIN_IDS message w =
  match w_state w with
  | Some awaiting_name => process_name message w
  | Some awaiting_phone =>
      if has_contact message then process_phone_contact message w
      else process_phone_text message w
  | Some awaiting_address => process_address message w
  | Some awaiting_comment => process_comment message w
  | Some awaiting_new_category_name => process_new_category_name message w
  | Some await_new_item_name => process_new_item_name message w
  | Some await_new_item_price => process_new_item_price message w
  | Some await_new_price => process_new_price message w
  | Some await_new_setting_value => process_new_setting_value message w
  | Some awaiting_final_confirmation | None =>
      if is_command "admin" message && is_admin ADMIN_IDS (m_from_id message)
      then admin_panel_command message w
      else Ok tt w
  end.
Proof.
  intros Ht Hc Hm.
  assert (text_is menu_button message = false) as Hm'.
  { apply not_true_is_false. rewrite (text_is_spec menu_button message text Ht).
    exact Hm. }
  unfold dispatch_message, mbind, M_bind, get_state, gets, route_message.
  rewrite Hc, Hm'.
  destruct (w_state w) as [[]|]; try reflexivity.
  - destruct (has_contact message); reflexivity.
  - destruct (_ && _); reflexivity.
  - destruct (_ && _); reflexivity.
Qed.

Lemma typed_phone_lands (message : Message) (text : str) (w : world) :
  w_state w = Some awaiting_phone ->
  m_text message = Some text -> m_contact message = None ->
  is_command "start" message = false -> text <> menu_button ->
  dispatch_message ADMIN_IDS message w = process_phone_text message w.
Proof.
  intros Hs Ht Hk Hc Hm. rewrite (dispatch_by_state message text w Ht Hc Hm), Hs.
  unfold has_contact. rewrite Hk. reflexivity.
Qed.

(** C4, amended.  A free-text message arrives in the awaiting-phone state;
    let n be the number of characters left by [re.sub(r'\D', '', text)].
    The database is never written.  If the text is a [/start] command or the
    text of the menu button, the general handler registered before the one of
    the state takes it, whatever its digits: the session ends without state
    and without fields.  Any other text goes to the phone step: if
    10 <= n <= 15 it is stored as the phone and the choice of the delivery
    mode is offered; otherwise nothing of the session changes (its state,
    its fields) and the error reply asks to try again.  The FSM state is
    left as it is in both cases. *)
Theorem phone_accepted_iff_10_to_15_digits (message : Message) (text : str) (w : world) :
  w_state w = Some awaiting_phone ->
  m_text message = Some text -> m_contact message = None ->
  let n := length (digits_only text) in
  let o := dispatch_message ADMIN_IDS message w in
  w_db (final o) = w_db w /\
  (is_command "start" message = true \/ text = menu_button ->
   w_state (final o) = None /\ w_data (final o) = ∅) /\
  (is_command "start" message = false -> text <> menu_button ->
   w_state (final o) = w_state w /\
   ((10 <= n <= 15)%nat -> w_faults w = [] ->
    o = Ok tt (World (w_db w) (w_state w) (<["phone" := VStr text]> (w_data w))
                 (w_sent w ++ [PhoneAccepted; ChooseDelivery]) [])) /\
   (~ (10 <= n <= 15)%nat ->
    w_data (final o) = w_data w /\
    (w_faults w = [] ->
     o = Ok tt (World (w_db w) (w_state w) (w_data w)
                  (w_sent w ++ [PhoneInvalid]) [])))).
Proof.
  intros Hs Ht Hk n o. subst n o.
  pose proof (phone_text_final message text w Ht) as (H1 & H2 & H3).
  split; [|split].
  - destruct (is_command "start" message) eqn:Hc.
    { apply (dispatch_general message text w Ht). left. exact Hc. }
    destruct (decide (text = menu_button)) as [Hm|Hm].
    { apply (dispatch_general message text w Ht). right. exact Hm. }
    rewrite (typed_phone_lands message text w) by assumption. exact H1.
  - intros Hg. apply (dispatch_general message text w Ht Hg).
  - intros Hc Hm. rewrite (typed_phone_lands message text w) by assumption.
    split; [exact H2|]. split.
    + intros Hn Hf. apply (phone_text_accepted message text); assumption.
    + intros Hn. split; [apply H3, Hn|].
      intros Hf. apply (phone_text_rejected message text); assumption.
Qed.

(** *** Prices and settings typed by the admin *)

Lemma py_float_rejects (message : Message) (text : str) :
  m_text message = Some text -> float_of_str text = None ->
  py_float message = raise ValueError.
Proof.
  intros Ht Hf. unfold py_float, text_or. rewrite Ht.
  unfold mbind, M_bind, mret, M_ret. rewrite Hf. reflexivity.
Qed.

(** A handler whose [try] block starts with a [float()] that raises
    [ValueError] does what its [except] branch does. *)
Lemma try_float_rejected {A} (message : Message) (text : str)
    (rest : real -> M A) (handler : M A) (w : world) :
  m_text message = Some text -> float_of_str text = None ->
  try_except (py_float message ≫= rest) is_ValueError handler w = handler w.
Proof.
  intros Ht Hf. rewrite (py_float_rejects message text Ht Hf). reflexivity.
Qed.

Lemma error_reply_final (r : reply) (w : world) :
  let w' := final (send r w) in
  w_db w' = w_db w /\ w_state w' = w_state w /\ w_data w' = w_data w.
Proof. any_faults w. wp_run. Qed.

Lemma error_reply_calm (r : reply) (w : world) :
  w_faults w = [] ->
  send r w = Ok tt (World (w_db w) (w_state w) (w_data w) (w_sent w ++ [r]) []).
Proof. intros Hf. no_faults w. wp_run. Qed.

Lemma refused_by_reply (r : reply) (w : world) : refused (send r w) w r.
Proof.
  pose proof (error_reply_final r w) as (H1 & H2 & H3).
  repeat split; auto using error_reply_calm.
Qed.

(** C7, amended.  A text that [float()] does not parse arrives in one of
    the admin states that await an item price, a new price or a setting
    value.  The database is never written: the store is changed only by a
    text that [float()] parses, and the sign of the number is not looked at.
    If the text is a [/start] command or the text of the menu button, the
    general handler takes it and the session ends without state and without
    fields.  For any other text nothing changes -- the database, the state
    and the fields of the session are what they were -- and the reply asks
    for a number again. *)
Theorem unparsed_number_changes_nothing (message : Message) (text : str) (w : world) :
  m_text message = Some text -> float_of_str text = None ->
  let o := dispatch_message ADMIN_IDS message w in
  let number_awaited (state : fsm_state) (r : reply) : Prop :=
    w_state w = Some state ->
    w_db (final o) = w_db w /\
    (is_command "start" message = true \/ text = menu_button ->
     w_state (final o) = None /\ w_data (final o) = ∅) /\
    (is_command "start" message = false -> text <> menu_button -> refused o w r) in
  number_awaited await_new_item_price PriceNotANumber /\
  number_awaited await_new_price PriceNotANumber /\
  number_awaited await_new_setting_value SettingNotANumber.
Proof.
  intros Ht Hf. cbv zeta.
  assert (forall state r (handler : M unit),
            (is_command "start" message = false -> text <> menu_button ->
             w_state w = Some state ->
             dispatch_message ADMIN_IDS message w = handler w) ->
            refused (handler w) w r ->
            w_state w = Some state ->
            w_db (final (dispatch_message ADMIN_IDS message w)) = w_db w /\
            (is_command "start" message = true \/ text = menu_button ->
             w_state (final (dispatch_message ADMIN_IDS message w)) = None /\
             w_data (final (dispatch_message ADMIN_IDS message w)) = ∅) /\
            (is_command "start" message = false -> text <> menu_button ->
             refused (dispatch_message ADMIN_IDS message w) w r)) as H.
  { intros state r handler Hd Hr Hs. split; [|split].
    - destruct (is_command "start" message) eqn:Hc.
      { apply (dispatch_general message text w Ht). left. exact Hc. }
      destruct (decide (text = menu_button)) as [Hm|Hm].
      { apply (dispatch_general message text w Ht). right. exact Hm. }
      rewrite (Hd eq_refl Hm Hs). apply Hr.
    - intros Hg. apply (dispatch_general message text w Ht Hg).
    - intros Hc Hm. rewrite (Hd Hc Hm Hs). exact Hr. }
  split; [|split].
  - apply (H _ _ (send PriceNotANumber)).
    + intros Hc Hm Hs. rewrite (dispatch_by_state message text w Ht Hc Hm), Hs.
      unfold process_new_item_price.
      apply (try_float_rejected message text); assumption.
    + apply refused_by_reply.
  - apply (H _ _ (send PriceNotANumber)).
    + intros Hc Hm Hs. rewrite (dispatch_by_state message text w Ht Hc Hm), Hs.
      unfold process_new_price.
      apply (try_float_rejected message text); assumption.
    + apply refused_by_reply.
  - apply (H _ _ (send SettingNotANumber)).
    + intros Hc Hm Hs. rewrite (dispatch_by_state message text w Ht Hc Hm), Hs.
      unfold process_new_setting_value.
      apply (try_float_rejected message text); assumption.
    + apply refused_by_reply.
Qed.

(** *** A new category *)

Lemma named_rows_spec (name : str) (db : database) :
  List.filter (fun c => str_eqb (cat_name c) name) (categories db) = [] <->
  ~ In name (List.map cat_name (categories db)).
Proof.
  induction (categories db) as [|c l IH]; cbn.
  - tauto.
  - destruct (str_eqb (cat_name c) name) eqn:E.
    + apply str_eqb_eq in E. split; [discriminate | tauto].
    + assert (cat_name c <> name) by (rewrite <- str_eqb_eq, E; discriminate).
      tauto.
Qed.

Lemma name_check_spec (name : str) (db : database) :
  existsb (fun c => str_eqb (cat_name c) name) (categories db) = false <->
  ~ In name (List.map cat_name (categories db)).
Proof.
  induction (categories db) as [|c l IH]; cbn.
  - tauto.
  - rewrite orb_false_iff, IH.
    destruct (str_eqb (cat_name c) name) eqn:E.
    + apply str_eqb_eq in E. split; [intros [? _]; discriminate | tauto].
    + assert (cat_name c <> name) by (rewrite <- str_eqb_eq, E; discriminate).
      tauto.
Qed.

Lemma duplicate_category_refused (message : Message) (text : str) (w : world) :
  m_text message = Some text ->
  In (strip isspace text) (List.map cat_name (categories (w_db w))) ->
  refused (process_new_category_name message w) w CategoryExists.
Proof.
  intros Ht Hin.
  assert (exists c, head (List.map cat_id
            (List.filter (fun c => str_eqb (cat_name c) (strip isspace text))
               (categories (w_db w)))) = Some c) as [c Hc].
  { destruct (List.filter _ _) eqn:E; [|cbn; eauto].
    apply named_rows_spec in E. tauto. }
  unfold refused. repeat split.
  1-3: any_faults w; unfold process_new_category_name, text_or, select_category_named;
       rewrite Ht; wp_run; rewrite Hc; wp_run.
  intros Hf. no_faults w. unfold process_new_category_name, text_or, select_category_named.
  rewrite Ht. wp_run. rewrite Hc. wp_run.
Qed.

Lemma fresh_category_final (message : Message) (text : str) (w : world) :
  m_text message = Some text ->
  ~ In (strip isspace text) (List.map cat_name (categories (w_db w))) ->
  let w' := final (process_new_category_name message w) in
  w_db w' = w_db w \/ w_db w' = with_new_category (strip isspace text) (w_db w).
Proof.
  intros Ht Hin. pose proof Hin as Hin'.
  apply named_rows_spec in Hin. apply name_check_spec in Hin'.
  any_faults w. unfold process_new_category_name, text_or, select_category_named.
  rewrite Ht. wp_run. rewrite Hin. cbn. wp_run.
  unfold insert_category. wp_run; rewrite ?Hin'; intros; cbn; auto.
  wp_run.
Qed.



(** *** Deleting a category *)

Lemma wp_when_returned {A} (m : M A) (P : world -> Prop) (w : world) :
  wp m (fun _ => P) (fun _ _ => True) w -> returned (m w) = true -> P (final (m w)).
Proof. unfold wp. destruct (m w); [auto | discriminate]. Qed.

Lemma wp_returned {A} (m : M A) (w : world) :
  wp m (fun _ _ => True) (fun _ _ => False) w -> returned (m w) = true.
Proof. unfold wp. destruct (m w); [reflexivity | tauto]. Qed.

Lemma In_filter_not {A} (p : A -> bool) (l : list A) (x : A) :
  In x (List.filter (fun c => negb (p c)) l) <-> In x l /\ p x <> true.
Proof.
  rewrite filter_In, negb_true_iff, not_true_iff_false. reflexivity.
Qed.

Lemma eq_param_spec (col : Z) (z : Z) : eq_param col (VInt z) = true <-> col = z.
Proof. cbn. apply Z.eqb_eq. Qed.

Lemma eq_column_spec (col : value) (z : Z) :
  eq_column col (VInt z) = true <-> col = VInt z.
Proof.
  destruct col; cbn; try (split; [discriminate | congruence]).
  rewrite Z.eqb_eq. split; congruence.
Qed.

Lemma item_in_category_spec (db : database) (cid item : Z) :
  item_in_category db (VInt cid) item = true <->
  exists i, In i (menu_items db) /\ mi_id i = item /\ mi_category_id i = VInt cid.
Proof.
  unfold item_in_category. rewrite existsb_exists.
  split; intros (i & Hi & H); exists i; split; auto.
  - apply andb_true_iff in H as [H1 H2].
    apply Z.eqb_eq in H1. apply eq_column_spec in H2. auto.
  - destruct H as [H1 H2]. apply andb_true_iff.
    rewrite Z.eqb_eq, eq_column_spec. auto.
Qed.

Lemma sent_not_yet {A} (s : list A) (x : A) : s <> s ++ [x].
Proof.
  intros H. apply (f_equal (@length A)) in H. rewrite length_app in H. cbn in H. lia.
Qed.

(** The handler never returns: its last step is a view that raises.  When
    its alert has been sent, the three deletions are committed. *)
Lemma delete_category_final (q : CallbackQuery) (cb : AdminCallback)
    (cid : Z) (w : world) :
  category_id cb = Some cid ->
  let o := admin_confirm_delete_category q cb w in
  returned o = false /\
  (w_sent (final o) = w_sent w ++ [CategoryDeleted] ->
   w_db (final o) = cascade (VInt cid) (w_db w)).
Proof.
  intros Hc. cbv zeta. destruct w as [db st d s fs]. cbn [w_db w_sent].
  apply (wp_about _
    (fun o => returned o = false /\
              (w_sent (final o) = s ++ [CategoryDeleted] ->
               w_db (final o) = cascade (VInt cid) db))).
  unfold admin_confirm_delete_category, delete_cart_of_category, delete_items_of,
    delete_category, show_categories_for_deletion, select_categories.
  rewrite Hc. cbn [opt_int].
  wp_run; intros; cbn [final returned w_sent w_db];
    (split; [reflexivity|]); intros Hsent;
    first [reflexivity | exfalso; exact (sent_not_yet _ _ Hsent)].
Qed.

Lemma delete_category_calm (q : CallbackQuery) (cb : AdminCallback) (w : world) :
  w_faults w = [] ->
  w_sent (final (admin_confirm_delete_category q cb w)) =
  w_sent w ++ [CategoryDeleted].
Proof.
  intros Hf. destruct w as [db st d s fs]. cbn in Hf. subst fs. cbn [w_sent].
  apply (wp_final _ (fun w' => w_sent w' = s ++ [CategoryDeleted])).
  unfold admin_confirm_delete_category, delete_cart_of_category, delete_items_of,
    delete_category, show_categories_for_deletion, select_categories.
  wp_run.
Qed.

(** C9.  The deletion of the category [cid] by the admin is complete when
    its three statements are committed and its alert is answered; the view
    of the categories that follows raises (its last button is given a
    callback object where a string is expected), so the handler itself never
    returns.  When no call fails the alert is sent; and when the alert has
    been sent: the categories left are those whose id is not [cid]; the menu
    items left are those that were not of category [cid]; the cart rows
    left, of whatever user, are those whose item was no item of category
    [cid].  So neither the category, nor an item of it, nor a cart row of
    such an item remains, and nothing else is removed; orders and settings
    are untouched. *)
Theorem category_deletion_cascades (q : CallbackQuery) (callback_data : AdminCallback)
    (cid : Z) (w : world) :
  category_id callback_data = Some cid ->
  let o := admin_confirm_delete_category q callback_data w in
  let db := w_db w in
  let db' := w_db (final o) in
  returned o = false /\
  (w_faults w = [] -> w_sent (final o) = w_sent w ++ [CategoryDeleted]) /\
  (w_sent (final o) = w_sent w ++ [CategoryDeleted] ->
   (forall c, In c (categories db') <-> In c (categories db) /\ cat_id c <> cid) /\
   (forall i, In i (menu_items db') <->
              In i (menu_items db) /\ mi_category_id i <> VInt cid) /\
   (forall r, In r (cart db') <->
              In r (cart db) /\
              ~ exists i, In i (menu_items db) /\ mi_id i = c_item_id r /\
                          mi_category_id i = VInt cid) /\
   orders db' = orders db /\ order_items db' = order_items db /\
   settings db' = settings db).
Proof.
  intros Hc o db db'.
  destruct (delete_category_final q callback_data cid w Hc) as [Hr Hdb].
  split; [exact Hr|]. split; [apply delete_category_calm|].
  intros Hsent. subst db'. subst o. rewrite (Hdb Hsent).
  unfold cascade.
  cbn [categories menu_items cart orders order_items settings
       with_cart with_menu_items with_categories].
  split; [|split; [|split; [|auto]]].
  - intros c. rewrite In_filter_not, eq_param_spec. reflexivity.
  - intros i. rewrite In_filter_not, eq_column_spec. reflexivity.
  - intros r. rewrite In_filter_not, item_in_category_spec. reflexivity.
Qed.

(** *** The choice of the delivery mode *)

Lemma startswith_app (p s : str) :
  startswith p s = true -> exists r, s = p ++ r.
Proof.
  revert s. induction p as [|c p IH]; intros s H.
  - exists s. reflexivity.
  - destruct s as [|d s]; [discriminate|]. cbn in H.
    apply andb_true_iff in H as [Hc Hp]. apply N.eqb_eq in Hc. subst d.
    destruct (IH s Hp) as [r ->]. exists r. reflexivity.
Qed.

Lemma split_not_empty (sep : char) (s : str) :
  exists t ts, split sep s = t :: ts.
Proof.
  induction s as [|c r (t & ts & IH)]; cbn; [eauto|].
  destruct (N.eqb c sep); [eauto|]. rewrite IH. eauto.
Qed.

Lemma split_delivery (r : str) :
  split colon (lit "delivery:" ++ r) = lit "delivery" :: split colon r.
Proof.
  destruct (split_not_empty colon r) as (t & ts & E).
  cbn. reflexivity.
Qed.

Lemma route_delivery (state : option fsm_state) (q : CallbackQuery) :
  startswith (lit "delivery:") (q_data q) = true ->
  route_callback ADMIN_IDS state q = Some H_delivery_choice.
Proof.
  intros H. pose proof H as Hs. apply startswith_app in H as [r Hr].
  unfold route_callback, unpack_id, unpack. rewrite Hs, Hr, split_delivery.
  replace (str_eqb (lit "delivery") (lit "cat")) with false by reflexivity.
  replace (str_eqb (lit "delivery") (lit "item")) with false by reflexivity.
  replace (str_eqb (lit "delivery") (lit "rem")) with false by reflexivity.
  cbn [andb].
  assert (forall x, hd_error x <> Some 100%N -> str_eqb (lit "delivery:" ++ r) x = false)
    as Hne.
  { intros x Hx. destruct (str_eqb _ x) eqn:E; [|reflexivity].
    apply str_eqb_eq in E. subst x. exfalso. apply Hx. reflexivity. }
  rewrite !Hne by (vm_compute; discriminate). reflexivity.
Qed.

Lemma dispatch_delivery (q : CallbackQuery) (w : world) :
  startswith (lit "delivery:") (q_data q) = true ->
  dispatch_callback ADMIN_IDS q w = handle_delivery_choice q w.
Proof.
  intros H. unfold dispatch_callback, mbind, M_bind, get_state, gets.
  rewrite route_delivery by exact H. reflexivity.
Qed.

Lemma delivery_type_of (data : str) :
  startswith (lit "delivery:") data = true ->
  exists first delivery_type rest, split colon data = first :: delivery_type :: rest.
Proof.
  intros H. apply startswith_app in H as [r ->]. rewrite split_delivery.
  destruct (split_not_empty colon r) as (t & ts & ->). eauto.
Qed.

Lemma delivery_choice_final (q : CallbackQuery) (first delivery_type : str)
    (rest : list str) (w : world) :
  split colon (q_data q) = first :: delivery_type :: rest ->
  let w' := final (handle_delivery_choice q w) in
  w_db w' = w_db w /\
  w_data w' = <["delivery_type" := VStr delivery_type]> (w_data w).
Proof.
  intros Hs. any_faults w. unfold handle_delivery_choice. rewrite Hs.
  wp_run. destruct (str_eqb _ _); wp_run.
Qed.

Lemma delivery_chosen_calm (q : CallbackQuery) (first delivery_type : str)
    (rest : list str) (w : world) :
  split colon (q_data q) = first :: delivery_type :: rest ->
  delivery_type = lit "delivery" -> w_faults w = [] ->
  handle_delivery_choice q w =
  Ok tt (World (w_db w) (Some awaiting_address)
           (<["delivery_type" := VStr delivery_type]> (w_data w))
           (w_sent w ++ [MessageDeleted; AskAddress; Ack]) []).
Proof.
  intros Hs Ht Hf. subst delivery_type. no_faults w.
  unfold handle_delivery_choice. rewrite Hs. wp_run.
  replace (str_eqb (lit "delivery") (lit "delivery")) with true by reflexivity.
  wp_run. same_world.
Qed.

Lemma other_chosen_calm (q : CallbackQuery) (first delivery_type : str)
    (rest : list str) (w : world) :
  split colon (q_data q) = first :: delivery_type :: rest ->
  delivery_type <> lit "delivery" -> w_faults w = [] ->
  handle_delivery_choice q w =
  Ok tt (World (w_db w) (Some awaiting_comment)
           (<["delivery_type" := VStr delivery_type]> (w_data w))
           (w_sent w ++ [MessageDeleted; AskComment; Ack]) []).
Proof.
  intros Hs Ht Hf. no_faults w. unfold handle_delivery_choice. rewrite Hs.
  rewrite <- str_eqb_eq in Ht. apply not_true_is_false in Ht.
  wp_run. rewrite Ht. wp_run. same_world.
Qed.

(** C10.  A callback query whose data starts with 'delivery:' goes to
    [handle_delivery_choice] whatever the state of the session is: nothing
    in its filter looks at the state.  The handler stores the second part
    of the data as the delivery type, whatever the fields collected so far
    (no name, no phone is asked for), and, no call failing, moves the
    session to the state awaiting the address when that part is 'delivery'
    and to the state awaiting the comment otherwise, 'takeaway' included. *)
Theorem delivery_choice_in_any_state (q : CallbackQuery) (w : world) :
  startswith (lit "delivery:") (q_data q) = true ->
  exists first delivery_type rest,
    split colon (q_data q) = first :: delivery_type :: rest /\
    route_callback ADMIN_IDS (w_state w) q = Some H_delivery_choice /\
    let o := dispatch_callback ADMIN_IDS q w in
    let data := <["delivery_type" := VStr delivery_type]> (w_data w) in
    w_db (final o) = w_db w /\
    w_data (final o) = data /\
    (delivery_type = lit "delivery" -> w_faults w = [] ->
     o = Ok tt (World (w_db w) (Some awaiting_address) data
                  (w_sent w ++ [MessageDeleted; AskAddress; Ack]) [])) /\
    (delivery_type <> lit "delivery" -> w_faults w = [] ->
     o = Ok tt (World (w_db w) (Some awaiting_comment) data
                  (w_sent w ++ [MessageDeleted; AskComment; Ack]) [])).
Proof.
  intros H. destruct (delivery_type_of _ H) as (first & t & rest & Hs).
  exists first, t, rest. split; [exact Hs|]. split; [apply route_delivery, H|].
  intros o data. subst o data. rewrite dispatch_delivery by exact H.
  pose proof (delivery_choice_final q first t rest w Hs) as [H1 H2].
  split; [exact H1|]. split; [exact H2|]. split.
  - intros Ht Hf. apply (delivery_chosen_calm q first t rest w Hs Ht Hf).
  - intros Ht Hf. apply (other_chosen_calm q first t rest w Hs Ht Hf).
Qed.

(** *** The checkout computation *)

Lemma py_sum_fold {A} (f : A -> real) (l : list A) :
  py_sum (List.map f l) = fold_left (fun acc x => radd acc (f x)) l (of_int 0).
Proof.
  unfold py_sum. generalize (of_int 0).
  induction l as [|x l IH]; intros acc; cbn; [reflexivity | apply IH].
Qed.

Lemma confirm_order_keeps_db (message : Message) (w : world) :
  w_db (final (confirm_order message w)) = w_db w.
Proof.
  any_faults w. unfold confirm_order, select_cart_lines, select_settings.
  wp_cases.
Qed.

Lemma confirm_order_calm (message : Message) (w : world)
    (delivery_type name phone : value) (threshold fee : real)
    (shown_subtotal shown_total shown_fee shown_threshold : Z) :
  let lines := cart_lines (m_chat_id message) (w_db w) in
  let subtotal := py_sum (List.map line_total lines) in
  let delivery_cost :=
    if is_str delivery_type (lit "delivery") && rltb subtotal threshold
    then fee else of_int 0 in
  let final_total := radd subtotal delivery_cost in
  w_faults w = [] ->
  w_data w !! "delivery_type" = Some delivery_type ->
  w_data w !! "name" = Some name ->
  w_data w !! "phone" = Some phone ->
  settings_dict (settings (w_db w)) !! lit "free_delivery_threshold" =
    Some (Some threshold) ->
  settings_dict (settings (w_db w)) !! lit "delivery_fee" = Some (Some fee) ->
  int_of_real threshold = inr shown_threshold ->
  int_of_real fee = inr shown_fee ->
  int_of_real subtotal = inr shown_subtotal ->
  int_of_real final_total = inr shown_total ->
  confirm_order message w =
  Ok tt (World (w_db w) (Some awaiting_final_confirmation)
           (<["final_total" := VReal final_total]> (w_data w))
           (w_sent w ++ [ReviewOrder shown_subtotal shown_total]) []).
Proof.
  intros lines subtotal delivery_cost final_total Hf Hd Hn Hp Ht Hfee Hit Hif His Hitot.
  subst lines subtotal delivery_cost final_total.
  no_faults w. unfold confirm_order, select_cart_lines, select_settings.
  wp_run. rewrite Hd. wp_run.
  destruct (is_str delivery_type (lit "delivery")); cbn [andb] in *.
  - wp_run. rewrite Ht. wp_run.
    destruct (rltb _ threshold).
    + wp_run. rewrite Hfee. wp_run. rewrite Hif. wp_run.
      rewrite Hn. wp_run. rewrite Hp. wp_run. rewrite His. wp_run.
      rewrite Hitot. wp_run.
    + wp_run. rewrite Hit. wp_run.
      rewrite Hn. wp_run. rewrite Hp. wp_run. rewrite His. wp_run.
      rewrite Hitot. wp_run.
  - wp_run. rewrite Hn. wp_run. rewrite Hp. wp_run. rewrite His. wp_run.
    rewrite Hitot. wp_run.
Qed.

(** C2.  The checkout computation reads the cart lines of the user and the
    two settings.  Its subtotal is the sum, over the cart lines, of the
    unit price times the quantity; the delivery fee is added when the
    delivery type is 'delivery' and the subtotal is below the threshold
    ([<] of Python), and otherwise nothing (zero) is added; the total
    cached in the session under 'final_total' is the subtotal plus that
    fee.  The database is never written.  (The numbers shown must be ones
    that [int()] accepts, and the name and the phone must have been
    collected, for the handler to reach its end.) *)
Theorem checkout_total_is_subtotal_plus_fee (message : Message) (w : world)
    (delivery_type name phone : value) (threshold fee : real)
    (shown_subtotal shown_total shown_fee shown_threshold : Z) :
  let lines := cart_lines (m_chat_id message) (w_db w) in
  let subtotal :=
    fold_left (fun acc l => radd acc (rmul (cl_price l) (of_int (cl_quantity l))))
              lines (of_int 0) in
  let delivery_cost :=
    if is_str delivery_type (lit "delivery") && rltb subtotal threshold
    then fee else of_int 0 in
  let final_total := radd subtotal delivery_cost in
  w_faults w = [] ->
  w_data w !! "delivery_type" = Some delivery_type ->
  w_data w !! "name" = Some name ->
  w_data w !! "phone" = Some phone ->
  settings_dict (settings (w_db w)) !! lit "free_delivery_threshold" =
    Some (Some threshold) ->
  settings_dict (settings (w_db w)) !! lit "delivery_fee" = Some (Some fee) ->
  int_of_real threshold = inr shown_threshold ->
  int_of_real fee = inr shown_fee ->
  int_of_real subtotal = inr shown_subtotal ->
  int_of_real final_total = inr shown_total ->
  confirm_order message w =
  Ok tt (World (w_db w) (Some awaiting_final_confirmation)
           (<["final_total" := VReal final_total]> (w_data w))
           (w_sent w ++ [ReviewOrder shown_subtotal shown_total]) []).
Proof.
  intros lines subtotal.
  assert (subtotal = py_sum (List.map line_total lines)) as Hs
    by (symmetry; exact (py_sum_fold line_total lines)).
  clearbody subtotal. subst subtotal lines.
  apply confirm_order_calm.
Qed.

(** *** The commit of an order *)

Lemma fold_add_order_items (order_id : Z) (lines : list cart_line) (conn : database) :
  let r := fold_left (fun c line => add_order_item order_id line c) lines conn in
  categories r = categories conn /\ menu_items r = menu_items conn /\
  cart r = cart conn /\ settings r = settings conn /\ orders r = orders conn /\
  exists new_items,
    order_items r = order_items conn ++ new_items /\
    List.map order_line new_items = List.map (frozen order_id) lines.
Proof.
  revert conn. induction lines as [|line rest IH]; intros conn; cbn.
  - repeat split. exists []. rewrite app_nil_r. auto.
  - destruct (IH (add_order_item order_id line conn))
      as (H1 & H2 & H3 & H4 & H5 & new_items & H6 & H7).
    cbn in *. repeat split; auto.
    eexists (_ :: new_items). rewrite H6, <- app_assoc. split; [reflexivity|].
    cbn. rewrite H7. reflexivity.
Qed.

Lemma commit_order_frame (user : Z) (data : gmap string value)
    (lines : list cart_line) (db : database) :
  let db' := commit_order user data lines db in
  categories db' = categories db /\ menu_items db' = menu_items db /\
  cart db' = cart db /\ settings db' = settings db.
Proof.
  unfold commit_order.
  destruct (fold_add_order_items (next_rowid (List.map o_id (orders db))) lines
              (add_order user (get_or data "name" VNone) (get_or data "phone" VNone)
                 (get_or data "delivery_type" VNone) (get_or data "address" (VStr []))
                 (get_or data "comment" (VStr []))
                 (get_or data "final_total" (VInt 0)) db))
    as (H1 & H2 & H3 & H4 & _).
  cbn in *. auto.
Qed.

Lemma commit_order_committed (user : Z) (data : gmap string value)
    (lines : list cart_line) (db : database) :
  order_committed user data lines db (commit_order user data lines db).
Proof.
  unfold commit_order, order_committed.
  destruct (fold_add_order_items (next_rowid (List.map o_id (orders db))) lines
              (add_order user (get_or data "name" VNone) (get_or data "phone" VNone)
                 (get_or data "delivery_type" VNone) (get_or data "address" (VStr []))
                 (get_or data "comment" (VStr []))
                 (get_or data "final_total" (VInt 0)) db))
    as (_ & _ & _ & _ & H5 & new_items & H6 & H7).
  cbn in *. eexists _, new_items. split; [exact H5|]. split; [exact H6|].
  cbn. auto.
Qed.

(** Where the database can be when the confirmation ends, whatever fails:
    as it was, with the order committed, or with the order committed and the
    cart of the user cleared. *)
Lemma confirmation_final (q : CallbackQuery) (w : world) :
  let user := q_from_id q in
  let db := w_db w in
  let committed := commit_order user (w_data w) (cart_lines user db) db in
  let db' := w_db (final (process_final_confirmation ADMIN_IDS q w)) in
  db' = db \/
  cart_lines user db <> [] /\ (db' = committed \/ db' = cart_cleared user committed).
Proof.
  any_faults w. unfold process_final_confirmation, select_cart_lines.
  wp_run. destruct (cart_lines (q_from_id q) db) as [|line rest] eqn:Hl.
  { wp_run. }
  wp_run. destruct (d !! "delivery_type") as [delivery_type|] eqn:Hd; [|cbn; auto].
  wp_run. destruct (d !! "name") as [name|] eqn:Hn; [|cbn; auto].
  wp_run. destruct (d !! "phone") as [phone|] eqn:Hp; [|cbn; auto].
  wp_run. destruct (int_of_value _) as [|shown_total]; [cbn; auto|].
  assert (commit_order (q_from_id q) d (line :: rest) db =
          fold_left
            (fun c line0 =>
               add_order_item (next_rowid (List.map o_id (orders db))) line0 c)
            (line :: rest)
            (add_order (q_from_id q) name phone delivery_type
               (get_or d "address" (VStr [])) (get_or d "comment" (VStr []))
               (get_or d "final_total" (VInt 0)) db)) as Hc.
  { unfold commit_order. unfold get_or at 1 2 3. rewrite Hn, Hp, Hd. reflexivity. }
  assert (line :: rest <> []) as Hne by discriminate.
  wp_run. cbn [insert_order lastrowid]. wp_run.
  cbn [w_db]. rewrite <- Hc. right. split; [exact Hne|]. right. reflexivity.
Qed.

Lemma confirmation_calm (q : CallbackQuery) (w : world)
    (delivery_type name phone : value) (shown_total : Z) :
  let user := q_from_id q in
  let lines := cart_lines user (w_db w) in
  let order_id := next_rowid (List.map o_id (orders (w_db w))) in
  w_faults w = [] ->
  lines <> [] ->
  w_data w !! "delivery_type" = Some delivery_type ->
  w_data w !! "name" = Some name ->
  w_data w !! "phone" = Some phone ->
  Forall (fun l => exists z, int_of_real (line_total l) = inr z) lines ->
  int_of_value (get_or (w_data w) "final_total" (VInt 0)) = inr shown_total ->
  process_final_confirmation ADMIN_IDS q w =
  Ok tt (World (cart_cleared user (commit_order user (w_data w) lines (w_db w)))
           None ∅
           (w_sent w ++
            flat_map (fun a => [NewOrderNotice a shown_total;
                                OrderNumberNotice a order_id]) ADMIN_IDS ++
            [OrderAccepted order_id; MayOrderAgain]) []).
Proof.
  intros user lines order_id Hf Hne Hd Hn Hp Hints Htot. subst user lines order_id.
  no_faults w. unfold process_final_confirmation, select_cart_lines.
  wp_run. destruct (cart_lines (q_from_id q) db) as [|line rest] eqn:Hl; [tauto|].
  wp_run. rewrite Hd. wp_run. rewrite Hn. wp_run. rewrite Hp. wp_step.
  destruct (map_py_int_returns line_total (line :: rest)
              (World db st d s []) Hints) as [zs Hzs].
  unfold wp at 1. rewrite Hzs.
  wp_run. rewrite Htot. wp_run. cbn [insert_order lastrowid]. wp_run.
  split; [reflexivity|]. f_equal.
  - unfold cart_cleared, commit_order, get_or. rewrite Hn, Hp, Hd. reflexivity.
  - rewrite <- !app_assoc. reflexivity.
Qed.

(** C1, amended.  At the final confirmation the order row, with the total
    cached in the session, and one order line per line of the cart read
    again (name, quantity and price as they are then) are committed by one
    transaction: whatever call fails, the orders and the order lines are
    either what they were or extended by that order with all its lines.
    The deletion of the user's cart rows is not part of that transaction:
    it is a later statement of its own, after the notifications and the
    replies to the user, so an order can be committed while the cart is
    still there.  When no call fails (and the fields of the session are
    there and the numbers are ones that [int()] accepts) the handler
    returns with the order committed, every cart row of the user deleted
    and the session cleared.  The catalog and the settings are never
    written. *)
Theorem order_commits_with_its_lines (q : CallbackQuery) (w : world) :
  let user := q_from_id q in
  let db := w_db w in
  let lines := cart_lines user db in
  let o := process_final_confirmation ADMIN_IDS q w in
  let db' := w_db (final o) in
  let cleared := List.filter (fun c => negb (Z.eqb (c_user_id c) user)) (cart db) in
  (categories db' = categories db /\ menu_items db' = menu_items db /\
   settings db' = settings db /\
   ((orders db' = orders db /\ order_items db' = order_items db /\
     cart db' = cart db) \/
    (lines <> [] /\ order_committed user (w_data w) lines db db' /\
     (cart db' = cart db \/ cart db' = cleared)))) /\
  (w_faults w = [] ->
   lines <> [] ->
   is_Some (w_data w !! "delivery_type") ->
   is_Some (w_data w !! "name") ->
   is_Some (w_data w !! "phone") ->
   Forall (fun l => exists z, int_of_real (line_total l) = inr z) lines ->
   (exists z, int_of_value (get_or (w_data w) "final_total" (VInt 0)) = inr z) ->
   returned o = true /\
   order_committed user (w_data w) lines db db' /\
   cart db' = cleared /\
   w_state (final o) = None /\ w_data (final o) = ∅).
Proof.
  intros user db lines o db' cleared.
  pose proof (commit_order_frame user (w_data w) lines db) as (F1 & F2 & F3 & F4).
  pose proof (commit_order_committed user (w_data w) lines db) as HC.
  split.
  - destruct (confirmation_final q w) as [H | [Hne [H | H]]];
      fold user db lines o db' in H; rewrite H.
    + repeat split; auto.
    + repeat split; auto.
    + unfold cart_cleared. cbn. rewrite F3. repeat split; auto.
  - intros Hf Hne [dt Hd] [name Hn] [phone Hp] Hints [z Hz].
    subst db' o.
    rewrite (confirmation_calm q w dt name phone z Hf Hne Hd Hn Hp Hints Hz).
    cbn. fold user db lines. rewrite F3. repeat split; auto.
Qed.

End Claims.

(** ** The claims on the sample data *)

Import Sample.

Lemma cancel_witness :
  q_data (callback 7 (lit "cancel_order")) = lit "cancel_order" /\
  dispatch_callback admins (callback 7 (lit "cancel_order")) (review shop []) =
  Ok tt (World shop None ∅ [OrderCancelled; MayContinue; Ack] []).
Proof.
  split; [reflexivity|].
  apply (cancel_leaves_stores_unchanged admins (callback 7 (lit "cancel_order"))
           (review shop [])); reflexivity.
Defined.

Lemma empty_cart_witness :
  cart_lines 7 shop_no_cart = [] /\
  process_final_confirmation admins (callback 7 (lit "confirm_order"))
    (review shop_no_cart []) =
  Ok tt (World shop_no_cart None ∅ [CartEmpty] []) /\
  handle_checkout (callback 7 (lit "checkout")) (phone_step shop_no_cart) =
  Ok tt (World shop_no_cart (Some awaiting_phone) {["name" := VStr (lit "Ann")]}
           [CartEmptyAlert] []).
Proof.
  split; [reflexivity|].
  pose proof (empty_cart_creates_no_order admins (callback 7 (lit "confirm_order"))
                (review shop_no_cart [])) as [H _].
  pose proof (empty_cart_creates_no_order admins (callback 7 (lit "checkout"))
                (phone_step shop_no_cart)) as [_ H'].
  split.
  - apply H; reflexivity.
  - apply H'; reflexivity.
Defined.

(** C3 as stated fails: user 7, asked for the phone, taps the checkout
    button of an older message while the cart is empty; the session is not
    back to idle, it is still awaiting the phone with the name collected. *)
Lemma empty_checkout_keeps_session :
  let w := final (handle_checkout (callback 7 (lit "checkout"))
                    (phone_step shop_no_cart)) in
  cart_of 7 shop_no_cart = [] /\
  w_state w = Some awaiting_phone /\
  w_data w !! "name" = Some (VStr (lit "Ann")) /\
  w_sent w = [CartEmptyAlert].
Proof. cbv zeta. repeat (split; [reflexivity|]). reflexivity. Qed.

Lemma phone_witness :
  w_state (phone_step shop) = Some awaiting_phone /\
  is_command "start" (text_message 7 (lit "+7 999 123 45 67")) = false /\
  lit "+7 999 123 45 67" <> menu_button /\
  (10 <= length (digits_only (lit "+7 999 123 45 67")) <= 15)%nat /\
  dispatch_message admins (text_message 7 (lit "+7 999 123 45 67")) (phone_step shop) =
  Ok tt (World shop (Some awaiting_phone)
           (<["phone" := VStr (lit "+7 999 123 45 67")]>
              {["name" := VStr (lit "Ann")]})
           [PhoneAccepted; ChooseDelivery] []) /\
  is_command "start" (text_message 7 (lit "12345")) = false /\
  lit "12345" <> menu_button /\
  ~ (10 <= length (digits_only (lit "12345")) <= 15)%nat /\
  dispatch_message admins (text_message 7 (lit "12345")) (phone_step shop) =
  Ok tt (World shop (Some awaiting_phone) {["name" := VStr (lit "Ann")]}
           [PhoneInvalid] []) /\
  is_command "start" (text_message 7 (lit "/start")) = true /\
  w_state (final (dispatch_message admins (text_message 7 (lit "/start"))
                    (phone_step shop))) = None.
Proof.
  assert (10 <= length (digits_only (lit "+7 999 123 45 67")) <= 15)%nat as H1
    by (vm_compute; lia).
  assert (~ (10 <= length (digits_only (lit "12345")) <= 15)%nat) as H2
    by (vm_compute; lia).
  assert (lit "+7 999 123 45 67" <> menu_button) as M1 by (vm_compute; discriminate).
  assert (lit "12345" <> menu_button) as M2 by (vm_compute; discriminate).
  destruct (phone_accepted_iff_10_to_15_digits admins
              (text_message 7 (lit "+7 999 123 45 67")) _ (phone_step shop)
              eq_refl eq_refl eq_refl) as (_ & _ & A).
  destruct (A eq_refl M1) as (_ & A1 & _).
  destruct (phone_accepted_iff_10_to_15_digits admins
              (text_message 7 (lit "12345")) _ (phone_step shop)
              eq_refl eq_refl eq_refl) as (_ & _ & B).
  destruct (B eq_refl M2) as (_ & _ & B1).
  destruct (B1 H2) as (_ & B2).
  destruct (phone_accepted_iff_10_to_15_digits admins
              (text_message 7 (lit "/start")) _ (phone_step shop)
              eq_refl eq_refl eq_refl) as (_ & C & _).
  destruct (C (or_introl eq_refl)) as (C1 & _).
  split; [reflexivity|]. split; [reflexivity|]. split; [exact M1|].
  split; [exact H1|]. split; [exact (A1 H1 eq_refl)|].
  split; [reflexivity|]. split; [exact M2|]. split; [exact H2|].
  split; [exact (B2 eq_refl)|]. split; [reflexivity | exact C1].
Defined.

(** C4 as stated fails: user 7, asked for the phone, sends the free text
    "/start 89991234567".  Eleven digits are left once the other characters
    are stripped, so the claim has the text accepted; but [send_welcome] is
    registered before the handlers of the states and takes every [/start]
    command: the phone is not stored, the delivery mode is not offered, and
    the name collected before is lost with the state.  The text of the menu
    button has no digit, so the claim has it refused with the session as it
    was; [show_menu] takes it and clears the session as well. *)
Lemma start_command_is_no_phone :
  let w := final (dispatch_message admins (text_message 7 (lit "/start 89991234567"))
                    (phone_step shop)) in
  let w' := final (dispatch_message admins (text_message 7 menu_button)
                     (phone_step shop)) in
  w_state (phone_step shop) = Some awaiting_phone /\
  length (digits_only (lit "/start 89991234567")) = 11%nat /\
  w_data w !! "phone" = None /\ w_data w !! "name" = None /\
  w_state w = None /\ w_sent w = [Welcome] /\
  length (digits_only menu_button) = 0%nat /\
  w_state w' = None /\ w_data w' = ∅ /\ w_sent w' = [ChooseCategory].
Proof. cbv zeta. repeat (split; [reflexivity|]). reflexivity. Qed.

Lemma unparsed_number_witness :
  float_of_str (lit "12,5") = None /\
  w_state new_price_step = Some await_new_price /\
  is_command "start" (text_message 99 (lit "12,5")) = false /\
  lit "12,5" <> menu_button /\
  dispatch_message admins (text_message 99 (lit "12,5")) new_price_step =
  Ok tt (World shop (Some await_new_price) {["item_id" := VInt 1]}
           [PriceNotANumber] []) /\
  float_of_str menu_button = None /\
  w_state (final (dispatch_message admins (text_message 99 menu_button)
                    new_price_step)) = None.
Proof.
  assert (lit "12,5" <> menu_button) as Hm by (vm_compute; discriminate).
  destruct (unparsed_number_changes_nothing admins (text_message 99 (lit "12,5"))
              (lit "12,5") new_price_step eq_refl eq_refl) as (_ & H & _).
  destruct (H eq_refl) as (_ & _ & Hr).
  destruct (Hr eq_refl Hm) as (_ & _ & _ & Hcalm).
  destruct (unparsed_number_changes_nothing admins (text_message 99 menu_button)
              menu_button new_price_step eq_refl eq_refl) as (_ & H' & _).
  destruct (H' eq_refl) as (_ & Hg & _).
  destruct (Hg (or_intror eq_refl)) as (Hs & _).
  split; [reflexivity|]. split; [reflexivity|]. split; [reflexivity|].
  split; [exact Hm|]. split; [exact (Hcalm eq_refl)|].
  split; [reflexivity | exact Hs].
Defined.

(** C7 as stated fails: the admin types -5 as the new price of item 1;
    [float()] parses it, the number is below zero, and the price of the
    item is -5 from then on, the session cleared as after any accepted
    price. *)
Lemma negative_price_accepted :
  let o := process_new_price (text_message 99 (lit "-5")) new_price_step in
  float_of_str (lit "-5") = Some (XFin (-5)) /\
  rltb (XFin (-5)) (of_int 0) = true /\
  List.map mi_price (menu_items (w_db (final o))) = [XFin (-5); XFin 100] /\
  w_state (final o) = None /\
  w_sent (final o) = [PriceUpdated (-5); AdminPanel].
Proof. cbv zeta. repeat (split; [reflexivity|]). reflexivity. Qed.



Lemma category_deletion_witness :
  let o := admin_confirm_delete_category (callback 99 [])
             delete_shawarma (idle shop []) in
  category_id delete_shawarma = Some 1 /\
  w_faults (idle shop []) = [] /\
  returned o = false /\
  w_sent (final o) = w_sent (idle shop []) ++ [CategoryDeleted] /\
  List.map cat_id (categories (w_db (final o))) = [2] /\
  List.map mi_id (menu_items (w_db (final o))) = [2] /\
  List.map c_user_id (cart (w_db (final o))) = [8] /\
  (forall r, In r (cart (w_db (final o))) <->
     In r (cart shop) /\
     ~ exists i, In i (menu_items shop) /\ mi_id i = c_item_id r /\
                 mi_category_id i = VInt 1).
Proof.
  intros o.
  destruct (category_deletion_cascades (callback 99 []) delete_shawarma 1
              (idle shop []) eq_refl) as (H0 & H1 & H2).
  assert (w_sent (final o) = w_sent (idle shop []) ++ [CategoryDeleted]) as Hs
    by exact (H1 eq_refl).
  split; [reflexivity|]. split; [reflexivity|]. split; [exact H0|].
  split; [exact Hs|].
  split; [reflexivity|]. split; [reflexivity|]. split; [reflexivity|].
  apply (H2 Hs).
Defined.

Lemma delivery_choice_witness :
  startswith (lit "delivery:") (lit "delivery:takeaway") = true /\
  route_callback admins None (callback 7 (lit "delivery:takeaway")) =
    Some H_delivery_choice /\
  dispatch_callback admins (callback 7 (lit "delivery:takeaway")) (idle shop []) =
  Ok tt (World shop (Some awaiting_comment)
           {["delivery_type" := VStr (lit "takeaway")]}
           [MessageDeleted; AskComment; Ack] []) /\
  dispatch_callback admins (callback 7 (lit "delivery:delivery")) new_price_step =
  Ok tt (World shop (Some awaiting_address)
           (<["delivery_type" := VStr (lit "delivery")]> {["item_id" := VInt 1]})
           [MessageDeleted; AskAddress; Ack] []).
Proof.
  split; [reflexivity|].
  destruct (delivery_choice_in_any_state admins (callback 7 (lit "delivery:takeaway"))
              (idle shop []) eq_refl)
    as (first & t & rest & Hs & Hr & _ & _ & _ & H).
  injection Hs as _ <- _.
  split; [exact Hr|]. split.
  - apply H; [discriminate | reflexivity].
  - reflexivity.
Defined.

Lemma checkout_total_witness :
  settings_dict (settings shop) !! lit "free_delivery_threshold" =
    Some (Some (XFin 1000)) /\
  settings_dict (settings shop) !! lit "delivery_fee" = Some (Some (XFin 400)) /\
  confirm_order (text_message 7 (lit "no")) comment_step =
  Ok tt (World shop (Some awaiting_final_confirmation)
           (<["final_total" := VReal (XFin 860)]> (w_data comment_step))
           [ReviewOrder 460 860] []).
Proof.
  split; [reflexivity|]. split; [reflexivity|].
  apply (checkout_total_is_subtotal_plus_fee (text_message 7 (lit "no")) comment_step
           (VStr (lit "delivery")) (VStr (lit "Ann")) (VStr (lit "+7 999 123 45 67"))
           (XFin 1000) (XFin 400) 460 860 400 1000); reflexivity.
Defined.

(** The fee is waived from the threshold on: five items at 230 make 1150. *)
Example fee_waived_from_threshold :
  let db := with_cart [{| c_user_id := 7; c_item_id := 1; c_quantity := 5 |}] shop in
  let w := World db (Some awaiting_comment) (w_data comment_step) [] [] in
  w_data (final (confirm_order (text_message 7 (lit "no")) w)) !! "final_total" =
    Some (VReal (XFin 1150)) /\
  w_sent (final (confirm_order (text_message 7 (lit "no")) w)) =
    [ReviewOrder 1150 1150].
Proof. cbv zeta. split; reflexivity. Qed.

Lemma order_commit_witness :
  let o := process_final_confirmation admins (callback 7 (lit "confirm_order"))
             (review shop []) in
  cart_lines 7 shop <> [] /\
  returned o = true /\
  order_committed 7 (w_data (review shop [])) (cart_lines 7 shop) shop
    (w_db (final o)) /\
  List.map o_total_amount (orders (w_db (final o))) = [VReal (XFin 460)] /\
  List.map order_line (order_items (w_db (final o))) =
    [(1, VStr (lit "Standard"), 2, Some (XFin 230))] /\
  cart (w_db (final o)) = [{| c_user_id := 8; c_item_id := 2; c_quantity := 1 |}] /\
  w_state (final o) = None /\ w_data (final o) = ∅.
Proof.
  intros o.
  assert (cart_lines 7 shop <> []) as Hne
    by (intros H; apply (f_equal (@length _)) in H; discriminate H).
  destruct (order_commits_with_its_lines admins (callback 7 (lit "confirm_order"))
              (review shop [])) as [_ H].
  destruct H as (H1 & H2 & H3 & H4 & H5).
  - reflexivity.
  - exact Hne.
  - eexists. reflexivity.
  - eexists. reflexivity.
  - eexists. reflexivity.
  - repeat constructor. eexists. reflexivity.
  - eexists. reflexivity.
  - split; [exact Hne|]. split; [exact H1|]. split; [exact H2|].
    split; [reflexivity|]. split; [reflexivity|]. split; [exact H3|].
    split; [exact H4 | exact H5].
Defined.

(** C1 as stated fails: the order and its line are committed, both
    notifications leave, then the reply to the user fails.  The order is
    there with its line; the cart of the user is not cleared and the session
    still awaits the confirmation. *)
Lemma order_committed_cart_kept :
  let o := process_final_confirmation admins (callback 7 (lit "confirm_order"))
             (review shop reply_fails) in
  returned o = false /\
  List.map o_id (orders (w_db (final o))) = [1] /\
  List.map order_line (order_items (w_db (final o))) =
    [(1, VStr (lit "Standard"), 2, Some (XFin 230))] /\
  cart (w_db (final o)) = cart shop /\
  length (cart_of 7 (w_db (final o))) = 1%nat /\
  w_state (final o) = Some awaiting_final_confirmation.
Proof. cbv zeta. repeat (split; [reflexivity|]). reflexivity. Qed.

(** C6 on the code: user 7 leaves a delivery order with a comment at the
    final confirmation and starts the checkout again.  [handle_checkout]
    sets the state and keeps every field collected before, where
    [admin_panel_command] clears them; so the takeaway order without
    comment that follows is committed with the address and the comment of
    the abandoned one. *)
Theorem checkout_keeps_earlier_fields :
  let restarted := final (handle_checkout (callback 7 (lit "checkout")) abandoned) in
  let o := second_checkout abandoned in
  w_state restarted = Some awaiting_name /\
  w_data restarted = w_data abandoned /\
  w_data restarted !! "comment" = Some (VStr (lit "ring twice")) /\
  w_data (final (admin_panel_command (text_message 99 (lit "/admin")) abandoned)) = ∅ /\
  returned o = true /\
  List.map (fun r => (o_delivery_type r, o_address r, o_comment r))
           (orders (w_db (final o))) =
    [(VStr (lit "takeaway"), VStr (lit "Old street 5"), VStr (lit "ring twice"))].
Proof. cbv zeta. repeat (split; [reflexivity|]). reflexivity. Qed.

(** ** Further properties of the handlers *)

(** As [wp_cases], going under the quantifiers of the goals it leaves. *)
Ltac wp_more :=
  repeat (first [wp_step | wp_loop | wp_case | progress intros]; cbv beta iota;
          try solve [intros; cbn; auto]).

Section ReadOnly.

Context {R : PyRuntime}.

(** *** Handlers that only read *)

Lemma wp_read_only {A} (m : M A) Q (E : exn -> world -> Prop) db st d s fs :
  read_only m ->
  (forall a s' l, Q a (World db st d s' l)) ->
  (forall e s' l, E e (World db st d s' l)) ->
  wp m Q E (World db st d s fs).
Proof.
  intros H HQ HE. unfold wp. specialize (H (World db st d s fs)).
  destruct (m (World db st d s fs)) as [a [db' st' d' s' l]|e [db' st' d' s' l]];
    cbn in H; destruct H as (-> & -> & ->); [apply HQ | apply HE].
Qed.

(** [int()] of prices: nothing is touched. *)
Lemma wp_map_untouched {A B} (f : A -> M B) (l : list A) Q
    (E : exn -> world -> Prop) (w : world) :
  (forall x (Q' : B -> world -> Prop), (forall b, Q' b w) -> wp (f x) Q' E w) ->
  (forall bs, Q bs w) ->
  wp (map_m f l) Q E w.
Proof.
  intros Hf. revert Q. induction l as [|x l IH]; intros Q HQ; cbn.
  - apply HQ.
  - apply wp_bind, Hf. intros b. apply wp_bind, IH. intros bs. apply wp_ret, HQ.
Qed.

Lemma show_categories_read_only (message_id : option Z) :
  read_only (show_categories message_id).
Proof.
  intros w. any_faults w. unfold show_categories, select_categories. wp_more.
Qed.

Lemma show_cart_read_only (chat_id : Z) (message_id : option Z) (message : bool) :
  read_only (show_cart chat_id message_id message).
Proof.
  intros w. any_faults w. unfold show_cart, select_cart_lines.
  wp_run. destruct (cart_lines chat_id db) as [|line rest].
  - wp_more.
  - cbv iota. wp_run. apply wp_map_untouched.
    + intros x Q' HQ'. wp_more.
    + intros bs. wp_more.
Qed.

Lemma show_items_in_category_read_only (category_id : Z) :
  read_only (show_items_in_category category_id).
Proof.
  intros w. any_faults w. unfold show_items_in_category, select_items_of. wp_more.
Qed.

Lemma show_items_for_admin_read_only (category_id : option Z) :
  read_only (show_items_for_admin category_id).
Proof.
  intros w. any_faults w. unfold show_items_for_admin, select_items_of. wp_more.
Qed.

Lemma show_categories_for_deletion_read_only :
  read_only show_categories_for_deletion.
Proof.
  intros w. any_faults w. unfold show_categories_for_deletion, select_categories.
  wp_more.
Qed.


End ReadOnly.

Ltac wp_shown :=
  cbv beta;
  lazymatch goal with
  | |- wp (show_categories _) _ _ _ =>
      apply wp_read_only; [apply show_categories_read_only | intros ? ? ? | intros ? ? ?]
  | |- wp (show_cart _ _ _) _ _ _ =>
      apply wp_read_only; [apply show_cart_read_only | intros ? ? ? | intros ? ? ?]
  | |- wp (show_items_in_category _) _ _ _ =>
      apply wp_read_only;
      [apply show_items_in_category_read_only | intros ? ? ? | intros ? ? ?]
  | |- wp (show_items_for_admin _) _ _ _ =>
      apply wp_read_only;
      [apply show_items_for_admin_read_only | intros ? ? ? | intros ? ? ?]
  | |- wp show_categories_for_deletion _ _ _ =>
      apply wp_read_only;
      [apply show_categories_for_deletion_read_only | intros ? ? ? | intros ? ? ?]
  end.

(** Runs a handler through its branches and its displays. *)
Ltac wp_all :=
  repeat (first [wp_step | wp_loop | wp_shown | wp_case | progress intros];
          cbv beta iota; try solve [intros; cbn; auto]).

Section Extras.

Context {R : PyRuntime}.
Variable ADMIN_IDS : list Z.

(** *** Handlers that only read *)

Lemma read_only_then_ack {A} (m : M A) : read_only m -> read_only (m;; send Ack).
Proof.
  intros H w. any_faults w. apply wp_bind, wp_read_only; [exact H| |]; wp_all.
Qed.

(** X5.  Browsing writes nothing: showing the items of a category, going
    back to the categories, viewing the cart, and the listings of the admin
    (categories, settings, deletion menu, items of a category, edit menu of
    an item) leave the database and the session as they were, whichever
    call fails and whatever they raise. *)
Theorem browsing_writes_nothing (q : CallbackQuery) (id : Z)
    (callback_data : AdminCallback) :
  read_only (handle_category_selection q id) /\
  read_only (handle_back_to_categories q) /\
  read_only (handle_view_cart q) /\
  read_only (admin_manage_items q) /\
  read_only (admin_settings q) /\
  read_only (admin_delete_category_menu q) /\
  read_only (admin_view_cat_items q callback_data) /\
  read_only (admin_edit_item q callback_data).
Proof.
  repeat apply conj.
  - apply read_only_then_ack, show_items_in_category_read_only.
  - apply read_only_then_ack, show_categories_read_only.
  - apply read_only_then_ack, show_cart_read_only.
  - intros w. any_faults w.
    unfold admin_manage_items, show_item_management_categories, select_categories.
    wp_all.
  - intros w. any_faults w. unfold admin_settings, show_admin_settings, select_settings.
    wp_all.
  - apply read_only_then_ack, show_categories_for_deletion_read_only.
  - apply read_only_then_ack, show_items_for_admin_read_only.
  - intros w. any_faults w. unfold admin_edit_item, show_item_edit_menu, select_item.
    wp_all.
Qed.

(** *** The cart *)

Lemma same_line_spec (user item : Z) (c : cart_row) :
  same_line user item c = true <-> (c_user_id c, c_item_id c) = (user, item).
Proof.
  unfold same_line. rewrite andb_true_iff, !Z.eqb_eq.
  split; [intros [-> ->]; reflexivity | intros [= -> ->]; auto].
Qed.

Lemma filter_none {A} (p : A -> bool) (l : list A) :
  (forall x, In x l -> p x = false) -> List.filter p l = [].
Proof.
  induction l as [|x l IH]; intros H; cbn; [reflexivity|].
  rewrite (H x) by (left; reflexivity). apply IH. intros y Hy. apply H. right. exact Hy.
Qed.

Lemma filter_filter_other {A} (p q : A -> bool) (l : list A) :
  (forall x, p x = true -> q x = false) ->
  List.filter p (List.filter (fun x => negb (q x)) l) = List.filter p l.
Proof.
  intros H. induction l as [|x l IH]; cbn; [reflexivity|].
  destruct (q x) eqn:Hq; cbn.
  - destruct (p x) eqn:Hp; [|exact IH]. apply H in Hp. congruence.
  - destruct (p x); [f_equal|]; exact IH.
Qed.

Lemma filter_same_removed {A} (p : A -> bool) (l : list A) :
  List.filter p (List.filter (fun x => negb (p x)) l) = [].
Proof.
  apply filter_none. intros x Hx. apply filter_In in Hx as [_ Hx].
  apply negb_true_iff in Hx. exact Hx.
Qed.

Lemma other_line (user item u i : Z) (c : cart_row) :
  (u, i) <> (user, item) -> same_line u i c = true -> same_line user item c = false.
Proof.
  intros Hne H. apply same_line_spec in H.
  destruct (same_line user item c) eqn:E; [|reflexivity].
  apply same_line_spec in E. congruence.
Qed.

Lemma upserted_row (user item : Z) (db : database) :
  List.filter (same_line user item) (cart (upserted user item db)) =
  [{| c_user_id := user; c_item_id := item;
      c_quantity := quantity_in_cart user item db + 1 |}].
Proof.
  unfold upserted. cbn [cart with_cart]. rewrite List.filter_app, filter_same_removed.
  cbn. unfold same_line. cbn. rewrite !Z.eqb_refl. reflexivity.
Qed.

Lemma upserted_others (user item u i : Z) (db : database) :
  (u, i) <> (user, item) ->
  List.filter (same_line u i) (cart (upserted user item db)) =
  List.filter (same_line u i) (cart db).
Proof.
  intros Hne. unfold upserted. cbn [cart with_cart].
  rewrite List.filter_app, filter_filter_other by (intros c; apply other_line, Hne).
  cbn. destruct (same_line u i _) eqn:E; [|apply app_nil_r].
  apply same_line_spec in E. cbn in E. congruence.
Qed.

Lemma item_selection_final (q : CallbackQuery) (id : Z) (w : world) :
  let w' := final (handle_item_selection q id w) in
  w_state w' = w_state w /\ w_data w' = w_data w /\
  (w_db w' = w_db w \/
   in_int64 id = true /\ w_db w' = upserted (q_from_id q) id (w_db w)).
Proof.
  any_faults w. unfold handle_item_selection, upsert_cart_line.
  destruct (in_int64 id); wp_all.
Qed.

Lemma item_selection_calm (q : CallbackQuery) (id : Z) (w : world) :
  w_faults w = [] -> in_int64 id = true ->
  handle_item_selection q id w =
  Ok tt (World (upserted (q_from_id q) id (w_db w)) (w_state w) (w_data w)
           (w_sent w ++ [AddedToCart]) []).
Proof.
  intros Hf Hid. no_faults w. unfold handle_item_selection, upsert_cart_line.
  rewrite Hid. wp_all.
Qed.

Lemma item_selection_overflow (q : CallbackQuery) (id : Z) (w : world) :
  w_faults w = [] -> in_int64 id = false ->
  handle_item_selection q id w = Raise OverflowError w.
Proof.
  intros Hf Hid. destruct w as [db st d s fs]. cbn in Hf. subst fs.
  apply wp_outcome. unfold handle_item_selection, upsert_cart_line.
  rewrite Hid. wp_run.
Qed.

(** X1.  Adding an item to the cart keeps one row per user and item: when
    no call fails and the id of the item is one that SQLite takes (64 bits),
    the rows of that user and item are exactly one row, whose quantity is
    the quantity held before (0 without a row) plus 1.  An id beyond 64 bits,
    which a client may send in the payload, is refused at the binding: the
    database is left as it was, and when no call fails the handler raises
    [OverflowError] without a reply.  Whatever fails, the rows of every
    other user or item, the catalog, the orders and the session are as they
    were. *)
Theorem adding_increments_one_row (q : CallbackQuery) (id : Z) (w : world) :
  let user := q_from_id q in
  let db := w_db w in
  let o := handle_item_selection q id w in
  let db' := w_db (final o) in
  w_state (final o) = w_state w /\ w_data (final o) = w_data w /\
  same_catalog db db' /\ orders db' = orders db /\ order_items db' = order_items db /\
  (forall u i, (u, i) <> (user, id) ->
     List.filter (same_line u i) (cart db') = List.filter (same_line u i) (cart db)) /\
  (w_faults w = [] -> in_int64 id = true ->
   returned o = true /\
   List.filter (same_line user id) (cart db') =
     [{| c_user_id := user; c_item_id := id;
         c_quantity := quantity_in_cart user id db + 1 |}]) /\
  (in_int64 id = false ->
   db' = db /\ (w_faults w = [] -> o = Raise OverflowError w)).
Proof.
  intros user db o db'.
  pose proof (item_selection_final q id w) as (H1 & H2 & H3).
  fold o db db' user in H1, H2, H3.
  split; [exact H1|]. split; [exact H2|].
  assert (Hdb : (same_catalog db db' /\ orders db' = orders db /\
                 order_items db' = order_items db) /\
                forall u i, (u, i) <> (user, id) ->
                  List.filter (same_line u i) (cart db') =
                  List.filter (same_line u i) (cart db)).
  { destruct H3 as [-> | [_ ->]].
    - unfold same_catalog. auto.
    - split; [unfold same_catalog; cbn; auto|].
      intros u i Hne. apply upserted_others, Hne. }
  destruct Hdb as [((C1 & C2 & C3) & Ho & Hi) Hothers].
  repeat apply conj; auto.
  - intros Hf Hid. subst db' o. rewrite item_selection_calm by assumption.
    split; [reflexivity|]. cbn [final w_db]. apply upserted_row.
  - intros Hid. split.
    + destruct H3 as [H3 | [H3 _]]; [exact H3 | congruence].
    + intros Hf. apply item_selection_overflow; assumption.
Qed.

Lemma upserted_quantity (user item : Z) (db : database) :
  quantity_in_cart user item (upserted user item db) =
  quantity_in_cart user item db + 1.
Proof. unfold quantity_in_cart at 1. rewrite upserted_row. reflexivity. Qed.

Lemma add_many_calm (q : CallbackQuery) (id : Z) (n : nat) (w : world) :
  in_int64 id = true -> w_faults w = [] ->
  exists db' sent,
    add_many q id n w = Ok tt (World db' (w_state w) (w_data w) sent []) /\
    quantity_in_cart (q_from_id q) id db' =
      quantity_in_cart (q_from_id q) id (w_db w) + Z.of_nat n /\
    (0 < n -> length (List.filter (same_line (q_from_id q) id) (cart db')) = 1)%nat /\
    (forall u i, (u, i) <> (q_from_id q, id) ->
       List.filter (same_line u i) (cart db') =
       List.filter (same_line u i) (cart (w_db w))) /\
    same_catalog (w_db w) db'.
Proof.
  intros Hid. unfold add_many. revert w. induction n as [|n IH]; intros w Hf.
  - destruct w as [db st d s fs]. cbn in Hf. subst fs.
    exists db, s. cbn. repeat apply conj; auto; try lia.
  - cbn [repeat for_each]. unfold mbind, M_bind.
    rewrite item_selection_calm by assumption.
    destruct (IH (World (upserted (q_from_id q) id (w_db w)) (w_state w) (w_data w)
                    (w_sent w ++ [AddedToCart]) []) eq_refl)
      as (db' & sent & Hrun & Hq & Hone & Hothers & C1 & C2 & C3).
    cbn [w_db w_state w_data] in *.
    exists db', sent. split; [exact Hrun|]. repeat apply conj.
    + rewrite Hq, upserted_quantity. lia.
    + intros _. destruct n as [|n].
      * cbn in Hrun. injection Hrun as <- _. rewrite upserted_row. reflexivity.
      * apply Hone. lia.
    + intros u i Hne. rewrite Hothers by exact Hne. apply upserted_others, Hne.
    + rewrite C1. reflexivity.
    + rewrite C2. reflexivity.
    + rewrite C3. reflexivity.
Qed.

(** X2.  Additions add up: after the same item, of an id that SQLite
    takes (64 bits), was added [n] times by a user, no call failing, the
    quantity held is the one held before plus [n], in a single row as soon
    as [n] is positive; no other row of the cart, nothing of the catalog and
    nothing of the session has changed. *)
Theorem additions_add_up (q : CallbackQuery) (id : Z) (n : nat) (w : world) :
  w_faults w = [] -> in_int64 id = true ->
  let user := q_from_id q in
  let o := add_many q id n w in
  let db' := w_db (final o) in
  returned o = true /\
  quantity_in_cart user id db' = quantity_in_cart user id (w_db w) + Z.of_nat n /\
  (0 < n -> length (List.filter (same_line user id) (cart db')) = 1)%nat /\
  (forall u i, (u, i) <> (user, id) ->
     List.filter (same_line u i) (cart db') =
     List.filter (same_line u i) (cart (w_db w))) /\
  same_catalog (w_db w) db' /\
  w_state (final o) = w_state w /\ w_data (final o) = w_data w.
Proof.
  intros Hf Hid user o db'.
  destruct (add_many_calm q id n w Hid Hf) as (db1 & sent & Hrun & H).
  subst db' o. rewrite Hrun. cbn [final w_db w_state w_data returned].
  destruct H as (H1 & H2 & H3 & H4). repeat apply conj; auto; apply H4.
Qed.







Lemma cleared_own (user : Z) (db : database) :
  cart_of user (cart_cleared user db) = [].
Proof.
  unfold cart_of, cart_cleared. cbn [cart with_cart].
  apply (filter_same_removed (fun c => Z.eqb (c_user_id c) user)).
Qed.

Lemma cleared_others (user u : Z) (db : database) :
  u <> user -> cart_of u (cart_cleared user db) = cart_of u db.
Proof.
  intros Hne. unfold cart_of, cart_cleared. cbn [cart with_cart].
  apply (filter_filter_other (fun c => Z.eqb (c_user_id c) u)
           (fun c => Z.eqb (c_user_id c) user)).
  intros c Hc. apply Z.eqb_eq in Hc. apply Z.eqb_neq. congruence.
Qed.

Lemma clear_cart_final (q : CallbackQuery) (w : world) :
  let w' := final (handle_clear_cart q w) in
  w_state w' = w_state w /\ w_data w' = w_data w /\
  (w_faults w = [] -> w_db w' = cart_cleared (q_from_id q) (w_db w)) /\
  (w_db w' = w_db w \/ w_db w' = cart_cleared (q_from_id q) (w_db w)).
Proof.
  destruct w as [db st d s fs]. cbn [w_db w_state w_data w_faults].
  apply (wp_final _ (fun w' =>
    w_state w' = st /\ w_data w' = d /\
    (fs = [] -> w_db w' = cart_cleared (q_from_id q) db) /\
    (w_db w' = db \/ w_db w' = cart_cleared (q_from_id q) db))).
  unfold handle_clear_cart, delete_cart_of.
  destruct fs as [|b fs].
  - wp_all; intros; cbn; auto.
  - wp_all; intros; cbn; repeat apply conj; auto; discriminate.
Qed.

(** X4.  Clearing the cart deletes the rows of the user and no other: when
    no call fails the user has no cart row left; whatever fails, the rows
    of every other user, the catalog, the orders and the session are as
    they were. *)
Theorem clearing_empties_own_cart (q : CallbackQuery) (w : world) :
  let user := q_from_id q in
  let db := w_db w in
  let w' := final (handle_clear_cart q w) in
  let db' := w_db w' in
  w_state w' = w_state w /\ w_data w' = w_data w /\
  same_catalog db db' /\ orders db' = orders db /\ order_items db' = order_items db /\
  (forall u, u <> user -> cart_of u db' = cart_of u db) /\
  (w_faults w = [] -> cart_of user db' = []).
Proof.
  intros user db w' db'.
  pose proof (clear_cart_final q w) as (H1 & H2 & H3 & H4).
  fold w' in H1, H2, H3, H4. fold db' db user in H3, H4.
  split; [exact H1|]. split; [exact H2|].
  assert (db' = db \/ db' = cart_cleared user db) as Hdb by exact H4.
  repeat apply conj.
  1-5: destruct Hdb as [-> | ->]; auto.
  - destruct Hdb as [-> | ->]; [auto|]. intros u Hne. apply cleared_others, Hne.
  - intros Hf. rewrite (H3 Hf). apply cleared_own.
Qed.

(** *** Guards of the dispatcher *)

Lemma route_confirm_order (state : option fsm_state) (q : CallbackQuery) :
  q_data q = lit "confirm_order" ->
  route_callback ADMIN_IDS state q =
  if in_final_confirmation state then Some H_final_confirmation else None.
Proof.
  intros H. unfold route_callback, route_admin, unpack_admin, unpack_id, unpack.
  rewrite H. destruct (in_final_confirmation state); reflexivity.
Qed.

(** X6.  The confirmation is taken in the final-confirmation state only: in
    that state a callback query 'confirm_order' runs the confirmation; in
    every other state, idle included, it is dropped: nothing is written,
    nothing is sent. *)
Theorem confirmation_needs_its_state (q : CallbackQuery) (w : world) :
  q_data q = lit "confirm_order" ->
  (w_state w = Some awaiting_final_confirmation ->
   dispatch_callback ADMIN_IDS q w = handle_final_confirmation ADMIN_IDS q w) /\
  (w_state w <> Some awaiting_final_confirmation ->
   dispatch_callback ADMIN_IDS q w = Ok tt w).
Proof.
  intros H. unfold dispatch_callback, mbind, M_bind, get_state, gets.
  rewrite route_confirm_order by exact H. split.
  - intros ->. reflexivity.
  - intros Hs. destruct (w_state w) as [[]|]; try reflexivity. congruence.
Qed.

Lemma route_of_non_admin (state : option fsm_state) (q : CallbackQuery)
    (h : callback_handler) :
  is_admin ADMIN_IDS (q_from_id q) = false ->
  route_callback ADMIN_IDS state q = Some h -> user_handler h = true.
Proof.
  intros Hna. unfold route_callback.
  assert (route_admin ADMIN_IDS q = None) as Hra.
  { unfold route_admin. destruct (unpack_admin (q_data q)); [|reflexivity].
    rewrite Hna. reflexivity. }
  rewrite Hra.
  repeat match goal with
         | |- context [match ?x with _ => _ end] => destruct x
         end; intros [= <-]; reflexivity.
Qed.

Lemma same_catalog_final {A} (m : M A) (w : world) :
  (let w' := final (m w) in
   categories (w_db w') = categories (w_db w) /\
   menu_items (w_db w') = menu_items (w_db w) /\
   settings (w_db w') = settings (w_db w)) ->
  same_catalog (w_db w) (w_db (final (m w))).
Proof. intros H. exact H. Qed.

Lemma final_confirmation_catalog (q : CallbackQuery) (w : world) :
  same_catalog (w_db w) (w_db (final (handle_final_confirmation ADMIN_IDS q w))).
Proof.
  assert (same_catalog (w_db w)
            (w_db (final (process_final_confirmation ADMIN_IDS q w)))) as H.
  { pose proof (commit_order_frame (q_from_id q) (w_data w)
                  (cart_lines (q_from_id q) (w_db w)) (w_db w)) as (F1 & F2 & F3 & F4).
    destruct (confirmation_final ADMIN_IDS q w) as [-> | [_ [-> | ->]]];
      unfold same_catalog; cbn; auto. }
  unfold handle_final_confirmation, mbind, M_bind.
  destruct (process_final_confirmation ADMIN_IDS q w) as [[] w1|e w1];
    cbn [final] in *; [|exact H].
  destruct w1 as [db1 st1 d1 s1 fs1]. cbn [w_db] in H.
  apply (wp_final _ (fun w' => same_catalog (w_db w) (w_db w'))). wp_all.
Qed.

(** X7.  A user who is not in [ADMIN_IDS] cannot change the catalog: whatever
    callback data such a user sends, in whatever state and whichever call
    fails, the categories, the menu items and the settings are left as they
    were. *)
Theorem catalog_safe_from_non_admins (q : CallbackQuery) (w : world) :
  is_admin ADMIN_IDS (q_from_id q) = false ->
  same_catalog (w_db w) (w_db (final (dispatch_callback ADMIN_IDS q w))).
Proof.
  intros Hna. unfold dispatch_callback, mbind, M_bind, get_state, gets.
  destruct (route_callback ADMIN_IDS (w_state w) q) as [h|] eqn:Hr;
    [|unfold same_catalog; cbn; auto].
  apply (route_of_non_admin _ _ _ Hna) in Hr.
  destruct h; try discriminate Hr; unfold run_callback.
  - apply same_catalog_final. any_faults w.
    unfold handle_category_selection. wp_all.
  - apply same_catalog_final. any_faults w.
    unfold handle_item_selection, upsert_cart_line.
    destruct (in_int64 _); wp_all.
  - apply same_catalog_final. any_faults w.
    unfold handle_remove_from_cart, delete_cart_line. wp_all.
  - apply same_catalog_final. any_faults w. unfold handle_back_to_categories. wp_all.
  - apply same_catalog_final. any_faults w. unfold handle_view_cart. wp_all.
  - apply same_catalog_final. any_faults w.
    unfold handle_clear_cart, delete_cart_of. wp_all.
  - apply same_catalog_final. any_faults w.
    unfold handle_checkout, select_cart_exists. wp_all.
  - apply same_catalog_final. any_faults w. unfold handle_delivery_choice. wp_all.
  - apply final_confirmation_catalog.
  - apply same_catalog_final. any_faults w. unfold handle_cancel_order. wp_all.
Qed.

(** *** Deletions by the admin *)

Lemma delete_item_final (q : CallbackQuery) (cb : AdminCallback) (w : world) :
  let o := admin_confirm_delete_item q cb w in
  returned o = false /\
  (w_sent (final o) = w_sent w ++ [ItemDeleted] ->
   w_db (final o) = without_item (opt_int (item_id cb)) (w_db w)).
Proof.
  cbv zeta. destruct w as [db st d s fs]. cbn [w_db w_sent].
  apply (wp_about _
    (fun o => returned o = false /\
              (w_sent (final o) = s ++ [ItemDeleted] ->
               w_db (final o) = without_item (opt_int (item_id cb)) db))).
  unfold admin_confirm_delete_item, delete_cart_of_item, delete_item,
    show_items_for_admin, select_items_of.
  wp_run; intros; cbn [final returned w_sent w_db];
    (split; [reflexivity|]); intros Hsent;
    first [reflexivity | exfalso; exact (sent_not_yet _ _ Hsent)].
Qed.

Lemma delete_item_calm (q : CallbackQuery) (cb : AdminCallback) (w : world) :
  w_faults w = [] ->
  w_sent (final (admin_confirm_delete_item q cb w)) = w_sent w ++ [ItemDeleted].
Proof.
  intros Hf. destruct w as [db st d s fs]. cbn in Hf. subst fs. cbn [w_sent].
  apply (wp_final _ (fun w' => w_sent w' = s ++ [ItemDeleted])).
  unfold admin_confirm_delete_item, delete_cart_of_item, delete_item,
    show_items_for_admin, select_items_of.
  wp_run.
Qed.

(** X8.  The deletion of the item [item] by the admin is complete when its
    two statements are committed and its alert is answered; the view of the
    items that follows raises (its last button is given a callback object
    where a string is expected, if formatting a price has not raised before),
    so the handler itself never returns.  When no call fails the alert is
    sent; and when the alert has been sent: the menu items left are those
    whose id is not [item], the cart rows left, of whatever user, are those of
    another item, and the categories, the settings, the orders and the order
    lines (which keep the name and the price of the item they were made of)
    are as they were. *)
Theorem item_deletion_cascades (q : CallbackQuery) (callback_data : AdminCallback)
    (item : Z) (w : world) :
  item_id callback_data = Some item ->
  let o := admin_confirm_delete_item q callback_data w in
  let db := w_db w in
  let db' := w_db (final o) in
  returned o = false /\
  (w_faults w = [] -> w_sent (final o) = w_sent w ++ [ItemDeleted]) /\
  (w_sent (final o) = w_sent w ++ [ItemDeleted] ->
   (forall i, In i (menu_items db') <-> In i (menu_items db) /\ mi_id i <> item) /\
   (forall r, In r (cart db') <-> In r (cart db) /\ c_item_id r <> item) /\
   categories db' = categories db /\ settings db' = settings db /\
   orders db' = orders db /\ order_items db' = order_items db).
Proof.
  intros Hi o db db'.
  destruct (delete_item_final q callback_data w) as [Hr Hdb].
  split; [exact Hr|]. split; [apply delete_item_calm|].
  intros Hsent. subst db' o. rewrite (Hdb Hsent).
  rewrite Hi. unfold without_item.
  cbn [categories menu_items cart orders order_items settings
       with_cart with_menu_items opt_int].
  split; [|split; [|auto]].
  - intros i. rewrite In_filter_not, eq_param_spec. reflexivity.
  - intros r. rewrite In_filter_not, eq_param_spec. reflexivity.
Qed.

(** *** References between the tables *)

Lemma not_in_category (db : database) (cat : value) (i : menu_item) :
  In i (menu_items db) ->
  item_in_category db cat (mi_id i) = false ->
  eq_column (mi_category_id i) cat = false.
Proof.
  intros Hin H. destruct (eq_column (mi_category_id i) cat) eqn:E; [|reflexivity].
  rewrite <- H. symmetry. unfold item_in_category. apply existsb_exists.
  exists i. split; [exact Hin|]. rewrite Z.eqb_refl, E. reflexivity.
Qed.

Ltac references :=
  unfold cart_refers_to_items, items_refer_to_categories;
  cbn [categories menu_items cart with_cart with_menu_items with_categories].

Lemma delete_category_keeps (q : CallbackQuery) (cb : AdminCallback) (w : world) :
  cart_refers_to_items (w_db w) -> items_refer_to_categories (w_db w) ->
  let db' := w_db (final (admin_confirm_delete_category q cb w)) in
  cart_refers_to_items db' /\ items_refer_to_categories db'.
Proof.
  intros Hc Hi. cbv zeta. any_faults w.
  set (cat := opt_int (category_id cb)).
  assert (Hcart : forall c,
            In c (List.filter
                    (fun c => negb (item_in_category db cat (c_item_id c))) (cart db)) ->
            exists i, In i (List.filter
                              (fun i => negb (eq_column (mi_category_id i) cat))
                              (menu_items db)) /\ mi_id i = c_item_id c).
  { intros c Hin. apply filter_In in Hin as [Hin Hout].
    destruct (Hc c Hin) as (i & Hi1 & Hi2). exists i. split; [|exact Hi2].
    apply filter_In. split; [exact Hi1|]. apply negb_true_iff in Hout.
    rewrite <- Hi2 in Hout. rewrite (not_in_category db cat i Hi1 Hout). reflexivity. }
  assert (Hitems : forall i k,
            In i (List.filter (fun i => negb (eq_column (mi_category_id i) cat))
                    (menu_items db)) ->
            mi_category_id i = VInt k ->
            exists c, In c (List.filter (fun c => negb (eq_param (cat_id c) cat))
                              (categories db)) /\ cat_id c = k).
  { intros i k Hin Hk. apply filter_In in Hin as [Hin Hout].
    destruct (Hi i k Hin Hk) as (c & Hc1 & Hc2). exists c. split; [|exact Hc2].
    apply filter_In. split; [exact Hc1|]. rewrite Hk in Hout. cbn in Hout.
    rewrite Hc2. exact Hout. }
  assert (Hcart1 : forall c,
            In c (List.filter
                    (fun c => negb (item_in_category db cat (c_item_id c))) (cart db)) ->
            exists i, In i (menu_items db) /\ mi_id i = c_item_id c).
  { intros c Hin. apply filter_In in Hin as [Hin _]. exact (Hc c Hin). }
  assert (Hitems1 : forall i k,
            In i (List.filter (fun i => negb (eq_column (mi_category_id i) cat))
                    (menu_items db)) ->
            mi_category_id i = VInt k ->
            exists c, In c (categories db) /\ cat_id c = k).
  { intros i k Hin Hk. apply filter_In in Hin as [Hin _]. exact (Hi i k Hin Hk). }
  unfold admin_confirm_delete_category, delete_cart_of_category, delete_items_of,
    delete_category.
  wp_all; cbn [w_db]; split; references; assumption.
Qed.

Lemma delete_item_keeps (q : CallbackQuery) (cb : AdminCallback) (w : world) :
  cart_refers_to_items (w_db w) -> items_refer_to_categories (w_db w) ->
  let db' := w_db (final (admin_confirm_delete_item q cb w)) in
  cart_refers_to_items db' /\ items_refer_to_categories db'.
Proof.
  intros Hc Hi. cbv zeta. any_faults w.
  set (item := opt_int (item_id cb)).
  assert (Hcart : forall c,
            In c (List.filter (fun c => negb (eq_param (c_item_id c) item)) (cart db)) ->
            exists i, In i (List.filter (fun i => negb (eq_param (mi_id i) item))
                              (menu_items db)) /\ mi_id i = c_item_id c).
  { intros c Hin. apply filter_In in Hin as [Hin Hout].
    destruct (Hc c Hin) as (i & Hi1 & Hi2). exists i. split; [|exact Hi2].
    apply filter_In. split; [exact Hi1|]. rewrite Hi2. exact Hout. }
  assert (Hcart1 : forall c,
            In c (List.filter (fun c => negb (eq_param (c_item_id c) item)) (cart db)) ->
            exists i, In i (menu_items db) /\ mi_id i = c_item_id c).
  { intros c Hin. apply filter_In in Hin as [Hin _]. exact (Hc c Hin). }
  assert (Hitems : forall i k,
            In i (List.filter (fun i => negb (eq_param (mi_id i) item)) (menu_items db)) ->
            mi_category_id i = VInt k ->
            exists c, In c (categories db) /\ cat_id c = k).
  { intros i k Hin Hk. apply filter_In in Hin as [Hin _]. exact (Hi i k Hin Hk). }
  unfold admin_confirm_delete_item, delete_cart_of_item, delete_item.
  wp_all; cbn [w_db]; split; references; assumption.
Qed.

(** X9.  The deletions of the admin keep the references between the tables,
    whatever call fails and wherever the handler stops: if every cart row is
    about an item of the menu and every item that names a category names an
    existing one, the same holds of the database that the deletion of a
    category, or of an item, leaves -- also when it has stopped between two
    of its statements, each of which is committed on its own.  The rows that
    refer are deleted before the row they refer to. *)
Theorem deletions_keep_references (q : CallbackQuery) (callback_data : AdminCallback)
    (w : world) :
  cart_refers_to_items (w_db w) -> items_refer_to_categories (w_db w) ->
  forall db',
    db' = w_db (final (admin_confirm_delete_category q callback_data w)) \/
    db' = w_db (final (admin_confirm_delete_item q callback_data w)) ->
    cart_refers_to_items db' /\ items_refer_to_categories db'.
Proof.
  intros Hc Hi db' [-> | ->].
  - apply delete_category_keeps; assumption.
  - apply delete_item_keeps; assumption.
Qed.

(** *** The address and the comment *)

Lemma address_final (message : Message) (w : world) :
  let w' := final (process_address message w) in
  w_db w' = w_db w /\
  ((w_state w' = w_state w /\ w_data w' = w_data w) \/
   exists text, m_text message = Some text /\ (5 < length text)%nat /\
     w_data w' = <["address" := VStr text]> (w_data w) /\
     (w_state w' = w_state w \/ w_state w' = Some awaiting_comment)).
Proof.
  cbv zeta. any_faults w. unfold process_address.
  destruct (m_text message) as [[|c text]|] eqn:Ht; [wp_all | | wp_all].
  destruct (5 <? length (c :: text))%nat eqn:Hl; [|wp_all].
  apply Nat.ltb_lt in Hl.
  wp_all; cbn; (split; [reflexivity|]); right; exists (c :: text); auto.
Qed.

Lemma address_calm (message : Message) (w : world) :
  w_faults w = [] ->
  process_address message w =
  match m_text message with
  | Some text =>
      if (5 <? length text)%nat
      then Ok tt (World (w_db w) (Some awaiting_comment)
                    (<["address" := VStr text]> (w_data w))
                    (w_sent w ++ [AskComment]) [])
      else Ok tt (World (w_db w) (w_state w) (w_data w)
                    (w_sent w ++ [AddressTooShort]) [])
  | None => Ok tt (World (w_db w) (w_state w) (w_data w)
                     (w_sent w ++ [AddressTooShort]) [])
  end.
Proof.
  intros Hf. destruct w as [db st d s fs]. cbn in Hf. subst fs.
  cbn [w_db w_state w_data w_sent]. unfold process_address.
  destruct (m_text message) as [[|c text]|]; [reflexivity | | reflexivity].
  destruct (5 <? length (c :: text))%nat; reflexivity.
Qed.

(** X10.  The address step.  Whatever call fails, the database is not
    written, and the session changes only when the message has a text of
    more than 5 characters: then that text, as it was typed, is stored as the
    address, and the state is the one before or the comment step.  When no
    call fails, a text of more than 5 characters is stored and leads to the
    comment step; a shorter text, or a message without a text (a photo, a
    sticker), leaves the state and the fields as they were and is answered
    by the too-short message only. *)
Theorem address_needs_six_characters (message : Message) (w : world) :
  let o := process_address message w in
  let w' := final o in
  w_db w' = w_db w /\
  ((w_state w' = w_state w /\ w_data w' = w_data w) \/
   exists text, m_text message = Some text /\ (5 < length text)%nat /\
     w_data w' = <["address" := VStr text]> (w_data w) /\
     (w_state w' = w_state w \/ w_state w' = Some awaiting_comment)) /\
  (w_faults w = [] ->
   returned o = true /\
   (forall text, m_text message = Some text -> (5 < length text)%nat ->
      w_state w' = Some awaiting_comment /\
      w_data w' = <["address" := VStr text]> (w_data w) /\
      w_sent w' = w_sent w ++ [AskComment]) /\
   ((forall text, m_text message = Some text -> (length text <= 5)%nat) ->
      w_state w' = w_state w /\ w_data w' = w_data w /\
      w_sent w' = w_sent w ++ [AddressTooShort])).
Proof.
  cbv zeta. pose proof (address_final message w) as [Hdb Hs].
  split; [exact Hdb|]. split; [exact Hs|].
  intros Hf. rewrite (address_calm message w Hf).
  destruct (m_text message) as [text|].
  - destruct (5 <? length text)%nat eqn:Hl.
    + apply Nat.ltb_lt in Hl. split; [reflexivity|]. split.
      * intros t [= <-] _. cbn. auto.
      * intros H. specialize (H text eq_refl). lia.
    + apply Nat.ltb_ge in Hl. split; [reflexivity|]. split.
      * intros t [= <-] H. lia.
      * intros _. cbn. auto.
  - split; [reflexivity|]. split; [discriminate|]. intros _. cbn. auto.
Qed.

Lemma confirm_order_keeps (message : Message) (k : string) (w : world) :
  k <> "final_total" ->
  let w' := final (confirm_order message w) in
  w_db w' = w_db w /\ w_data w' !! k = w_data w !! k.
Proof.
  intros Hk. cbv zeta. any_faults w.
  unfold confirm_order, select_cart_lines, select_settings.
  wp_cases; cbn; split; try reflexivity; apply lookup_insert_ne; congruence.
Qed.

Lemma comment_declined (message : Message) (text : str) (w : world) :
  m_text message = Some text ->
  existsb (str_eqb (strip isspace (lower text))) no_comment = true ->
  process_comment message w = confirm_order message w.
Proof.
  intros Ht He. unfold process_comment, text_or. rewrite Ht.
  unfold mbind, M_bind, mret, M_ret. cbv beta iota. rewrite He. reflexivity.
Qed.

Lemma comment_given (message : Message) (text : str) db st d s fs :
  m_text message = Some text ->
  existsb (str_eqb (strip isspace (lower text))) no_comment = false ->
  process_comment message (World db st d s fs) =
  confirm_order message (World db st (<["comment" := VStr text]> d) s fs).
Proof.
  intros Ht He. unfold process_comment, text_or. rewrite Ht.
  unfold mbind, M_bind, mret, M_ret. cbv beta iota. rewrite He. reflexivity.
Qed.

(** X11.  The comment step.  A text that is, once lowered and stripped,
    one of the three words for no comment leaves the comment field of the
    session as it was: it is neither set nor removed.  Any other text is
    stored as the comment, as typed.  Both hold whatever call fails and
    wherever the summary that follows stops, and the database is not
    written.  A message without a text raises and changes nothing. *)
Theorem comment_kept_unless_declined (message : Message) (w : world) :
  let o := process_comment message w in
  let w' := final o in
  w_db w' = w_db w /\
  match m_text message with
  | Some text =>
      w_data w' !! "comment" =
      if existsb (str_eqb (strip isspace (lower text))) no_comment
      then w_data w !! "comment"
      else Some (VStr text)
  | None => o = Raise AttributeError w
  end.
Proof.
  cbv zeta. destruct (m_text message) as [text|] eqn:Ht.
  - destruct (existsb (str_eqb (strip isspace (lower text))) no_comment) eqn:He.
    + rewrite (comment_declined message text w Ht He).
      apply (confirm_order_keeps message "comment" w). discriminate.
    + destruct w as [db st d s fs].
      rewrite (comment_given message text db st d s fs Ht He).
      destruct (confirm_order_keeps message "comment"
                  (World db st (<["comment" := VStr text]> d) s fs)) as [H1 H2];
        [discriminate|].
      cbn [w_db w_data] in *. split; [exact H1|].
      rewrite H2. apply lookup_insert_eq.
  - unfold process_comment, text_or. rewrite Ht. split; reflexivity.
Qed.

(** *** Repricing *)

Lemma py_float_accepts (message : Message) (text : str) (x : real) :
  m_text message = Some text -> float_of_str text = Some x ->
  py_float message = mret x.
Proof.
  intros Ht Hf. unfold py_float, text_or. rewrite Ht.
  unfold mbind, M_bind, mret, M_ret. rewrite Hf. reflexivity.
Qed.

(** X12.  A new price is committed before it is shown.  When the text is
    one that [float()] parses to a number that is not a NaN and no call
    fails, every item of the id kept in the session has the new price in the
    database, whatever [int()] then makes of that number: if [int()] accepts
    it the session is cleared and the admin panel shown; if [int()] raises a
    [ValueError] the admin is told that the price must be a number, and if it
    raises anything else (an infinity does) the handler raises -- in both
    cases with the price stored and the session as it was. *)
Theorem new_price_committed_before_shown (message : Message) (text : str) (x : real)
    (id : value) (w : world) :
  m_text message = Some text -> float_of_str text = Some x -> is_nan x = false ->
  w_data w !! "item_id" = Some id -> w_faults w = [] ->
  let db' :=
    with_menu_items
      (List.map (fun i => if eq_param (mi_id i) id then set_price x i else i)
         (menu_items (w_db w))) (w_db w) in
  process_new_price message w =
  match int_of_real x with
  | inr shown =>
      Ok tt (World db' None ∅ (w_sent w ++ [PriceUpdated shown; AdminPanel]) [])
  | inl e =>
      if is_ValueError e
      then Ok tt (World db' (w_state w) (w_data w) (w_sent w ++ [PriceNotANumber]) [])
      else Raise e (World db' (w_state w) (w_data w) (w_sent w) [])
  end.
Proof.
  intros Ht Hx Hn Hid Hf. cbv zeta. destruct w as [db st d s fs].
  cbn [w_db w_state w_data w_sent w_faults] in *. subst fs.
  apply wp_outcome. unfold process_new_price.
  rewrite (py_float_accepts message text x Ht Hx). unfold update_price.
  wp_run. rewrite Hid. wp_run. unfold bind_real. rewrite Hn.
  wp_run. destruct (int_of_real x) as [e|shown]; [|wp_run; same_world].
  destruct (is_ValueError e); [wp_run | reflexivity].
Qed.

(** *** The history of orders *)

Lemma fold_max_bound (x y : Z) (l : list Z) :
  In x (y :: l) -> x <= fold_right Z.max y l.
Proof.
  induction l as [|a l IH]; cbn.
  - intros [<- | []]. lia.
  - intros [<- | [<- | H]].
    + specialize (IH (or_introl eq_refl)). lia.
    + lia.
    + specialize (IH (or_intror H)). lia.
Qed.

Lemma next_rowid_bound (ids : list Z) (x : Z) : In x ids -> x < next_rowid ids.
Proof.
  destruct ids as [|y r]; [contradiction|]. intros H.
  apply fold_max_bound in H. unfold next_rowid. lia.
Qed.

Lemma next_rowid_fresh (ids : list Z) : ~ In (next_rowid ids) ids.
Proof. intros H. apply next_rowid_bound in H. lia. Qed.

Lemma history_same (db db' : database) :
  orders db' = orders db -> order_items db' = order_items db ->
  history_extended db db'.
Proof.
  intros H1 H2. exists [], []. rewrite H1, H2, !app_nil_r.
  repeat split; intros ? [].
Qed.

Lemma history_same_final {A} (m : M A) (w : world) :
  (let w' := final (m w) in
   orders (w_db w') = orders (w_db w) /\
   order_items (w_db w') = order_items (w_db w)) ->
  history_extended (w_db w) (w_db (final (m w))).
Proof. intros [H1 H2]. apply history_same; assumption. Qed.

Lemma history_commit_order (user : Z) (data : gmap string value)
    (lines : list cart_line) (db : database) :
  history_extended db (commit_order user data lines db).
Proof.
  unfold commit_order, history_extended.
  destruct (fold_add_order_items (next_rowid (List.map o_id (orders db))) lines
              (add_order user (get_or data "name" VNone) (get_or data "phone" VNone)
                 (get_or data "delivery_type" VNone) (get_or data "address" (VStr []))
                 (get_or data "comment" (VStr []))
                 (get_or data "final_total" (VInt 0)) db))
    as (_ & _ & _ & _ & H5 & new_items & H6 & H7).
  cbn in H5, H6. eexists _, new_items. split; [exact H5|]. split; [exact H6|]. split.
  - intros o [<- | []]. cbn. apply next_rowid_fresh.
  - intros i Hi. eexists. split; [left; reflexivity|]. cbn.
    apply (in_map order_line) in Hi. rewrite H7 in Hi.
    apply in_map_iff in Hi as (l & Hl & _). unfold order_line, frozen in Hl.
    congruence.
Qed.

Lemma history_cart_cleared (user : Z) (db db' : database) :
  history_extended db db' -> history_extended db (cart_cleared user db').
Proof. intros H. exact H. Qed.

Lemma final_confirmation_history (q : CallbackQuery) (w : world) :
  history_extended (w_db w) (w_db (final (handle_final_confirmation ADMIN_IDS q w))).
Proof.
  assert (history_extended (w_db w)
            (w_db (final (process_final_confirmation ADMIN_IDS q w)))) as H.
  { destruct (confirmation_final ADMIN_IDS q w) as [-> | [_ [-> | ->]]].
    - apply history_same; reflexivity.
    - apply history_commit_order.
    - apply history_cart_cleared, history_commit_order. }
  unfold handle_final_confirmation, mbind, M_bind.
  destruct (process_final_confirmation ADMIN_IDS q w) as [[] w1|e w1];
    cbn [final] in *; [|exact H].
  destruct w1 as [db1 st1 d1 s1 fs1]. cbn [w_db] in H.
  apply (wp_final _ (fun w' => history_extended (w_db w) (w_db w'))). wp_all.
Qed.

(** X13.  Orders are only ever added.  Whatever callback query arrives,
    from an admin or not, in whatever state and whichever call fails, the
    orders and the order lines that were in the database are still there,
    unchanged and in their place -- the deletion of an item or of a category
    does not reach them --; an order that was added has an id that no
    earlier order has, and a line that was added is a line of an order added
    with it. *)
Theorem orders_are_only_added (q : CallbackQuery) (w : world) :
  history_extended (w_db w) (w_db (final (dispatch_callback ADMIN_IDS q w))).
Proof.
  unfold dispatch_callback, mbind, M_bind, get_state, gets.
  destruct (route_callback ADMIN_IDS (w_state w) q) as [h|];
    [|apply history_same; reflexivity].
  destruct h; unfold run_callback;
    try (apply final_confirmation_history);
    apply history_same_final; any_faults w.
  - unfold handle_category_selection. wp_all.
  - unfold handle_item_selection, upsert_cart_line. destruct (in_int64 _); wp_all.
  - unfold handle_remove_from_cart, delete_cart_line. wp_all.
  - unfold handle_back_to_categories. wp_all.
  - unfold handle_view_cart. wp_all.
  - unfold handle_clear_cart, delete_cart_of. wp_all.
  - unfold handle_checkout, select_cart_exists. wp_all.
  - unfold handle_delivery_choice. wp_all.
  - unfold handle_cancel_order. wp_all.
  - unfold admin_back_to_main. wp_all.
  - unfold admin_manage_items, show_item_management_categories, select_categories.
    wp_all.
  - unfold admin_settings, show_admin_settings, select_settings. wp_all.
  - unfold admin_add_category. wp_all.
  - unfold admin_delete_category_menu. wp_all.
  - unfold admin_confirm_delete_category, delete_cart_of_category, delete_items_of,
      delete_category. wp_all.
  - unfold admin_view_cat_items. wp_all.
  - unfold admin_add_item. wp_all.
  - unfold admin_edit_item, show_item_edit_menu, select_item. wp_all.
  - unfold admin_edit_price. wp_all.
  - unfold admin_confirm_delete_item, delete_cart_of_item, delete_item. wp_all.
  - unfold admin_edit_setting. wp_all.
Qed.

(** *** Settings *)

Lemma settings_dict_lookup (l : list setting) (j : str) :
  settings_dict l !! j =
  fold_left (fun o s => if str_eqb (s_key s) j then Some (s_value s) else o) l None.
Proof.
  unfold settings_dict.
  change (@None (option real)) with ((∅ : gmap str (option real)) !! j) at 1.
  generalize (∅ : gmap str (option real)).
  induction l as [|s l IH]; intros acc; cbn; [reflexivity|].
  rewrite IH. f_equal. destruct (str_eqb (s_key s) j) eqn:E.
  - apply str_eqb_eq in E. subst j. apply lookup_insert_eq.
  - apply lookup_insert_ne. intros H. apply str_eqb_eq in H. congruence.
Qed.

Lemma lookup_absent (l : list setting) (j : str) (o : option (option real)) :
  existsb (fun s => str_eqb (s_key s) j) l = false ->
  fold_left (fun o s => if str_eqb (s_key s) j then Some (s_value s) else o) l o = o.
Proof.
  revert o. induction l as [|s l IH]; intros o; cbn; [reflexivity|].
  intros H. apply orb_false_iff in H as [H1 H2]. rewrite H1. apply IH, H2.
Qed.

Lemma lookup_present (l : list setting) (j : str) (o : option (option real)) :
  existsb (fun s => str_eqb (s_key s) j) l = true ->
  is_Some (fold_left (fun o s => if str_eqb (s_key s) j then Some (s_value s) else o)
             l o).
Proof.
  revert o. induction l as [|s l IH]; intros o; cbn; [discriminate|].
  destruct (existsb (fun s => str_eqb (s_key s) j) l) eqn:E.
  - intros _. apply IH. reflexivity.
  - rewrite orb_false_r. intros ->. rewrite lookup_absent by exact E. eauto.
Qed.

Lemma lookup_updated (key : value) (v : option real) (l : list setting) (j : str)
    (o : option (option real)) :
  is_str key j = true ->
  fold_left (fun o s => if str_eqb (s_key s) j then Some (s_value s) else o)
    (List.map (fun s => if is_str key (s_key s)
                        then {| s_key := s_key s; s_value := v |} else s) l) o =
  if existsb (fun s => str_eqb (s_key s) j) l then Some v else o.
Proof.
  intros Hk. revert o. induction l as [|s l IH]; intros o; cbn; [reflexivity|].
  rewrite IH. destruct (str_eqb (s_key s) j) eqn:E.
  - apply str_eqb_eq in E. rewrite E, Hk. cbn.
    replace (str_eqb j j) with true by (symmetry; apply str_eqb_eq; reflexivity).
    destruct (existsb _ l); reflexivity.
  - cbn. destruct (is_str key (s_key s)); cbn; rewrite E; reflexivity.
Qed.

Lemma lookup_not_updated (key : value) (v : option real) (l : list setting) (j : str)
    (o : option (option real)) :
  is_str key j = false ->
  fold_left (fun o s => if str_eqb (s_key s) j then Some (s_value s) else o)
    (List.map (fun s => if is_str key (s_key s)
                        then {| s_key := s_key s; s_value := v |} else s) l) o =
  fold_left (fun o s => if str_eqb (s_key s) j then Some (s_value s) else o) l o.
Proof.
  intros Hk. revert o. induction l as [|s l IH]; intros o; cbn; [reflexivity|].
  rewrite IH. f_equal. destruct (is_str key (s_key s)) eqn:E; [|reflexivity].
  cbn. destruct (str_eqb (s_key s) j) eqn:E'; [|reflexivity].
  apply str_eqb_eq in E'. congruence.
Qed.

(** X14.  A setting is updated, never created.  When the text is one that
    [float()] parses and no call fails, the handler commits, reports success,
    clears the session and shows the admin panel; in the dictionary that the
    order summary builds from the settings afterwards, the key kept in the
    session has the new value if it was a key of the table, and every other
    key has the value it had.  A key that the table does not have (or no key
    at all) is not added: success is reported and no setting has changed.
    The other tables are not written. *)
Theorem setting_updated_never_created (message : Message) (text : str) (x : real)
    (key : value) (w : world) :
  m_text message = Some text -> float_of_str text = Some x ->
  w_data w !! "key" = Some key -> w_faults w = [] ->
  let o := process_new_setting_value message w in
  let db := w_db w in
  let db' := w_db (final o) in
  let old := settings_dict (settings db) in
  let new := settings_dict (settings db') in
  returned o = true /\
  w_state (final o) = None /\ w_data (final o) = ∅ /\
  w_sent (final o) = w_sent w ++ [SettingUpdated; AdminPanel] /\
  (forall k, new !! k =
             if is_str key k && bool_decide (is_Some (old !! k))
             then Some (bind_real x) else old !! k) /\
  categories db' = categories db /\ menu_items db' = menu_items db /\
  cart db' = cart db /\ orders db' = orders db /\ order_items db' = order_items db.
Proof.
  intros Ht Hx Hk Hf. cbv zeta. destruct w as [db st d s fs].
  cbn [w_db w_state w_data w_sent w_faults] in *. subst fs.
  assert (process_new_setting_value message (World db st d s []) =
          Ok tt (World (with_settings
                          (List.map (fun s => if is_str key (s_key s)
                                              then {| s_key := s_key s;
                                                      s_value := bind_real x |}
                                              else s) (settings db)) db)
                   None ∅ (s ++ [SettingUpdated; AdminPanel]) [])) as ->.
  { apply wp_outcome. unfold process_new_setting_value.
    rewrite (py_float_accepts message text x Ht Hx). unfold update_setting.
    wp_run. rewrite Hk. wp_run. same_world. }
  cbn [final returned w_db w_state w_data w_sent settings categories menu_items cart
       orders order_items with_settings].
  repeat (split; [reflexivity|]). split; [|auto 10].
  intros k. rewrite !settings_dict_lookup.
  destruct (is_str key k) eqn:E; cbn [andb].
  - rewrite lookup_updated by exact E.
    destruct (existsb (fun s0 => str_eqb (s_key s0) k) (settings db)) eqn:Ex.
    + rewrite bool_decide_true; [reflexivity|]. apply lookup_present, Ex.
    + rewrite lookup_absent by exact Ex. rewrite bool_decide_false; [reflexivity|].
      intros [? H]. discriminate H.
  - apply lookup_not_updated, E.
Qed.

(** *** A new item *)

(** X15.  The three steps that add an item, one after the other.  When no
    call fails, the button of a category, then a message with the name, then
    a message with a price that [float()] parses to a number that is not a
    NaN: each step leaves the state that the next one is registered for, and
    at the end the menu has one more item, the last, with that name, that
    price and the category of the button, without description or photo, and
    with an id that no other item has; the session is cleared.  The fields
    that the session held before the button was pressed play no part. *)
Theorem new_item_in_three_steps (q : CallbackQuery) (callback_data : AdminCallback)
    (named priced : Message) (name text : str) (price : real) (w : world) :
  m_text named = Some name -> m_text priced = Some text ->
  float_of_str text = Some price -> is_nan price = false ->
  w_faults w = [] ->
  let db := w_db w in
  let category := opt_int (category_id callback_data) in
  let new_item :=
    {| mi_id := next_rowid (List.map mi_id (menu_items db));
       mi_name := VStr name; mi_description := VNone; mi_price := price;
       mi_photo_id := VNone; mi_category_id := category |} in
  let w1 := World db (Some await_new_item_name) {[ "category_id" := category ]}
              (w_sent w ++ [AskItemName; Ack]) [] in
  let w2 := World db (Some await_new_item_price)
              (<["name" := VStr name]> {[ "category_id" := category ]})
              (w_sent w ++ [AskItemName; Ack; AskItemPrice]) [] in
  admin_add_item q callback_data w = Ok tt w1 /\
  process_new_item_name named w1 = Ok tt w2 /\
  process_new_item_price priced w2 =
    Ok tt (World (with_menu_items (menu_items db ++ [new_item]) db) None ∅
             (w_sent w ++ [AskItemName; Ack; AskItemPrice; ItemAdded; AdminPanel]) []) /\
  ~ In (mi_id new_item) (List.map mi_id (menu_items db)).
Proof.
  intros Hn Ht Hp Hnan Hf. cbv zeta. destruct w as [db st d s fs].
  cbn [w_db w_state w_data w_sent w_faults] in *. subst fs.
  split; [|split; [|split]].
  - apply wp_outcome. unfold admin_add_item. wp_run. same_world.
  - apply wp_outcome. unfold process_new_item_name. rewrite Hn. wp_run. same_world.
  - apply wp_outcome. unfold process_new_item_price.
    rewrite (py_float_accepts priced text price Ht Hp). unfold insert_menu_item.
    wp_run. rewrite lookup_insert_eq. wp_run.
    rewrite lookup_insert_ne by discriminate. rewrite lookup_singleton_eq.
    wp_run. unfold bind_real. rewrite Hnan. wp_run. same_world.
  - cbn. apply next_rowid_fresh.
Qed.

(** *** The keys of the catalog *)

Lemma kept_refl {A} (l : list A) : kept l l.
Proof.
  exists (fun _ => true). induction l as [|x l IH]; cbn; congruence.
Qed.

Lemma kept_filter {A} (p : A -> bool) (l' l : list A) :
  kept l' l -> kept (List.filter p l') l.
Proof.
  intros [p0 ->]. exists (fun x => p0 x && p x).
  induction l as [|x l IH]; cbn; [reflexivity|].
  destruct (p0 x); cbn; [|exact IH]. destruct (p x); congruence.
Qed.

Lemma NoDup_map_kept {A B} (f : A -> B) (l' l : list A) :
  kept l' l -> NoDup (List.map f l) -> NoDup (List.map f l').
Proof.
  intros [p ->]. induction l as [|x l IH]; cbn; [auto|].
  intros H. apply NoDup_cons in H as [Hx Hl]. destruct (p x); cbn; [|auto].
  apply NoDup_cons. split; [|auto].
  intros Hin. apply Hx. apply list_elem_of_In in Hin. apply list_elem_of_In.
  apply in_map_iff in Hin as (y & Hy & Hin). apply filter_In in Hin as [Hin _].
  apply in_map_iff. eauto.
Qed.

Lemma NoDup_map_snoc {A B} (f : A -> B) (l : list A) (x : A) :
  NoDup (List.map f l) -> ~ In (f x) (List.map f l) -> NoDup (List.map f (l ++ [x])).
Proof.
  intros Hl Hx. rewrite List.map_app. apply NoDup_app. split; [exact Hl|].
  split.
  - intros y Hy Hy'. apply list_elem_of_In in Hy, Hy'. destruct Hy' as [<- | []].
    apply Hx, Hy.
  - cbn. apply NoDup_singleton.
Qed.

Lemma keys_unique_kept (db db' : database) :
  kept (categories db') (categories db) -> kept (menu_items db') (menu_items db) ->
  keys_unique db -> keys_unique db'.
Proof.
  intros Hc Hi (H1 & H2 & H3). unfold keys_unique.
  split; [|split].
  - exact (NoDup_map_kept cat_id _ _ Hc H1).
  - exact (NoDup_map_kept cat_name _ _ Hc H2).
  - exact (NoDup_map_kept mi_id _ _ Hi H3).
Qed.

Lemma catalog_kept_final {A} (m : M A) (w : world) :
  (let w' := final (m w) in
   kept (categories (w_db w')) (categories (w_db w)) /\
   kept (menu_items (w_db w')) (menu_items (w_db w))) ->
  keys_unique (w_db w) -> keys_unique (w_db (final (m w))).
Proof. intros [H1 H2]. apply keys_unique_kept; assumption. Qed.

Ltac catalog_kept :=
  cbn [w_db categories menu_items with_cart with_menu_items with_categories];
  split; repeat first [apply kept_refl | apply kept_filter].

Lemma callbacks_keep_keys (q : CallbackQuery) (w : world) :
  keys_unique (w_db w) ->
  keys_unique (w_db (final (dispatch_callback ADMIN_IDS q w))).
Proof.
  unfold dispatch_callback, mbind, M_bind, get_state, gets.
  destruct (route_callback ADMIN_IDS (w_state w) q) as [h|]; [|auto].
  destruct h; unfold run_callback.
  9: { destruct (final_confirmation_catalog q w) as (H1 & H2 & _).
       apply keys_unique_kept; [rewrite H1 | rewrite H2]; apply kept_refl. }
  all: apply catalog_kept_final; any_faults w.
  - unfold handle_category_selection. wp_all; catalog_kept.
  - unfold handle_item_selection, upsert_cart_line.
    destruct (in_int64 _); wp_all; catalog_kept.
  - unfold handle_remove_from_cart, delete_cart_line. wp_all; catalog_kept.
  - unfold handle_back_to_categories. wp_all; catalog_kept.
  - unfold handle_view_cart. wp_all; catalog_kept.
  - unfold handle_clear_cart, delete_cart_of. wp_all; catalog_kept.
  - unfold handle_checkout, select_cart_exists. wp_all; catalog_kept.
  - unfold handle_delivery_choice. wp_all; catalog_kept.
  - unfold handle_cancel_order. wp_all; catalog_kept.
  - unfold admin_back_to_main. wp_all; catalog_kept.
  - unfold admin_manage_items, show_item_management_categories, select_categories.
    wp_all; catalog_kept.
  - unfold admin_settings, show_admin_settings, select_settings. wp_all; catalog_kept.
  - unfold admin_add_category. wp_all; catalog_kept.
  - unfold admin_delete_category_menu. wp_all; catalog_kept.
  - unfold admin_confirm_delete_category, delete_cart_of_category, delete_items_of,
      delete_category. wp_all; catalog_kept.
  - unfold admin_view_cat_items. wp_all; catalog_kept.
  - unfold admin_add_item. wp_all; catalog_kept.
  - unfold admin_edit_item, show_item_edit_menu, select_item. wp_all; catalog_kept.
  - unfold admin_edit_price. wp_all; catalog_kept.
  - unfold admin_confirm_delete_item, delete_cart_of_item, delete_item.
    wp_all; catalog_kept.
  - unfold admin_edit_setting. wp_all; catalog_kept.
Qed.

Lemma new_category_keeps_keys (name : str) (db : database) :
  ~ In name (List.map cat_name (categories db)) ->
  keys_unique db -> keys_unique (with_new_category name db).
Proof.
  intros Hn (H1 & H2 & H3). unfold keys_unique, with_new_category.
  cbn [categories menu_items with_categories]. split; [|split; [|exact H3]].
  - apply NoDup_map_snoc; [exact H1|]. cbn. apply next_rowid_fresh.
  - apply NoDup_map_snoc; [exact H2|]. exact Hn.
Qed.

Lemma category_name_keeps_keys (message : Message) (w : world) :
  keys_unique (w_db w) ->
  keys_unique (w_db (final (process_new_category_name message w))).
Proof.
  intros H. destruct (m_text message) as [text|] eqn:Ht.
  - destruct (decide (strip isspace text ∈ List.map cat_name (categories (w_db w))))
      as [Hin|Hin]; rewrite list_elem_of_In in Hin.
    + destruct (duplicate_category_refused message text w Ht Hin) as (-> & _).
      exact H.
    + destruct (fresh_category_final message text w Ht Hin) as [-> | ->];
        [exact H|]. apply new_category_keeps_keys; assumption.
  - unfold process_new_category_name, text_or. rewrite Ht. exact H.
Qed.

Lemma item_price_keeps_keys (message : Message) (w : world) :
  keys_unique (w_db w) ->
  keys_unique (w_db (final (process_new_item_price message w))).
Proof.
  intros H. destruct w as [db st d s fs]. cbn [w_db] in H.
  apply (wp_final _ (fun w' => keys_unique (w_db w'))).
  assert (forall name price cat,
            keys_unique
              (with_menu_items
                 (menu_items db ++
                  [{| mi_id := next_rowid (List.map mi_id (menu_items db));
                      mi_name := name; mi_description := VNone; mi_price := price;
                      mi_photo_id := VNone; mi_category_id := cat |}]) db)) as Hnew.
  { intros name price cat. destruct H as (H1 & H2 & H3). unfold keys_unique.
    cbn [categories menu_items with_menu_items]. split; [exact H1|].
    split; [exact H2|]. apply NoDup_map_snoc; [exact H3|]. cbn.
    apply next_rowid_fresh. }
  unfold process_new_item_price, py_float, insert_menu_item.
  wp_all; cbn [w_db]; try exact H;
    match goal with
    | Hq : _ = inr ?d0 |- keys_unique ?d0 =>
        repeat match type of Hq with
               | context [match ?x with _ => _ end] => destruct x
               end;
        try discriminate Hq; injection Hq as <-; apply Hnew
    end.
Qed.

Lemma new_price_keeps_keys (message : Message) (w : world) :
  keys_unique (w_db w) ->
  keys_unique (w_db (final (process_new_price message w))).
Proof.
  intros H. destruct w as [db st d s fs]. cbn [w_db] in H.
  apply (wp_final _ (fun w' => keys_unique (w_db w'))).
  assert (forall p id,
            keys_unique
              (with_menu_items
                 (List.map (fun i => if eq_param (mi_id i) id then set_price p i else i)
                    (menu_items db)) db)) as Hnew.
  { intros p id. destruct H as (H1 & H2 & H3). unfold keys_unique.
    cbn [categories menu_items with_menu_items]. split; [exact H1|].
    split; [exact H2|]. rewrite List.map_map.
    erewrite List.map_ext; [exact H3|].
    intros i. cbn. destruct (eq_param (mi_id i) id); reflexivity. }
  unfold process_new_price, py_float, update_price.
  wp_all; cbn [w_db]; try exact H;
    match goal with
    | Hq : _ = inr ?d0 |- keys_unique ?d0 =>
        repeat match type of Hq with
               | context [match ?x with _ => _ end] => destruct x
               | context [if ?x then _ else _] => destruct x
               end;
        try discriminate Hq; injection Hq as <-; first [apply Hnew | exact H]
    end.
Qed.

(** X16.  The keys of the catalog stay unique.  If no two categories have
    the same id or the same name and no two items have the same id, the same
    holds after any callback query, from whomever and in whatever state, and
    after the messages that name a new category, price a new item or reprice
    an item -- whatever these messages hold, whichever call fails and
    wherever the handler stops. *)
Theorem catalog_keys_stay_unique (q : CallbackQuery) (message : Message) (w : world) :
  keys_unique (w_db w) ->
  keys_unique (w_db (final (dispatch_callback ADMIN_IDS q w))) /\
  keys_unique (w_db (final (process_new_category_name message w))) /\
  keys_unique (w_db (final (process_new_item_price message w))) /\
  keys_unique (w_db (final (process_new_price message w))).
Proof.
  intros H.
  auto using callbacks_keep_keys, category_name_keeps_keys, item_price_keeps_keys,
    new_price_keeps_keys.
Qed.

(** *** What an order needs *)

(** X17.  The review of an order is reached with a name, a phone and a
    delivery type only.  Whatever call fails, the summary leaves the state
    as it was or sets the final-confirmation state, and it sets it only if
    the session holds a delivery type, a name and a phone and the total has
    been cached in it; if one of the three is missing it raises, with the
    state as it was.  The fields of the session are as they were, but for
    the total: no other field is set or removed. *)
Theorem review_needs_name_and_phone (message : Message) (w : world) :
  let o := confirm_order message w in
  let w' := final o in
  (w_data w' = w_data w \/
   exists total, w_data w' = <["final_total" := VReal total]> (w_data w)) /\
  (w_state w' = w_state w \/
   w_state w' = Some awaiting_final_confirmation /\
   is_Some (w_data w !! "delivery_type") /\ is_Some (w_data w !! "name") /\
   is_Some (w_data w !! "phone") /\ is_Some (w_data w' !! "final_total")) /\
  (w_data w !! "delivery_type" = None \/ w_data w !! "name" = None \/
   w_data w !! "phone" = None ->
   returned o = false /\ w_state w' = w_state w).
Proof.
  cbv zeta.
  destruct w as [db st d s fs]. cbn [w_db w_state w_data].
  apply (wp_about _
    (fun o =>
       (w_data (final o) = d \/
        exists total, w_data (final o) = <["final_total" := VReal total]> d) /\
       (w_state (final o) = st \/
        w_state (final o) = Some awaiting_final_confirmation /\
        is_Some (d !! "delivery_type") /\ is_Some (d !! "name") /\
        is_Some (d !! "phone") /\ is_Some (w_data (final o) !! "final_total")) /\
       (d !! "delivery_type" = None \/ d !! "name" = None \/ d !! "phone" = None ->
        returned o = false /\ w_state (final o) = st))).
  unfold confirm_order, select_cart_lines, select_settings.
  wp_cases; intros; cbn [final returned w_data w_state];
    (split; [first [left; reflexivity | right; eexists; reflexivity]|]);
    (split;
     [first [left; reflexivity
            | right; rewrite lookup_insert_eq; repeat split; eauto]|]);
    intros [H | [H | H]]; first [discriminate H | split; reflexivity].
Qed.

(** X18.  No order without a name, a phone and a delivery type.  If the
    session lacks one of the three when the confirmation runs, the database
    is left as it was, whatever call fails: in particular no order and no
    order line is written, and the cart is kept.  When no call fails and the
    cart has lines, the confirmation raises the [KeyError] of the first of
    the three that is missing, in the order delivery type, name, phone, and
    the session is as it was. *)
Theorem order_needs_name_and_phone (q : CallbackQuery) (w : world) :
  let o := process_final_confirmation ADMIN_IDS q w in
  let missing :=
    match w_data w !! "delivery_type", w_data w !! "name", w_data w !! "phone" with
    | None, _, _ => Some "delivery_type"%string
    | _, None, _ => Some "name"%string
    | _, _, None => Some "phone"%string
    | _, _, _ => None
    end in
  forall k, missing = Some k ->
    w_db (final o) = w_db w /\
    (w_faults w = [] -> cart_lines (q_from_id q) (w_db w) <> [] ->
     o = Raise (KeyError k) w).
Proof.
  cbv zeta. intros k Hk. destruct w as [db st d s fs].
  cbn [w_db w_state w_data w_faults] in *. split.
  - apply (wp_final _ (fun w' => w_db w' = db)).
    unfold process_final_confirmation, select_cart_lines.
    wp_run. destruct (cart_lines (q_from_id q) db) as [|line rest]; [wp_run|].
    wp_run. destruct (d !! "delivery_type"); [|reflexivity].
    wp_run. destruct (d !! "name"); [|reflexivity].
    wp_run. destruct (d !! "phone"); [discriminate Hk | reflexivity].
  - intros -> Hl. apply wp_outcome.
    unfold process_final_confirmation, select_cart_lines.
    wp_run. destruct (cart_lines (q_from_id q) db) as [|line rest]; [tauto|].
    wp_run. destruct (d !! "delivery_type"); [|congruence].
    wp_run. destruct (d !! "name"); [|congruence].
    wp_run. destruct (d !! "phone"); [discriminate Hk | congruence].
Qed.

(** *** The initial menu *)

Lemma wp_executemany {P} (conn : database) (statement : P -> sql unit)
    (params : list P) Q (E : exn -> world -> Prop) db st d s fs :
  (forall l, match run_each statement params conn with
             | inr c => Q c (World db st d s l)
             | inl e => E e (World db st d s l)
             end) ->
  (forall l, E DatabaseError (World db st d s l)) ->
  wp (executemany conn statement params) Q E (World db st d s fs).
Proof.
  intros HQ HE. unfold executemany. apply wp_bind, wp_env_call; [|exact HE].
  intros l. apply wp_lift. apply HQ.
Qed.

Lemma seed_categories (ms : list menu_item) ct os ois ss :
  run_each insert_category (List.map text categories_to_add)
    {| categories := []; menu_items := ms; cart := ct; orders := os;
       order_items := ois; settings := ss |} =
  inr {| categories :=
           [ {| cat_id := 1; cat_name := text "Шаурма" |};
             {| cat_id := 2; cat_name := text "Люля-кебаб" |};
             {| cat_id := 3; cat_name := text "Гарниры" |};
             {| cat_id := 4; cat_name := text "Добавки" |};
             {| cat_id := 5; cat_name := text "Другое" |} ];
         menu_items := ms; cart := ct; orders := os;
         order_items := ois; settings := ss |}.
Proof. vm_compute. reflexivity. Qed.

Lemma seed_cat_map (w : world) :
  map_m (fun '(name, description, price, category) =>
           id ← cat_map_item
                  (cat_map_of
                     [ {| cat_id := 1; cat_name := text "Шаурма" |};
                       {| cat_id := 2; cat_name := text "Люля-кебаб" |};
                       {| cat_id := 3; cat_name := text "Гарниры" |};
                       {| cat_id := 4; cat_name := text "Добавки" |};
                       {| cat_id := 5; cat_name := text "Другое" |} ]) category;
           mret (text name, option_map text description, price, id))
    menu_to_add w =
  Ok (List.map (fun '(name, description, price, category) =>
                  (text name, option_map text description, price,
                   if String.eqb category "Шаурма" then 1
                   else if String.eqb category "Люля-кебаб" then 2
                   else if String.eqb category "Гарниры" then 3
                   else if String.eqb category "Добавки" then 4 else 5))
        menu_to_add) w.
Proof. vm_compute. reflexivity. Qed.

Lemma run_each_described (rows : list (str * option str * Z * Z)) (conn : database) :
  exists new_items,
    run_each insert_described_item rows conn =
      inr (with_menu_items (menu_items conn ++ new_items) conn) /\
    Forall2 (fun i row =>
               let '(name, description, price, cat) := row in
               mi_name i = VStr name /\ mi_description i = opt_str description /\
               mi_price i = of_int price /\ mi_photo_id i = VNone /\
               mi_category_id i = VInt cat) new_items rows /\
    (NoDup (List.map mi_id (menu_items conn)) ->
     NoDup (List.map mi_id (menu_items conn ++ new_items))).
Proof.
  revert conn. induction rows as [|[[[name description] price] cat] rows IH];
    intros conn.
  - exists []. destruct conn. cbn. rewrite app_nil_r. auto using Forall2_nil.
  - cbn [run_each insert_described_item dml].
    match goal with
    | |- context [run_each _ rows ?c] => destruct (IH c) as (new_items & H1 & H2 & H3)
    end.
    eexists (_ :: new_items). rewrite H1.
    cbn [menu_items with_menu_items] in *. rewrite <- app_assoc in *. cbn [app] in *.
    split; [reflexivity|]. split.
    + constructor; [cbn; auto 10 | exact H2].
    + intros Hn. apply H3.
      apply (NoDup_map_snoc mi_id (menu_items conn)); [exact Hn|].
      cbn. apply next_rowid_fresh.
Qed.

Lemma Forall2_map_r {A B C} (P : A -> C -> Prop) (f : B -> C) (l : list A)
    (k : list B) :
  Forall2 P l (List.map f k) -> Forall2 (fun x y => P x (f y)) l k.
Proof.
  revert l. induction k as [|y k IH]; intros l H; inversion H; subst;
    constructor; auto.
Qed.

Lemma Forall2_refine {A B} (P Q : A -> B -> Prop) (l : list A) (k : list B) :
  Forall2 P l k -> Forall (fun y => forall x, P x y -> Q x y) k -> Forall2 Q l k.
Proof.
  induction 1 as [|x y l k HP _ IH]; intros HF; [constructor|].
  inversion HF; subst. constructor; auto.
Qed.

(** What [populate_db] does to a database without categories, whatever
    fails. *)
Lemma populate_empty (ms : list menu_item) ct os ois ss st d s fs :
  let db := {| categories := []; menu_items := ms; cart := ct; orders := os;
               order_items := ois; settings := ss |} in
  wp populate_db
    (fun _ w' => (seeded db (w_db w') /\
                  List.map cat_id (categories (w_db w')) = [1; 2; 3; 4; 5] /\
                  (NoDup (List.map mi_id ms) ->
                   NoDup (List.map mi_id (menu_items (w_db w'))))) /\
                 w_state w' = st /\ w_data w' = d /\ w_sent w' = s)
    (fun _ w' => w_db w' = db /\
                 w_state w' = st /\ w_data w' = d /\ w_sent w' = s)
    (World db st d s fs).
Proof.
  cbv zeta. unfold populate_db, count_categories.
  apply wp_bind, wp_fetchone; [intros l|auto]. cbn [head categories length].
  change (0 <? Z.of_nat 0) with false. cbv iota.
  apply wp_bind, wp_connect; [intros l0|auto].
  apply wp_bind, wp_executemany; [intros l1|auto]. rewrite seed_categories.
  apply wp_bind, wp_execute; [intros l2|auto].
  cbn [select_categories rows categories fetched_rows].
  apply wp_bind. unfold wp at 1. rewrite seed_cat_map.
  match goal with
  | |- wp (executemany ?c _ ?items ≫= _) _ _ _ =>
      destruct (run_each_described items c) as (new_items & H1 & H2 & H3)
  end.
  apply wp_bind, wp_executemany; [intros l3|auto]. rewrite H1.
  apply wp_commit; [intros l4|auto].
  cbn [w_db w_state w_data w_sent]. split; [|auto].
  split; [|split; [reflexivity | exact H3]].
  unfold seeded. cbn [categories menu_items cart orders order_items settings
                      with_menu_items].
  split; [reflexivity|]. split; [reflexivity|]. split; [|auto].
  exists new_items. split; [reflexivity|].
  apply Forall2_map_r in H2. apply (Forall2_refine _ _ _ _ H2).
  unfold menu_to_add.
  repeat (apply List.Forall_cons; [|]); [..|apply List.Forall_nil];
    intros i (N1 & N2 & N3 & N4 & N5);
    (split; [exact N1|]); (split; [exact N2|]); (split; [exact N3|]);
    (split; [exact N4|]);
    cbn [categories];
    first [ solve [eexists; split; [left; reflexivity|];
                   split; [reflexivity | exact N5]]
          | solve [eexists; split; [right; left; reflexivity|];
                   split; [reflexivity | exact N5]]
          | solve [eexists; split; [right; right; left; reflexivity|];
                   split; [reflexivity | exact N5]]
          | solve [eexists; split; [right; right; right; left; reflexivity|];
                   split; [reflexivity | exact N5]]
          | solve [eexists; split; [right; right; right; right; left; reflexivity|];
                   split; [reflexivity | exact N5]] ].
Qed.

Lemma populate_full (c : category) (cs : list category) ms ct os ois ss st d s fs :
  let db := {| categories := c :: cs; menu_items := ms; cart := ct; orders := os;
               order_items := ois; settings := ss |} in
  wp populate_db
    (fun _ w' => w_db w' = db /\ w_state w' = st /\ w_data w' = d /\ w_sent w' = s)
    (fun _ w' => w_db w' = db /\ w_state w' = st /\ w_data w' = d /\ w_sent w' = s)
    (World db st d s fs).
Proof.
  cbv zeta. unfold populate_db, count_categories.
  apply wp_bind, wp_fetchone; [intros l|auto]. cbn [head categories].
  replace (0 <? Z.of_nat (length (c :: cs))) with true
    by (symmetry; apply Z.ltb_lt; cbn [length]; lia).
  apply wp_ret. auto.
Qed.


Lemma calm_executemany {P} (conn : database) (statement : P -> sql unit)
    (params : list P) Q (E : exn -> world -> Prop) db st d s :
  match run_each statement params conn with
  | inr c => Q c (World db st d s [])
  | inl e => E e (World db st d s [])
  end ->
  wp (executemany conn statement params) Q E (World db st d s []).
Proof.
  intros H. unfold executemany. apply wp_bind, calm_env_call, wp_lift, H.
Qed.

Lemma populate_calm (w : world) :
  w_faults w = [] ->
  returned (populate_db w) = true /\ w_faults (final (populate_db w)) = [] /\
  categories (w_db (final (populate_db w))) <> [].
Proof.
  intros Hf. destruct w as [[cs ms ct os ois ss] st d s fs].
  cbn [w_faults] in Hf. subst fs.
  apply (wp_about _ (fun o => returned o = true /\ w_faults (final o) = [] /\
                              categories (w_db (final o)) <> [])).
  unfold populate_db, count_categories.
  apply wp_bind, calm_fetchone. cbn [head categories].
  destruct cs as [|c cs].
  - change (0 <? Z.of_nat (length (@nil category))) with false. cbv iota.
    apply wp_bind, calm_connect. cbn [w_db].
    apply wp_bind, calm_executemany. rewrite seed_categories.
    apply wp_bind, calm_execute.
    cbn [select_categories rows categories fetched_rows].
    apply wp_bind. unfold wp at 1. rewrite seed_cat_map.
    match goal with
    | |- wp (executemany ?c _ ?items ≫= _) _ _ _ =>
        destruct (run_each_described items c) as (new_items & H1 & _)
    end.
    apply wp_bind, calm_executemany. rewrite H1.
    apply calm_commit. cbn [final returned w_faults w_db categories with_menu_items].
    split; [reflexivity|]. split; [reflexivity | discriminate].
  - replace (0 <? Z.of_nat (length (c :: cs))) with true
      by (symmetry; apply Z.ltb_lt; cbn [length]; lia).
    apply wp_ret. cbn [final returned w_faults w_db categories].
    split; [reflexivity|]. split; [reflexivity | discriminate].
Qed.

Lemma populate_final (w : world) :
  let o := populate_db w in
  let db := w_db w in
  let db' := w_db (final o) in
  (w_state (final o) = w_state w /\ w_data (final o) = w_data w /\
   w_sent (final o) = w_sent w) /\
  (categories db <> [] -> db' = db) /\
  (db' = db \/
   returned o = true /\ seeded db db' /\
   List.map cat_id (categories db') = [1; 2; 3; 4; 5] /\
   (NoDup (List.map mi_id (menu_items db)) ->
    NoDup (List.map mi_id (menu_items db')))).
Proof.
  cbv zeta. destruct w as [[cs ms ct os ois ss] st d s fs].
  cbn [w_db w_state w_data w_sent categories menu_items].
  destruct cs as [|c cs].
  - pose proof (populate_empty ms ct os ois ss st d s fs) as H. cbv zeta in H.
    unfold wp in H.
    destruct (populate_db _) as [a w'|e w']; cbn [final returned].
    + destruct H as ((H1 & H2 & H3) & H4). split; [exact H4|].
      split; [intros F; contradiction F; reflexivity|]. right. auto.
    + destruct H as (H1 & H4). split; [exact H4|].
      split; [intros F; contradiction F; reflexivity|]. left. exact H1.
  - pose proof (populate_full c cs ms ct os ois ss st d s fs) as H. cbv zeta in H.
    unfold wp in H.
    destruct (populate_db _) as [a w'|e w']; cbn [final returned];
      destruct H as (H1 & H4); auto.
Qed.

Lemma seeded_not_empty (db db' : database) : seeded db db' -> categories db' <> [].
Proof.
  intros (_ & H & _) E. rewrite E in H. discriminate H.
Qed.

Lemma populate_noop (w : world) :
  categories (w_db w) <> [] -> w_faults w = [] -> populate_db w = Ok tt w.
Proof.
  intros Hc Hf. destruct w as [[cs ms ct os ois ss] st d s fs].
  cbn [w_db w_faults categories] in *. subst fs.
  destruct cs as [|c cs]; [contradiction Hc; reflexivity|].
  apply wp_outcome. unfold populate_db, count_categories.
  apply wp_bind, calm_fetchone. cbn [head categories].
  replace (0 <? Z.of_nat (length (c :: cs))) with true
    by (symmetry; apply Z.ltb_lt; cbn [length]; lia).
  apply wp_ret. reflexivity.
Qed.

(** X19.  The initial menu is written whole or not at all, and only into
    a database without categories.  Whatever call fails, [populate_db]
    leaves the database as it was, or it has returned and the database had
    no category and now has the five categories of the source, in their
    order, and after the items it had the items of the source, in their
    order, each with its name, description and price and in the category
    that the source names for it; the cart, the orders and the settings are
    not written.  A database that has a category is left as it was.  When no
    call fails it returns, and the database has categories afterwards.
    Nothing is sent and the session is not touched. *)
Theorem menu_seeded_whole_or_not_at_all (w : world) :
  let o := populate_db w in
  let db := w_db w in
  let db' := w_db (final o) in
  (w_state (final o) = w_state w /\ w_data (final o) = w_data w /\
   w_sent (final o) = w_sent w) /\
  (db' = db \/ returned o = true /\ seeded db db') /\
  (categories db <> [] -> db' = db) /\
  (w_faults w = [] -> returned o = true /\ categories db' <> []).
Proof.
  cbv zeta. destruct (populate_final w) as (H1 & H2 & H3).
  split; [exact H1|]. split; [tauto|]. split; [exact H2|].
  intros Hf. destruct (populate_calm w Hf) as (Hr & _ & Hc). auto.
Qed.

(** X20.  The initial menu is written once.  When no call fails, running
    [populate_db] again, as every start of the bot does, changes nothing:
    two runs in a row end as one run does. *)
Theorem menu_seeded_once (w : world) :
  w_faults w = [] ->
  (populate_db;; populate_db) w = populate_db w.
Proof.
  intros Hf. destruct (populate_calm w Hf) as (Hr & Hf' & Hc).
  unfold mbind, M_bind.
  destruct (populate_db w) as [[] w1|e w1]; [|discriminate Hr].
  cbn [final] in Hf', Hc. apply populate_noop; assumption.
Qed.

(** X21.  The initial menu keeps the keys unique and the references
    sound.  If no two categories have the same id or name and no two items
    the same id, if every item that names a category names an existing one
    and every cart row is about an item of the menu, then the same holds
    after [populate_db], whatever call fails. *)
Theorem seeding_keeps_keys_and_references (w : world) :
  let db' := w_db (final (populate_db w)) in
  keys_unique (w_db w) -> items_refer_to_categories (w_db w) ->
  cart_refers_to_items (w_db w) ->
  keys_unique db' /\ items_refer_to_categories db' /\ cart_refers_to_items db'.
Proof.
  cbv zeta. intros (K1 & K2 & K3) Hi Hc.
  destruct (populate_final w) as (_ & _ & [-> | (_ & Hs & Hids & Hn)]).
  { unfold keys_unique. auto. }
  destruct Hs as (He & Hnames & (new_items & Hm & Hnew) & Hcart & _).
  split; [|split].
  - unfold keys_unique. rewrite Hids, Hnames. split; [|split; [|auto]].
    + apply (bool_decide_unpack (NoDup [1; 2; 3; 4; 5])). vm_compute. exact I.
    + apply (bool_decide_unpack (NoDup (List.map text categories_to_add))).
      vm_compute. exact I.
  - intros i k Hin Hk. rewrite Hm in Hin. apply in_app_or in Hin as [Hin | Hin].
    + destruct (Hi i k Hin Hk) as (c & Hc' & _). rewrite He in Hc'. destruct Hc'.
    + assert (exists row, seeded_from (w_db (final (populate_db w))) i row)
        as [[[[name description] price] category] Hrow].
      { clear -Hnew Hin. induction Hnew as [|x y l k Hxy _ IH]; [destruct Hin|].
        destruct Hin as [<- | Hin]; eauto. }
      destruct Hrow as (_ & _ & _ & _ & c & Hc1 & _ & Hc2).
      exists c. split; [exact Hc1|]. congruence.
  - intros c Hin. rewrite Hcart in Hin. destruct (Hc c Hin) as (i & Hi1 & Hi2).
    exists i. split; [|exact Hi2]. rewrite Hm. apply in_or_app. left. exact Hi1.
Qed.

(** *** An order from the cart to the kitchen *)

Lemma dispatch_checkout (q : CallbackQuery) (w : world) :
  q_data q = lit "checkout" -> dispatch_callback ADMIN_IDS q w = handle_checkout q w.
Proof.
  intros H. unfold dispatch_callback, mbind, M_bind, get_state, gets.
  unfold route_callback, route_admin, unpack_admin, unpack_id, unpack.
  rewrite H. reflexivity.
Qed.

Lemma dispatch_takeaway (q : CallbackQuery) (w : world) :
  q_data q = lit "delivery:takeaway" ->
  dispatch_callback ADMIN_IDS q w = handle_delivery_choice q w.
Proof.
  intros H. unfold dispatch_callback, mbind, M_bind, get_state, gets.
  unfold route_callback, route_admin, unpack_admin, unpack_id, unpack.
  rewrite H. reflexivity.
Qed.

Lemma checkout_calm (q : CallbackQuery) (w : world) :
  cart_of (q_from_id q) (w_db w) <> [] -> w_faults w = [] ->
  handle_checkout q w =
  Ok tt (World (w_db w) (Some awaiting_name) (w_data w)
           (w_sent w ++ [AskName; Ack]) []).
Proof.
  intros H Hf. no_faults w. unfold handle_checkout, select_cart_exists. wp_run.
  destruct (cart_of (q_from_id q) db); [contradiction H; reflexivity|].
  cbn. wp_run. same_world.
Qed.

Lemma name_calm (message : Message) (w : world) :
  w_faults w = [] ->
  process_name message w =
  Ok tt (World (w_db w) (Some awaiting_phone)
           (<["name" := opt_str (m_text message)]> (w_data w))
           (w_sent w ++ [AskPhone]) []).
Proof. intros Hf. no_faults w. unfold process_name. wp_run. Qed.

Lemma cart_lines_rows (user : Z) (db : database) :
  cart_lines user db <> [] -> cart_of user db <> [].
Proof. unfold cart_lines. intros H E. rewrite E in H. apply H. reflexivity. Qed.

(** The summary of a takeaway order: the settings are read and not used. *)
Lemma confirm_takeaway_calm (message : Message) (w : world) (delivery_type name phone : value)
    (shown_subtotal shown_total : Z) :
  let subtotal := py_sum (List.map line_total (cart_lines (m_chat_id message) (w_db w))) in
  let final_total := radd subtotal (of_int 0) in
  w_faults w = [] ->
  w_data w !! "delivery_type" = Some delivery_type ->
  is_str delivery_type (lit "delivery") = false ->
  w_data w !! "name" = Some name ->
  w_data w !! "phone" = Some phone ->
  int_of_real subtotal = inr shown_subtotal ->
  int_of_real final_total = inr shown_total ->
  confirm_order message w =
  Ok tt (World (w_db w) (Some awaiting_final_confirmation)
           (<["final_total" := VReal final_total]> (w_data w))
           (w_sent w ++ [ReviewOrder shown_subtotal shown_total]) []).
Proof.
  intros subtotal final_total Hf Hd Ht Hn Hp His Hitot. subst subtotal final_total.
  no_faults w. unfold confirm_order, select_cart_lines, select_settings.
  wp_run. rewrite Hd. wp_run. rewrite Ht.
  wp_run. rewrite Hn. wp_run. rewrite Hp. wp_run. rewrite His. wp_run.
  rewrite Hitot. wp_run.
Qed.

Lemma final_confirmation_calm (q : CallbackQuery) (w : world)
    (delivery_type name phone : value) (shown_total : Z) :
  let user := q_from_id q in
  let lines := cart_lines user (w_db w) in
  w_faults w = [] ->
  w_state w = Some awaiting_final_confirmation ->
  q_data q = lit "confirm_order" ->
  lines <> [] ->
  w_data w !! "delivery_type" = Some delivery_type ->
  w_data w !! "name" = Some name ->
  w_data w !! "phone" = Some phone ->
  Forall (fun l => exists z, int_of_real (line_total l) = inr z) lines ->
  int_of_value (get_or (w_data w) "final_total" (VInt 0)) = inr shown_total ->
  exists sent,
    dispatch_callback ADMIN_IDS q w =
    Ok tt (World (cart_cleared user (commit_order user (w_data w) lines (w_db w)))
             None ∅ sent []).
Proof.
  intros user lines Hf Hs Hq Hl Hd Hn Hp Hints Ht.
  unfold dispatch_callback, mbind, M_bind, get_state, gets.
  rewrite route_confirm_order by exact Hq. rewrite Hs. cbn [in_final_confirmation].
  unfold run_callback, handle_final_confirmation, mbind, M_bind.
  rewrite (confirmation_calm ADMIN_IDS q w delivery_type name phone shown_total)
    by assumption.
  rewrite error_reply_calm by reflexivity. eexists. reflexivity.
Qed.

Lemma commit_order_row (user : Z) (data : gmap string value)
    (lines : list cart_line) (db : database) :
  let db' := commit_order user data lines db in
  exists order new_items,
    orders db' = orders db ++ [order] /\
    order_items db' = order_items db ++ new_items /\
    o_user_id order = user /\
    o_user_name order = get_or data "name" VNone /\
    o_phone_number order = get_or data "phone" VNone /\
    o_delivery_type order = get_or data "delivery_type" VNone /\
    o_address order = get_or data "address" (VStr []) /\
    o_comment order = get_or data "comment" (VStr []) /\
    o_total_amount order = bind_value (get_or data "final_total" (VInt 0)) /\
    List.map order_line new_items = List.map (frozen (o_id order)) lines.
Proof.
  unfold commit_order.
  destruct (fold_add_order_items (next_rowid (List.map o_id (orders db))) lines
              (add_order user (get_or data "name" VNone) (get_or data "phone" VNone)
                 (get_or data "delivery_type" VNone) (get_or data "address" (VStr []))
                 (get_or data "comment" (VStr []))
                 (get_or data "final_total" (VInt 0)) db))
    as (_ & _ & _ & _ & H5 & new_items & H6 & H7).
  cbn in H5, H6. cbv zeta. eexists _, new_items.
  split; [exact H5|]. split; [exact H6|]. cbn. auto 12.
Qed.

(** X22.  An order from the cart to the kitchen.  A user whose session
    holds no field presses the checkout, sends a name, types a phone of 10 to
    15 digits, chooses the takeaway, sends a comment and confirms.  When no
    call fails and the numbers shown are ones that [int()] accepts, the six
    steps -- the three callback queries taken through the dispatcher, the
    three messages given to the handlers of the name, of the phone and of
    the comment -- end with exactly one more order: of that user, with the name and the phone as they were sent, the
    takeaway, no address, the comment as it was sent (none if it was one of
    the three words for no comment), and as total the sum of price times
    quantity over the lines of the cart plus 0; with one order line per line
    of the cart; the cart of the user is empty, the catalog as it was and
    the session cleared. *)
Theorem takeaway_order_end_to_end
    (checkout chosen confirmed : CallbackQuery) (named phoned commented : Message)
    (user : Z) (name phone comment : str) (shown_subtotal shown_total : Z)
    (w : world) :
  q_data checkout = lit "checkout" -> q_from_id checkout = user ->
  m_text named = Some name ->
  m_text phoned = Some phone -> (10 <= length (digits_only phone) <= 15)%nat ->
  q_data chosen = lit "delivery:takeaway" ->
  m_text commented = Some comment -> m_chat_id commented = user ->
  q_data confirmed = lit "confirm_order" -> q_from_id confirmed = user ->
  w_faults w = [] -> w_data w = ∅ ->
  let db := w_db w in
  let lines := cart_lines user db in
  let subtotal := py_sum (List.map line_total lines) in
  let total := radd subtotal (of_int 0) in
  lines <> [] ->
  Forall (fun l => exists z, int_of_real (line_total l) = inr z) lines ->
  int_of_real subtotal = inr shown_subtotal ->
  int_of_real total = inr shown_total ->
  let o := (dispatch_callback ADMIN_IDS checkout;;
            process_name named;;
            process_phone_text phoned;;
            dispatch_callback ADMIN_IDS chosen;;
            process_comment commented;;
            dispatch_callback ADMIN_IDS confirmed) w in
  let db' := w_db (final o) in
  returned o = true /\ w_state (final o) = None /\ w_data (final o) = ∅ /\
  (exists order new_items,
     orders db' = orders db ++ [order] /\
     order_items db' = order_items db ++ new_items /\
     o_user_id order = user /\
     o_user_name order = VStr name /\
     o_phone_number order = VStr phone /\
     o_delivery_type order = VStr (lit "takeaway") /\
     o_address order = VStr [] /\
     o_comment order =
       (if existsb (str_eqb (strip isspace (lower comment))) no_comment
        then VStr [] else VStr comment) /\
     o_total_amount order = bind_value (VReal total) /\
     List.map order_line new_items = List.map (frozen (o_id order)) lines) /\
  cart_of user db' = [] /\ same_catalog db db'.
Proof.
  intros Hq1 Hu1 Hn Hp Hdigits Hq2 Hc Hu3 Hq3 Hu4 Hf Hd.
  destruct w as [db st d s fs]. cbn [w_db w_data w_faults] in *. subst d fs.
  intros Hl Hints His Hit.
  assert (split colon (q_data chosen) = [lit "delivery"; lit "takeaway"]) as Hsplit
    by (rewrite Hq2; vm_compute; reflexivity).
  assert (lit "takeaway" <> lit "delivery") as Hneq by (vm_compute; discriminate).
  assert (is_str (VStr (lit "takeaway")) (lit "delivery") = false) as Hnot.
  { unfold is_str. apply not_true_is_false. rewrite str_eqb_eq. exact Hneq. }
  set (declined := existsb (str_eqb (strip isspace (lower comment))) no_comment).
  set (d4 := <["delivery_type" := VStr (lit "takeaway")]>
               (<["phone" := VStr phone]>
                  (<["name" := VStr name]> (∅ : gmap string value)))).
  set (d5 := if declined then d4 else <["comment" := VStr comment]> d4).
  set (total := radd (py_sum (List.map line_total (cart_lines user db))) (of_int 0))
    in *.
  set (d6 := <["final_total" := VReal total]> d5).
  assert (d5 !! "delivery_type" = Some (VStr (lit "takeaway")) /\
          d5 !! "name" = Some (VStr name) /\ d5 !! "phone" = Some (VStr phone) /\
          d5 !! "address" = None /\
          d5 !! "comment" = if declined then None else Some (VStr comment))
    as (D1 & D2 & D3 & D4 & D5).
  { unfold d5, d4. destruct declined; repeat split; simplify_map_eq; reflexivity. }
  assert (exists sent,
            (dispatch_callback ADMIN_IDS checkout;;
             process_name named;;
             process_phone_text phoned;;
             dispatch_callback ADMIN_IDS chosen;;
             process_comment commented;;
             dispatch_callback ADMIN_IDS confirmed) (World db st ∅ s []) =
            Ok tt (World (cart_cleared user
                            (commit_order user d6 (cart_lines user db) db))
                     None ∅ sent [])) as [sent Hrun].
  { unfold mbind at 1 2 3 4 5. unfold M_bind.
    rewrite dispatch_checkout by exact Hq1.
    rewrite checkout_calm
      by first [reflexivity | cbn [w_db]; rewrite Hu1; apply cart_lines_rows, Hl].
    cbv beta iota. rewrite name_calm by reflexivity. cbv beta iota.
    rewrite (phone_text_accepted phoned phone) by (try assumption; reflexivity).
    cbv beta iota. rewrite dispatch_takeaway by exact Hq2.
    rewrite (other_chosen_calm chosen (lit "delivery") (lit "takeaway") [])
      by (try assumption; reflexivity).
    cbv beta iota. cbn [w_db w_state w_data w_sent]. rewrite Hn. cbn [opt_str].
    fold d4.
    assert (exists s5, process_comment commented
                         (World db (Some awaiting_comment) d4
                            ((((s ++ [AskName; Ack]) ++ [AskPhone]) ++
                              [PhoneAccepted; ChooseDelivery]) ++
                             [MessageDeleted; AskComment; Ack]) []) =
                       confirm_order commented
                         (World db (Some awaiting_comment) d5 s5 [])) as [s5 ->].
    { eexists. unfold d5. destruct declined eqn:Hdec.
      - apply (comment_declined commented comment); assumption.
      - apply (comment_given commented comment); assumption. }
    rewrite (confirm_takeaway_calm commented _ (VStr (lit "takeaway")) (VStr name)
               (VStr phone) shown_subtotal shown_total);
      cbn [w_db w_data w_faults w_state w_sent]; rewrite ?Hu3;
      try assumption; try reflexivity.
    fold total. fold d6.
    destruct (final_confirmation_calm confirmed
                (World db (Some awaiting_final_confirmation) d6
                   (s5 ++ [ReviewOrder shown_subtotal shown_total]) [])
                (VStr (lit "takeaway")) (VStr name) (VStr phone) shown_total)
      as [sent Hsent];
      cbn [w_db w_data w_faults w_state w_sent]; rewrite ?Hu4;
      try assumption; try reflexivity.
    - unfold d6. rewrite lookup_insert_ne by discriminate. exact D1.
    - unfold d6. rewrite lookup_insert_ne by discriminate. exact D2.
    - unfold d6. rewrite lookup_insert_ne by discriminate. exact D3.
    - unfold d6, get_or. rewrite lookup_insert_eq. exact Hit.
    - exists sent. rewrite Hu4 in Hsent. exact Hsent. }
  cbv zeta. rewrite Hrun. cbn [final returned w_state w_data w_db].
  split; [reflexivity|]. split; [reflexivity|]. split; [reflexivity|].
  split; [|split; [apply cleared_own|]].
  - destruct (commit_order_row user d6 (cart_lines user db) db)
      as (order & new_items & H1 & H2 & H3 & H4 & H5 & H6 & H7 & H8 & H9 & H10).
    exists order, new_items.
    unfold get_or in H4, H5, H6, H7, H8, H9. unfold d6 in H4, H5, H6, H7, H8, H9.
    rewrite lookup_insert_ne in H4, H5, H6, H7, H8 by discriminate.
    rewrite lookup_insert_eq in H9.
    rewrite D2 in H4. rewrite D3 in H5. rewrite D1 in H6. rewrite D4 in H7.
    rewrite D5 in H8.
    cbn [cart_cleared orders order_items with_cart].
    split; [exact H1|]. split; [exact H2|]. split; [exact H3|]. split; [exact H4|].
    split; [exact H5|]. split; [exact H6|]. split; [exact H7|].
    split; [destruct declined; exact H8|]. split; [exact H9 | exact H10].
  - destruct (commit_order_frame user d6 (cart_lines user db) db)
      as (F1 & F2 & _ & F4).
    unfold same_catalog. cbn [cart_cleared categories menu_items settings with_cart].
    auto.
Qed.

(** *** Where a flow starts *)

(** X23.  The three entries reset the session.  After [/start], after the
    menu button and after [/admin] the session has no state and no field,
    whatever it held before -- an order half-way, an admin edit -- and
    whatever call fails afterwards: the session is cleared before anything
    is sent.  The database is not written. *)
Theorem entries_reset_the_session (message : Message) (w : world) :
  let reset (o : outcome unit) :=
    w_state (final o) = None /\ w_data (final o) = ∅ /\ w_db (final o) = w_db w in
  reset (send_welcome message w) /\
  reset (show_menu message w) /\
  reset (admin_panel_command message w).
Proof.
  cbv zeta. destruct w as [db st d s fs]. cbn [w_db].
  split; [|split].
  - apply (wp_final _ (fun w' => w_state w' = None /\ w_data w' = ∅ /\ w_db w' = db)).
    unfold send_welcome. wp_run.
  - apply (wp_final _ (fun w' => w_state w' = None /\ w_data w' = ∅ /\ w_db w' = db)).
    unfold show_menu. wp_all.
  - apply (wp_final _ (fun w' => w_state w' = None /\ w_data w' = ∅ /\ w_db w' = db)).
    unfold admin_panel_command. wp_run.
Qed.

End Extras.

(** ** The further properties on the sample data *)

Import MoreSample.

Lemma adding_witness :
  let o := handle_item_selection (callback 7 (lit "item:1")) 1 (idle shop []) in
  let o' := handle_item_selection (callback 7 (lit "item:9223372036854775808"))
              (2 ^ 63) (idle shop []) in
  w_faults (idle shop []) = [] /\ in_int64 1 = true /\
  (7, 2) <> (7, 1) /\
  returned o = true /\
  List.filter (same_line 7 1) (cart (w_db (final o))) =
    [{| c_user_id := 7; c_item_id := 1; c_quantity := 3 |}] /\
  List.filter (same_line 7 2) (cart (w_db (final o))) =
    List.filter (same_line 7 2) (cart shop) /\
  in_int64 (2 ^ 63) = false /\
  w_db (final o') = shop /\ o' = Raise OverflowError (idle shop []).
Proof.
  intros o o'.
  destruct (adding_increments_one_row (callback 7 (lit "item:1")) 1 (idle shop []))
    as (_ & _ & _ & _ & _ & Hothers & Hcalm & _).
  destruct (adding_increments_one_row
              (callback 7 (lit "item:9223372036854775808")) (2 ^ 63) (idle shop []))
    as (_ & _ & _ & _ & _ & _ & _ & Hover).
  assert ((7, 2) <> (7, 1)) as Hne by discriminate.
  destruct (Hcalm eq_refl eq_refl) as [Hr Hrow].
  destruct (Hover eq_refl) as [Hdb Hraise].
  split; [reflexivity|]. split; [reflexivity|]. split; [exact Hne|].
  split; [exact Hr|]. split; [exact Hrow|]. split; [exact (Hothers 7 2 Hne)|].
  split; [reflexivity|]. split; [exact Hdb | exact (Hraise eq_refl)].
Defined.

Lemma additions_witness :
  let o := add_many (callback 7 (lit "item:1")) 1 3 (idle shop []) in
  w_faults (idle shop []) = [] /\ in_int64 1 = true /\ (0 < 3)%nat /\
  returned o = true /\
  quantity_in_cart 7 1 (w_db (final o)) = 5 /\
  length (List.filter (same_line 7 1) (cart (w_db (final o)))) = 1%nat.
Proof.
  intros o.
  destruct (additions_add_up (callback 7 (lit "item:1")) 1 3 (idle shop [])
              eq_refl eq_refl)
    as (Hr & Hq & Hone & _).
  assert (0 < 3)%nat as Hpos by lia.
  split; [reflexivity|]. split; [reflexivity|]. split; [exact Hpos|].
  split; [exact Hr|]. split; [exact Hq | exact (Hone Hpos)].
Defined.


Lemma clearing_witness :
  let w' := final (handle_clear_cart (callback 7 (lit "clear_cart")) (idle shop [])) in
  w_faults (idle shop []) = [] /\ 8 <> 7 /\
  cart_of 7 (w_db w') = [] /\ cart_of 8 (w_db w') = cart_of 8 shop.
Proof.
  intros w'.
  destruct (clearing_empties_own_cart (callback 7 (lit "clear_cart")) (idle shop []))
    as (_ & _ & _ & _ & _ & Hothers & Hcalm).
  assert (8 <> 7) as Hne by discriminate.
  split; [reflexivity|]. split; [exact Hne|].
  split; [exact (Hcalm eq_refl) | exact (Hothers 8 Hne)].
Defined.

Lemma confirmation_state_witness :
  q_data (callback 7 (lit "confirm_order")) = lit "confirm_order" /\
  w_state (review shop []) = Some awaiting_final_confirmation /\
  dispatch_callback admins (callback 7 (lit "confirm_order")) (review shop []) =
    handle_final_confirmation admins (callback 7 (lit "confirm_order")) (review shop []) /\
  w_state comment_step <> Some awaiting_final_confirmation /\
  dispatch_callback admins (callback 7 (lit "confirm_order")) comment_step =
    Ok tt comment_step.
Proof.
  destruct (confirmation_needs_its_state admins (callback 7 (lit "confirm_order"))
              (review shop []) eq_refl) as [H1 _].
  destruct (confirmation_needs_its_state admins (callback 7 (lit "confirm_order"))
              comment_step eq_refl) as [_ H2].
  assert (w_state comment_step <> Some awaiting_final_confirmation) as Hne
    by discriminate.
  split; [reflexivity|]. split; [reflexivity|]. split; [exact (H1 eq_refl)|].
  split; [exact Hne | exact (H2 Hne)].
Defined.

Lemma non_admin_witness :
  is_admin admins (q_from_id (callback 7 (lit "admin:confirm_delete_category:1::"))) =
    false /\
  same_catalog shop
    (w_db (final (dispatch_callback admins
                    (callback 7 (lit "admin:confirm_delete_category:1::"))
                    (idle shop [])))).
Proof.
  split; [reflexivity|].
  exact (catalog_safe_from_non_admins admins
           (callback 7 (lit "admin:confirm_delete_category:1::")) (idle shop [])
           eq_refl).
Defined.

Lemma item_deletion_witness :
  let o := admin_confirm_delete_item (callback 99 []) delete_standard (idle shop []) in
  item_id delete_standard = Some 1 /\
  w_faults (idle shop []) = [] /\
  returned o = false /\
  w_sent (final o) = w_sent (idle shop []) ++ [ItemDeleted] /\
  List.map mi_id (menu_items (w_db (final o))) = [2] /\
  (forall i, In i (menu_items (w_db (final o))) <->
             In i (menu_items shop) /\ mi_id i <> 1) /\
  (forall r, In r (cart (w_db (final o))) <-> In r (cart shop) /\ c_item_id r <> 1).
Proof.
  intros o.
  destruct (item_deletion_cascades (callback 99 []) delete_standard 1 (idle shop [])
              eq_refl) as (H0 & H1 & H2).
  assert (w_sent (final o) = w_sent (idle shop []) ++ [ItemDeleted]) as Hs
    by exact (H1 eq_refl).
  destruct (H2 Hs) as (Hi & Hc & _).
  split; [reflexivity|]. split; [reflexivity|]. split; [exact H0|].
  split; [exact Hs|]. split; [reflexivity|]. split; [exact Hi | exact Hc].
Defined.

Lemma references_witness :
  let db' := w_db (final (admin_confirm_delete_category (callback 99 [])
                            delete_shawarma (idle shop second_statement_fails))) in
  cart_refers_to_items shop /\ items_refer_to_categories shop /\
  List.map cat_id (categories db') = [1; 2] /\
  List.map c_user_id (cart db') = [8] /\
  cart_refers_to_items db' /\ items_refer_to_categories db'.
Proof.
  intros db'.
  assert (cart_refers_to_items shop) as Hc.
  { intros c [<- | [<- | []]].
    - exists shawarma. split; [left; reflexivity | reflexivity].
    - exists fries. split; [right; left; reflexivity | reflexivity]. }
  assert (items_refer_to_categories shop) as Hi.
  { intros i k [<- | [<- | []]] [= <-].
    - eexists. split; [left; reflexivity | reflexivity].
    - eexists. split; [right; left; reflexivity | reflexivity]. }
  split; [exact Hc|]. split; [exact Hi|].
  split; [reflexivity|]. split; [reflexivity|].
  exact (deletions_keep_references (callback 99 []) delete_shawarma
           (idle shop second_statement_fails) Hc Hi db' (or_introl eq_refl)).
Defined.

Lemma address_witness :
  let o := process_address (text_message 7 (lit "Old street 5")) address_step in
  let o' := process_address (text_message 7 (lit "flat")) address_step in
  m_text (text_message 7 (lit "Old street 5")) = Some (lit "Old street 5") /\
  (5 < length (lit "Old street 5"))%nat /\
  w_faults address_step = [] /\
  w_state (final o) = Some awaiting_comment /\
  w_data (final o) = <["address" := VStr (lit "Old street 5")]> (w_data address_step) /\
  w_sent (final o) = [AskComment] /\
  (forall text, m_text (text_message 7 (lit "flat")) = Some text ->
     (length text <= 5)%nat) /\
  w_state (final o') = Some awaiting_address /\
  w_data (final o') = w_data address_step /\
  w_sent (final o') = [AddressTooShort].
Proof.
  intros o o'.
  destruct (address_needs_six_characters (text_message 7 (lit "Old street 5"))
              address_step) as (_ & _ & H).
  destruct (address_needs_six_characters (text_message 7 (lit "flat"))
              address_step) as (_ & _ & H').
  destruct (H eq_refl) as (_ & Hlong & _).
  destruct (H' eq_refl) as (_ & _ & Hshort).
  assert (5 < length (lit "Old street 5"))%nat as Hl by (vm_compute; lia).
  assert (forall text, m_text (text_message 7 (lit "flat")) = Some text ->
            (length text <= 5)%nat) as Hs
    by (intros text [= <-]; vm_compute; lia).
  destruct (Hlong _ eq_refl Hl) as (L1 & L2 & L3).
  destruct (Hshort Hs) as (S1 & S2 & S3).
  split; [reflexivity|]. split; [exact Hl|]. split; [reflexivity|].
  split; [exact L1|]. split; [exact L2|]. split; [exact L3|].
  split; [exact Hs|]. split; [exact S1|]. split; [exact S2 | exact S3].
Defined.

Lemma new_price_witness :
  m_text (text_message 99 (lit "inf")) = Some (lit "inf") /\
  float_of_str (lit "inf") = Some (XInf false) /\
  is_nan (XInf false) = false /\
  w_data new_price_step !! "item_id" = Some (VInt 1) /\
  w_faults new_price_step = [] /\
  process_new_price (text_message 99 (lit "inf")) new_price_step =
  Raise OverflowError
    (World (with_menu_items [set_price (XInf false) shawarma; fries] shop)
       (Some await_new_price) {["item_id" := VInt 1]} [] []).
Proof.
  do 5 (split; [reflexivity|]).
  exact (new_price_committed_before_shown (text_message 99 (lit "inf")) (lit "inf")
           (XInf false) (VInt 1) new_price_step eq_refl eq_refl eq_refl eq_refl
           eq_refl).
Defined.

Lemma setting_witness :
  let o := process_new_setting_value (text_message 99 (lit "350")) new_fee_step in
  let o' := process_new_setting_value (text_message 99 (lit "350")) new_tip_step in
  m_text (text_message 99 (lit "350")) = Some (lit "350") /\
  float_of_str (lit "350") = Some (XFin 350) /\
  w_data new_fee_step !! "key" = Some (VStr (lit "delivery_fee")) /\
  w_data new_tip_step !! "key" = Some (VStr (lit "tip")) /\
  w_faults new_fee_step = [] /\ w_faults new_tip_step = [] /\
  returned o = true /\
  settings_dict (settings (w_db (final o))) !! lit "delivery_fee" =
    Some (Some (XFin 350)) /\
  returned o' = true /\
  w_sent (final o') = [SettingUpdated; AdminPanel] /\
  settings_dict (settings (w_db (final o'))) !! lit "tip" = None.
Proof.
  intros o o'.
  destruct (setting_updated_never_created (R := reference_runtime) (text_message 99 (lit "350")) (lit "350")
              (XFin 350) (VStr (lit "delivery_fee")) new_fee_step
              eq_refl eq_refl eq_refl eq_refl) as (Hr & _ & _ & _ & Hk & _).
  destruct (setting_updated_never_created (R := reference_runtime) (text_message 99 (lit "350")) (lit "350")
              (XFin 350) (VStr (lit "tip")) new_tip_step
              eq_refl eq_refl eq_refl eq_refl) as (Hr' & _ & _ & Hs' & Hk' & _).
  do 6 (split; [reflexivity|]).
  split; [exact Hr|]. split; [exact (Hk (lit "delivery_fee"))|].
  split; [exact Hr'|]. split; [exact Hs' | exact (Hk' (lit "tip"))].
Defined.

Lemma new_item_witness :
  m_text (text_message 99 (lit "Cola")) = Some (lit "Cola") /\
  m_text (text_message 99 (lit "120")) = Some (lit "120") /\
  float_of_str (lit "120") = Some (XFin 120) /\
  is_nan (XFin 120) = false /\
  w_faults (idle shop []) = [] /\
  (admin_add_item (callback 99 []) add_to_sides;;
   process_new_item_name (text_message 99 (lit "Cola"));;
   process_new_item_price (text_message 99 (lit "120"))) (idle shop []) =
  Ok tt
    (World (with_menu_items
              [shawarma; fries;
               {| mi_id := 3; mi_name := VStr (lit "Cola"); mi_description := VNone;
                  mi_price := XFin 120; mi_photo_id := VNone;
                  mi_category_id := VInt 2 |}] shop)
       None ∅ [AskItemName; Ack; AskItemPrice; ItemAdded; AdminPanel] []).
Proof.
  do 5 (split; [reflexivity|]).
  destruct (new_item_in_three_steps (R := reference_runtime) (callback 99 []) add_to_sides
              (text_message 99 (lit "Cola")) (text_message 99 (lit "120"))
              (lit "Cola") (lit "120") (XFin 120) (idle shop [])
              eq_refl eq_refl eq_refl eq_refl eq_refl) as (H1 & H2 & H3 & _).
  unfold mbind, M_bind. rewrite H1, H2. exact H3.
Defined.

Lemma catalog_keys_witness :
  keys_unique shop /\
  keys_unique (w_db (final (admin_confirm_delete_item (callback 99 []) delete_standard
                              (idle shop second_statement_fails)))) /\
  keys_unique (w_db (final (process_new_category_name (text_message 99 (lit "Drinks"))
                              new_category_step))).
Proof.
  assert (keys_unique shop) as Hk.
  { unfold keys_unique. split; [|split].
    - apply (bool_decide_unpack (NoDup [1; 2])). exact I.
    - apply (bool_decide_unpack (NoDup [lit "Shawarma"; lit "Sides"])). exact I.
    - apply (bool_decide_unpack (NoDup [1; 2])). exact I. }
  split; [exact Hk|].
  split.
  - pose proof (catalog_keys_stay_unique admins
                  (callback 99 (lit "admin:confirm_delete_item:1:1:"))
                  (text_message 99 (lit "Drinks"))
                  (idle shop second_statement_fails) Hk) as (H & _).
    exact H.
  - pose proof (catalog_keys_stay_unique admins (callback 99 [])
                  (text_message 99 (lit "Drinks")) new_category_step Hk)
      as (_ & H & _).
    exact H.
Defined.

Lemma review_witness :
  let o := confirm_order (text_message 7 (lit "no")) comment_without_name in
  (w_data comment_without_name !! "delivery_type" = None \/
   w_data comment_without_name !! "name" = None \/
   w_data comment_without_name !! "phone" = None) /\
  returned o = false /\ w_state (final o) = Some awaiting_comment.
Proof.
  intros o.
  assert (w_data comment_without_name !! "delivery_type" = None \/
          w_data comment_without_name !! "name" = None \/
          w_data comment_without_name !! "phone" = None) as Hm
    by (right; left; reflexivity).
  destruct (review_needs_name_and_phone (text_message 7 (lit "no"))
              comment_without_name) as (_ & _ & H).
  split; [exact Hm | exact (H Hm)].
Defined.

Lemma order_needs_witness :
  w_faults review_without_phone = [] /\
  cart_lines 7 (w_db review_without_phone) <> [] /\
  w_db (final (process_final_confirmation admins (callback 7 (lit "confirm_order"))
                 review_without_phone)) = shop /\
  process_final_confirmation admins (callback 7 (lit "confirm_order"))
    review_without_phone = Raise (KeyError "phone") review_without_phone.
Proof.
  assert (cart_lines 7 (w_db review_without_phone) <> []) as Hne
    by (intros H; apply (f_equal (@length _)) in H; discriminate H).
  destruct (order_needs_name_and_phone admins (callback 7 (lit "confirm_order"))
              review_without_phone "phone" eq_refl) as [Hdb Hraise].
  split; [reflexivity|]. split; [exact Hne|].
  split; [exact Hdb | exact (Hraise eq_refl Hne)].
Defined.

Lemma seeding_witness :
  categories shop <> [] /\
  w_db (final (populate_db (idle shop []))) = shop /\
  w_faults (idle fresh []) = [] /\
  returned (populate_db (idle fresh [])) = true /\
  categories (w_db (final (populate_db (idle fresh [])))) <> [].
Proof.
  assert (categories shop <> []) as Hne by discriminate.
  destruct (menu_seeded_whole_or_not_at_all (idle shop [])) as (_ & _ & H & _).
  destruct (menu_seeded_whole_or_not_at_all (idle fresh [])) as (_ & _ & _ & H').
  split; [exact Hne|]. split; [exact (H Hne)|]. split; [reflexivity|].
  exact (H' eq_refl).
Defined.

Lemma seeded_once_witness :
  w_faults (idle fresh []) = [] /\
  (populate_db;; populate_db) (idle fresh []) = populate_db (idle fresh []).
Proof.
  split; [reflexivity|]. exact (menu_seeded_once (idle fresh []) eq_refl).
Defined.

Lemma seeding_keys_witness :
  let db' := w_db (final (populate_db (idle fresh []))) in
  keys_unique fresh /\ items_refer_to_categories fresh /\ cart_refers_to_items fresh /\
  keys_unique db' /\ items_refer_to_categories db' /\ cart_refers_to_items db'.
Proof.
  intros db'.
  assert (keys_unique fresh) as Hk.
  { unfold keys_unique. cbn. repeat split; apply NoDup_nil_2. }
  assert (items_refer_to_categories fresh) as Hi by (intros i k []).
  assert (cart_refers_to_items fresh) as Hc by (intros c []).
  split; [exact Hk|]. split; [exact Hi|]. split; [exact Hc|].
  exact (seeding_keeps_keys_and_references (idle fresh []) Hk Hi Hc).
Defined.

Lemma takeaway_order_witness :
  let o := (dispatch_callback admins (callback 7 (lit "checkout"));;
            process_name (text_message 7 (lit "Ann"));;
            process_phone_text (text_message 7 (lit "+7 999 123 45 67"));;
            dispatch_callback admins (callback 7 (lit "delivery:takeaway"));;
            process_comment (text_message 7 (lit "no"));;
            dispatch_callback admins (callback 7 (lit "confirm_order")))
             (idle shop []) in
  (10 <= length (digits_only (lit "+7 999 123 45 67")) <= 15)%nat /\
  cart_lines 7 shop <> [] /\
  Forall (fun l => exists z, int_of_real (line_total l) = inr z) (cart_lines 7 shop) /\
  int_of_real (py_sum (List.map line_total (cart_lines 7 shop))) = inr 460 /\
  returned o = true /\ w_state (final o) = None /\
  cart_of 7 (w_db (final o)) = [] /\
  List.map (fun r => (o_user_name r, o_phone_number r, o_delivery_type r,
                      o_address r, o_comment r, o_total_amount r))
    (orders (w_db (final o))) =
    [(VStr (lit "Ann"), VStr (lit "+7 999 123 45 67"), VStr (lit "takeaway"),
      VStr [], VStr [], VReal (XFin 460))].
Proof.
  intros o.
  assert (10 <= length (digits_only (lit "+7 999 123 45 67")) <= 15)%nat as Hd
    by (vm_compute; lia).
  assert (cart_lines 7 shop <> []) as Hne
    by (intros H; apply (f_equal (@length _)) in H; discriminate H).
  assert (Forall (fun l => exists z, int_of_real (line_total l) = inr z)
            (cart_lines 7 shop)) as Hints.
  { apply List.Forall_cons; [eexists; reflexivity | apply List.Forall_nil]. }
  destruct (takeaway_order_end_to_end (R := reference_runtime) admins
              (callback 7 (lit "checkout")) (callback 7 (lit "delivery:takeaway"))
              (callback 7 (lit "confirm_order")) (text_message 7 (lit "Ann"))
              (text_message 7 (lit "+7 999 123 45 67")) (text_message 7 (lit "no"))
              7 (lit "Ann") (lit "+7 999 123 45 67") (lit "no") 460 460 (idle shop [])
              eq_refl eq_refl eq_refl eq_refl Hd eq_refl eq_refl eq_refl eq_refl
              eq_refl eq_refl eq_refl Hne Hints eq_refl eq_refl)
    as (Hr & Hs & _ & _ & Hc & _).
  split; [exact Hd|]. split; [exact Hne|]. split; [exact Hints|].
  split; [reflexivity|]. split; [exact Hr|]. split; [exact Hs|].
  split; [exact Hc | reflexivity].
Defined.
